(** * av2.torch.dataloaders.utils: table adapters, tensor exporters, pose query

    A shallow embedding of [src/av2/torch/dataloaders/utils.py].

    The module is glue between three libraries (polars frames, numpy arrays,
    torch tensors) and three sibling modules of the package that are not in
    the tree ([.conversions.quat_to_yaw], [av2.geometry.geometry.quat_to_mat],
    [av2.geometry.se3.SE3]).  The libraries are modelled by the few
    operations the file calls; numbers are kept abstract ([num]) together
    with the element conversion [cast], so no statement depends on floating
    point arithmetic.  The sibling functions are operations of the class
    [Collaborators]; [Store] runs the two exporters as calls on objects
    shared with the caller, with [quat_to_yaw] as a procedure that may
    keep state ([Procedures]).

    Scope of the model: columns hold no nulls; a frame's column names are
    pairwise distinct (polars enforces it), see [frame_ok]. *)

From Stdlib Require Import List String ZArith Bool Arith Lia.
Import ListNotations.
Local Open Scope string_scope.
Local Open Scope list_scope.

Set Implicit Arguments.

(* ================================================================== *)
(** ** Python exceptions and the two monads of the embedding *)

(** The exceptions the file can surface.  [RaisedByCollaborator] stands for
    whatever an absent sibling function raises, named by its class. *)
Inductive PyError : Type :=
| AttributeError (name : string)
| TypeError_unexpected_keyword (name : string)
| TypeError_missing_arguments (names : list string)
| TypeError_expected_Tensor (index : nat)
| TypeError_object_array
| RuntimeError_empty_TensorList
| RuntimeError_sizes_differ
| RaisedByCollaborator (exception_class : string).

Inductive Res (A : Type) : Type :=
| Ok (a : A)
| Err (e : PyError).
Arguments Ok {A} a.
Arguments Err {A} e.

(** A method body: it receives the (mutable) object it is called on,
    may raise, and hands the object back. *)
Record Py (S A : Type) : Type := mkPy { run : S -> Res A * S }.
Arguments mkPy {S A} run.
Arguments run {S A} p s.

Class Monad (M : Type -> Type) : Type := {
  ret : forall {A}, A -> M A;
  bind : forall {A B}, M A -> (A -> M B) -> M B
}.

#[export] Instance Monad_Res : Monad Res := {
  ret := fun A a => Ok a;
  bind := fun A B m k => match m with Ok a => k a | Err e => Err e end
}.

#[export] Instance Monad_Py (S : Type) : Monad (Py S) := {
  ret := fun A a => mkPy (fun s => (Ok a, s));
  bind := fun A B m k =>
    mkPy (fun s => match run m s with
                   | (Ok a, s') => run (k a) s'
                   | (Err e, s') => (Err e, s')
                   end)
}.

Declare Scope py_scope.
Delimit Scope py_scope with py.
Notation "x <- m ;; k" := (bind m (fun x => k))
  (at level 61, m at next level, right associativity) : py_scope.
Local Open Scope py_scope.

(** Reading the receiver, and running a pure fallible step inside a method. *)
Definition reads {S A : Type} (f : S -> Res A) : Py S A :=
  mkPy (fun s => (f s, s)).

Definition eval {S A : Type} (m : Py S A) (s : S) : Res A := fst (run m s).
Definition exec {S A : Type} (m : Py S A) (s : S) : S := snd (run m s).

(** [[f(x) for x in xs]], left to right, stopping at the first exception. *)
Fixpoint mapM {M : Type -> Type} `{Monad M} {A B : Type}
         (f : A -> M B) (xs : list A) : M (list B) :=
  match xs with
  | [] => ret []
  | x :: xs' => y <- f x ;; ys <- mapM f xs' ;; ret (y :: ys)
  end.

(* ================================================================== *)
(** ** Plain Python: tuples, lists, dicts *)

Definition str_in (name : string) (names : list string) : bool :=
  existsb (String.eqb name) names.

(** [list.insert(i, x)] for [i >= 0]: positions past the end append. *)
Fixpoint list_insert {A : Type} (i : nat) (x : A) (l : list A) : list A :=
  match i, l with
  | O, _ => x :: l
  | S _, [] => [x]
  | S i', y :: l' => y :: list_insert i' x l'
  end.

(** A [dict] with string keys, in insertion order. *)
Definition dict (V : Type) : Type := list (string * V).

Fixpoint dict_get {V : Type} (d : dict V) (key : string) : option V :=
  match d with
  | [] => None
  | (k, v) :: d' => if String.eqb key k then Some v else dict_get d' key
  end.

(** [d[key] = v]: replaces in place, appends a new key at the end. *)
Fixpoint dict_set {V : Type} (d : dict V) (key : string) (v : V) : dict V :=
  match d with
  | [] => [(key, v)]
  | (k, w) :: d' =>
      if String.eqb key k then (k, v) :: d' else (k, w) :: dict_set d' key v
  end.

Definition keys {V : Type} (d : dict V) : list string := map fst d.

(* ================================================================== *)
(** ** Scalar kinds shared by polars, numpy and torch *)

Inductive ScalarType : Type :=
| Float32 | Float64
| Int8 | Int16 | Int32 | Int64
| UInt8 | UInt16 | UInt32 | UInt64.

Definition ScalarType_eqb (a b : ScalarType) : bool :=
  match a, b with
  | Float32, Float32 | Float64, Float64
  | Int8, Int8 | Int16, Int16 | Int32, Int32 | Int64, Int64
  | UInt8, UInt8 | UInt16, UInt16 | UInt32, UInt32 | UInt64, UInt64 => true
  | _, _ => false
  end.

(** [pl.DataType]: the numeric kinds and the text kinds. *)
Inductive DataType : Type :=
| Numeric (kind : ScalarType)
| Utf8
| Categorical.

Definition DataType_eqb (a b : DataType) : bool :=
  match a, b with
  | Numeric x, Numeric y => ScalarType_eqb x y
  | Utf8, Utf8 | Categorical, Categorical => true
  | _, _ => false
  end.

(** [dtype in (...)]. *)
Definition dtype_in (d : DataType) (ds : list DataType) : bool :=
  existsb (DataType_eqb d) ds.

(** Numbers and the two library facts about them that the file relies on:
    the element conversion behind [Tensor.type] and behind type promotion,
    and torch's promotion table. *)
Class Numerics : Type := {
  num : Type;
  cast : ScalarType -> num -> num;
  result_type : ScalarType -> ScalarType -> ScalarType
}.

(* ================================================================== *)
(** ** polars: series and frames *)

(** What [Series.to_list] and [tuple(...)] hold. *)
Inductive PyScalar `{Numerics} : Type :=
| PyNum (x : num)
| PyStr (s : string).
Arguments PyNum {_} x.
Arguments PyStr {_} s.

Inductive Series `{Numerics} : Type :=
| NumericSeries (kind : ScalarType) (values : list num)
| TextSeries (categorical : bool) (values : list string).
Arguments NumericSeries {_} kind values.
Arguments TextSeries {_} categorical values.

Definition Series_dtype `{Numerics} (s : Series) : DataType :=
  match s with
  | NumericSeries kind _ => Numeric kind
  | TextSeries false _ => Utf8
  | TextSeries true _ => Categorical
  end.

Definition Series_len `{Numerics} (s : Series) : nat :=
  match s with
  | NumericSeries _ values => List.length values
  | TextSeries _ values => List.length values
  end.

Definition to_list `{Numerics} (s : Series) : list PyScalar :=
  match s with
  | NumericSeries _ values => map PyNum values
  | TextSeries _ values => map PyStr values
  end.

(** [DataFrame.to_dict()]: column name to series, in column order. *)
Definition DataFrame `{Numerics} : Type := dict Series.

Definition to_dict `{Numerics} (dataframe : DataFrame) : dict Series := dataframe.

(** The invariants polars keeps on a frame: distinct names, one height. *)
Definition frame_ok `{Numerics} (dataframe : DataFrame) (height : nat) : Prop :=
  NoDup (keys dataframe) /\
  Forall (fun column => Series_len (snd column) = height) dataframe.

(* ================================================================== *)
(** ** numpy arrays and torch tensors: dtype, shape, row-major data *)

Record NDArray `{Numerics} : Type := mkNDArray {
  nd_dtype : ScalarType;
  nd_shape : list nat;
  nd_data : list num
}.
Arguments mkNDArray {_} nd_dtype nd_shape nd_data.

Record Tensor `{Numerics} : Type := mkTensor {
  dtype : ScalarType;
  shape : list nat;
  data : list num
}.
Arguments mkTensor {_} dtype shape data.

(** [Series.to_numpy(writable=True)].  A text series would give an object
    array, which [torch.as_tensor] rejects ([TypeError_object_array]); the
    file never asks for one. *)
Definition to_numpy `{Numerics} (s : Series) : Res NDArray :=
  match s with
  | NumericSeries kind values =>
      Ok (mkNDArray kind [List.length values] values)
  | TextSeries _ _ => Err TypeError_object_array
  end.

(** [torch.as_tensor(ndarray)]: same dtype, shape and elements. *)
Definition torch_as_tensor `{Numerics} (a : NDArray) : Tensor :=
  mkTensor (nd_dtype a) (nd_shape a) (nd_data a).

(** [ndarray.squeeze()]: axes of length one are dropped. *)
Definition squeeze `{Numerics} (a : NDArray) : NDArray :=
  mkNDArray (nd_dtype a)
            (filter (fun d => negb (Nat.eqb d 1)) (nd_shape a))
            (nd_data a).

Definition numel (shape : list nat) : nat := fold_right Nat.mul 1 shape.

Fixpoint zip_with {A B C : Type} (f : A -> B -> C)
         (l : list A) (l' : list B) : list C :=
  match l, l' with
  | a :: t, b :: t' => f a b :: zip_with f t t'
  | _, _ => []
  end.

(** [rows_of_columns n cols]: the [n] rows whose [j]-th entry comes from
    the [j]-th column. *)
Fixpoint rows_of_columns {A : Type} (n : nat) (cols : list (list A))
  : list (list A) :=
  match cols with
  | [] => repeat [] n
  | c :: cols' => zip_with cons c (rows_of_columns n cols')
  end.

(** [Tensor.type(dtype)]. *)
Definition Tensor_type `{Numerics} (t : Tensor) (target : ScalarType) : Tensor :=
  mkTensor target (shape t) (map (cast target) (data t)).

(** Everything a container attribute can hold at run time: the dataclass
    does not enforce its annotations. *)
Inductive Value `{Numerics} : Type :=
| VTensor (t : Tensor)
| VTuple (items : list PyScalar)
| VSeries (s : Series)
| VObject.
Arguments VTensor {_} t.
Arguments VTuple {_} items.
Arguments VSeries {_} s.
Arguments VObject {_}.

(** What reading a value back yields, element by element
    ([Tensor.tolist()], the tuple itself, [Series.to_list()]). *)
Definition Value_items `{Numerics} (v : Value) : list PyScalar :=
  match v with
  | VTensor t => map PyNum (data t)
  | VTuple items => items
  | VSeries s => to_list s
  | VObject => []
  end.

(** The argument check of [torch.stack]: every element is a tensor. *)
Fixpoint expect_tensors `{Numerics} (index : nat) (values : list Value)
  : Res (list Tensor) :=
  match values with
  | [] => Ok []
  | VTensor t :: values' =>
      ts <- expect_tensors (S index) values' ;; ret (t :: ts)
  | _ :: _ => Err (TypeError_expected_Tensor index)
  end.

Definition shape_eqb (s s' : list nat) : bool :=
  if list_eq_dec Nat.eq_dec s s' then true else false.

(** [torch.stack(tensors, dim=-1)]: a non-empty list of equally shaped
    tensors, promoted to a common dtype, laid side by side on a new last
    axis. *)
Definition torch_stack `{Numerics} (tensors : list Value) : Res Tensor :=
  ts <- expect_tensors 0 tensors ;;
  match ts with
  | [] => Err RuntimeError_empty_TensorList
  | t0 :: rest =>
      if forallb (fun t => shape_eqb (shape t) (shape t0)) rest then
        let promoted := fold_left result_type (map dtype rest) (dtype t0) in
        ret (mkTensor promoted
                      (shape t0 ++ [List.length ts])
                      (List.concat (rows_of_columns (numel (shape t0))
                                 (map (fun t => map (cast promoted) (data t)) ts))))
      else Err RuntimeError_sizes_differ
  end.

(** [t[i, j]] of a two-dimensional tensor. *)
Definition Tensor_get2 `{Numerics} (t : Tensor) (i j : nat) : option num :=
  match shape t with
  | [_; k] => if Nat.ltb j k then nth_error (data t) (i * k + j) else None
  | _ => None
  end.

(** The sibling modules of the package and the interpreter:
    - [quat_to_yaw] of [av2.torch.dataloaders.conversions];
    - [quat_to_mat] of [av2.geometry.geometry];
    - [SE3] of [av2.geometry.se3], with its constructor;
    - [object_attr]: the names every instance answers through [object] and
      the dataclass machinery ([__class__], [__dict__], [__eq__], ...). *)
Class Collaborators `{Numerics} : Type := {
  quat_to_yaw : Tensor -> Res Tensor;
  quat_to_mat : NDArray -> Res NDArray;
  SE3 : Type;
  SE3_init : NDArray -> NDArray -> Res SE3;
  object_attr : string -> bool
}.

Definition LIDAR_GLOB_PATTERN : string := "*/sensors/lidar/*".
Definition MAX_STR_LEN : nat := 32.

Definition DEFAULT_ANNOTATIONS_TENSOR_FIELDS : list string :=
  ["tx_m"; "ty_m"; "tz_m"; "length_m"; "width_m"; "height_m";
   "qw"; "qx"; "qy"; "qz"; "vx_m"; "vy_m"; "vz_m"].

Definition DEFAULT_LIDAR_TENSOR_FIELDS : list string := ["x"; "y"; "z"].

Inductive OrientationMode : Type :=
| QUATERNION_WXYZ
| YAW.

(** Binding the keyword arguments of the [cls] call to the generated
    [__init__]: an unknown
    keyword is rejected first, then the parameters left without a value. *)
Definition unexpected_keyword {V : Type} (fields : list string) (kw : dict V)
  : option string :=
  find (fun k => negb (str_in k fields)) (keys kw).

Definition missing_arguments {V : Type} (fields : list string) (kw : dict V)
  : list string :=
  filter (fun f => negb (str_in f (keys kw))) fields.

Definition argument {V : Type} (fields : list string) (kw : dict V)
           (name : string) : Res V :=
  match dict_get kw name with
  | Some v => Ok v
  | None => Err (TypeError_missing_arguments (missing_arguments fields kw))
  end.

(** [self.f] and a pure call inside a method. *)
Definition attr {S V : Type} (f : S -> V) : Py S V :=
  reads (fun self => Ok (f self)).

Definition call {S A : Type} (r : Res A) : Py S A :=
  reads (fun _ => r).

(* ================================================================== *)
(** ** [class Annotations] *)

Module Annotations.

Record t `{Numerics} : Type := mk {
  tx_m : Value;
  ty_m : Value;
  tz_m : Value;
  length_m : Value;
  width_m : Value;
  height_m : Value;
  qw : Value;
  qx : Value;
  qy : Value;
  qz : Value;
  vx_m : Value;
  vy_m : Value;
  vz_m : Value;
  timestamp_ns : Value;
  num_interior_pts : Value;
  category : Value;
  track_uuid : Value
}.

(** The declared fields, in declaration order. *)
Definition fields : list string :=
  ["tx_m"; "ty_m"; "tz_m"; "length_m"; "width_m"; "height_m";
   "qw"; "qx"; "qy"; "qz"; "vx_m"; "vy_m"; "vz_m";
   "timestamp_ns"; "num_interior_pts"; "category"; "track_uuid"].

(** The instance dictionary. *)
Definition vars `{Numerics} (self : t) : dict Value :=
  [("tx_m", tx_m self); ("ty_m", ty_m self); ("tz_m", tz_m self);
   ("length_m", length_m self); ("width_m", width_m self);
   ("height_m", height_m self);
   ("qw", qw self); ("qx", qx self); ("qy", qy self); ("qz", qz self);
   ("vx_m", vx_m self); ("vy_m", vy_m self); ("vz_m", vz_m self);
   ("timestamp_ns", timestamp_ns self);
   ("num_interior_pts", num_interior_pts self);
   ("category", category self); ("track_uuid", track_uuid self)].

(** The generated [__init__], called with keywords only. *)
Definition init `{Numerics} (kw : dict Value) : Res t :=
  match unexpected_keyword fields kw with
  | Some k => Err (TypeError_unexpected_keyword k)
  | None =>
      a1 <- argument fields kw "tx_m" ;;
      a2 <- argument fields kw "ty_m" ;;
      a3 <- argument fields kw "tz_m" ;;
      a4 <- argument fields kw "length_m" ;;
      a5 <- argument fields kw "width_m" ;;
      a6 <- argument fields kw "height_m" ;;
      a7 <- argument fields kw "qw" ;;
      a8 <- argument fields kw "qx" ;;
      a9 <- argument fields kw "qy" ;;
      a10 <- argument fields kw "qz" ;;
      a11 <- argument fields kw "vx_m" ;;
      a12 <- argument fields kw "vy_m" ;;
      a13 <- argument fields kw "vz_m" ;;
      a14 <- argument fields kw "timestamp_ns" ;;
      a15 <- argument fields kw "num_interior_pts" ;;
      a16 <- argument fields kw "category" ;;
      a17 <- argument fields kw "track_uuid" ;;
      ret (mk a1 a2 a3 a4 a5 a6 a7 a8 a9 a10 a11 a12 a13 a14 a15 a16 a17)
  end.

(** What one column becomes. *)
Definition convert `{Numerics} (field : Series) : Res Value :=
  if dtype_in (Series_dtype field)
              [Numeric Float32; Numeric Float64; Numeric Int32]
  then a <- to_numpy field ;; ret (VTensor (torch_as_tensor a))
  else ret (VTuple (to_list field)).

(** The [for] loop over [dataframe.to_dict().items()]. *)
Fixpoint for_items `{Numerics} (items : list (string * Series))
         (columns : dict Value) : Res (dict Value) :=
  match items with
  | [] => ret columns
  | (field_name, field) :: items' =>
      v <- convert field ;;
      for_items items' (dict_set columns field_name v)
  end.

Definition from_dataframe `{Numerics} (dataframe : DataFrame) : Res t :=
  columns <- for_items (to_dict dataframe) [] ;;
  init columns.

(** [quaternion]: scalar first order (w, x, y, z). *)
Definition quaternion `{Numerics} : Py t Tensor :=
  w <- attr qw ;;
  x <- attr qx ;;
  y <- attr qy ;;
  z <- attr qz ;;
  call (torch_stack [w; x; y; z]).

(** [yaw_radians]: rotation about the gravity aligned axis. *)
Definition yaw_radians `{Collaborators} : Py t Tensor :=
  q <- quaternion ;;
  call (quat_to_yaw q).

(** [getattr(self, name)]: a stored field, one of the two properties, a
    method or inherited attribute (some object that is no tensor), or
    [AttributeError]. *)
Definition getattr `{Collaborators} (name : string) : Py t Value :=
  found <- attr (fun self => dict_get (vars self) name) ;;
  match found with
  | Some v => ret v
  | None =>
      if name =? "quaternion" then q <- quaternion ;; ret (VTensor q)
      else if name =? "yaw_radians" then y <- yaw_radians ;; ret (VTensor y)
      else if str_in name ["from_dataframe"; "as_tensor"] || object_attr name
           then ret VObject
      else call (Err (AttributeError name))
  end.

Definition as_tensor `{Collaborators} (field_ordering : list string)
           (orientation_mode : OrientationMode) (dtype : ScalarType)
  : Py t Tensor :=
  let field_ordering :=
    match orientation_mode with
    | YAW =>
        let augmented_ordering :=
          filter (fun field_name =>
                    negb (str_in field_name ["qw"; "qx"; "qy"; "qz"]))
                 field_ordering in
        list_insert 6 "yaw" augmented_ordering
    | QUATERNION_WXYZ => field_ordering
    end in
  fields <- mapM (fun field_name =>
                    if negb (field_name =? "yaw") then getattr field_name
                    else y <- yaw_radians ;; ret (VTensor y))
                 field_ordering ;;
  stacked <- call (torch_stack fields) ;;
  ret (Tensor_type stacked dtype).

End Annotations.

(* ================================================================== *)
(** ** [class Lidar] *)

Module Lidar.

Record t `{Numerics} : Type := mk {
  x : Value;
  y : Value;
  z : Value;
  intensity : Value;
  laser_number : Value;
  offset_ns : Value
}.

Definition fields : list string :=
  ["x"; "y"; "z"; "intensity"; "laser_number"; "offset_ns"].

Definition vars `{Numerics} (self : t) : dict Value :=
  [("x", x self); ("y", y self); ("z", z self);
   ("intensity", intensity self); ("laser_number", laser_number self);
   ("offset_ns", offset_ns self)].

Definition init `{Numerics} (kw : dict Value) : Res t :=
  match unexpected_keyword fields kw with
  | Some k => Err (TypeError_unexpected_keyword k)
  | None =>
      a1 <- argument fields kw "x" ;;
      a2 <- argument fields kw "y" ;;
      a3 <- argument fields kw "z" ;;
      a4 <- argument fields kw "intensity" ;;
      a5 <- argument fields kw "laser_number" ;;
      a6 <- argument fields kw "offset_ns" ;;
      ret (mk a1 a2 a3 a4 a5 a6)
  end.

(** The [for] loop over [columns.items()]: only the columns of the two
    listed kinds are reassigned, the others keep their series. *)
Fixpoint for_items `{Numerics} (items : list (string * Series))
         (columns : dict Value) : Res (dict Value) :=
  match items with
  | [] => ret columns
  | (field_name, field) :: items' =>
      if dtype_in (Series_dtype field) [Numeric Float32; Numeric Int32]
      then a <- to_numpy field ;;
           for_items items'
                     (dict_set columns field_name (VTensor (torch_as_tensor a)))
      else for_items items' columns
  end.

Definition from_dataframe `{Numerics} (dataframe : DataFrame) : Res t :=
  let columns := map (fun c => (fst c, VSeries (snd c))) (to_dict dataframe) in
  columns <- for_items (to_dict dataframe) columns ;;
  init columns.

Definition getattr `{Collaborators} (name : string) : Py t Value :=
  found <- attr (fun self => dict_get (vars self) name) ;;
  match found with
  | Some v => ret v
  | None =>
      if str_in name ["from_dataframe"; "as_tensor"] || object_attr name
      then ret VObject
      else call (Err (AttributeError name))
  end.

Definition as_tensor `{Collaborators} (field_ordering : list string)
           (dtype : ScalarType) : Py t Tensor :=
  fields <- mapM (fun field_name => getattr field_name) field_ordering ;;
  stacked <- call (torch_stack fields) ;;
  ret (Tensor_type stacked dtype).

End Lidar.

(** [class Sweep]. *)
Record Sweep `{Numerics} : Type := mkSweep {
  annotations : Annotations.t;
  lidar : Lidar.t
}.

(* ================================================================== *)
(** ** The poses frame and [query_SE3] *)

Module Poses.

(** One row of the poses frame, under the schema [query_SE3] reads. *)
Record row `{Numerics} : Type := mkRow {
  timestamp_ns : Z;
  qw : num;
  qx : num;
  qy : num;
  qz : num;
  tx_m : num;
  ty_m : num;
  tz_m : num
}.

(** The frame: its rows, and the dtype its float columns share. *)
Record t `{Numerics} : Type := mk {
  float_dtype : ScalarType;
  rows : list row
}.

(** [poses.filter(predicate)]. *)
Definition filter `{Numerics} (poses : t) (predicate : row -> bool) : t :=
  mk (float_dtype poses) (List.filter predicate (rows poses)).

(** [pose.select(columns).to_numpy()]: one array row per frame row. *)
Definition select_to_numpy `{Numerics} (pose : t) (columns : list (row -> num))
  : NDArray :=
  mkNDArray (float_dtype pose)
            [List.length (rows pose); List.length columns]
            (flat_map (fun r => map (fun column => column r) columns)
                      (rows pose)).

End Poses.

Definition query_SE3 `{Collaborators} (poses : Poses.t) (timestamp_ns : Z)
  : Res SE3 :=
  let pose :=
    Poses.filter poses (fun r => Z.eqb (Poses.timestamp_ns r) timestamp_ns) in
  let quat :=
    squeeze (Poses.select_to_numpy pose [Poses.qw; Poses.qx; Poses.qy; Poses.qz]) in
  let translation :=
    squeeze (Poses.select_to_numpy pose [Poses.tx_m; Poses.ty_m; Poses.tz_m]) in
  rotation <- quat_to_mat quat ;;
  SE3_init rotation translation.

(* ================================================================== *)
(** ** The exporters as calls on shared objects *)

(** [quat_to_yaw] as the interpreter runs it: a procedure of the sibling
    module, which may keep state of its own from one call to the next. *)
Class Procedures `{Numerics} : Type := {
  module_state : Type;
  quat_to_yaw_proc : Tensor -> Py module_state Tensor
}.

Module Store.

(** The sequences a caller can pass for [field_ordering]: a [list] can be
    written in place, a [tuple] cannot. *)
Inductive Sequence : Type :=
| PyList (items : list string)
| PyTuple (items : list string).

Definition Sequence_items (o : Sequence) : list string :=
  match o with
  | PyList items => items
  | PyTuple items => items
  end.

(** What a call can reach: its receiver, the sequence objects allocated so
    far (a reference is an index; the module constant
    [DEFAULT_ANNOTATIONS_TENSOR_FIELDS] is one of them), and the state of
    the sibling module. *)
Record World (T E : Type) : Type := mkWorld {
  receiver : T;
  objects : list Sequence;
  sibling : E
}.
Arguments mkWorld {T E} receiver objects sibling.
Arguments receiver {T E} w.
Arguments objects {T E} w.
Arguments sibling {T E} w.

(** The object behind a reference. *)
Definition deref {T E : Type} (w : World T E) (r : nat) : Sequence :=
  nth r (objects w) (PyTuple []).

Fixpoint assign {A : Type} (r : nat) (x : A) (l : list A) : list A :=
  match r, l with
  | _, [] => []
  | O, _ :: l' => x :: l'
  | S r', y :: l' => y :: assign r' x l'
  end.

(** [list(...)] and [tuple(...)]: a new object, after those there are. *)
Definition new {T E : Type} (o : Sequence) : Py (World T E) nat :=
  mkPy (fun w => (Ok (List.length (objects w)),
                  mkWorld (receiver w) (objects w ++ [o]) (sibling w))).

(** Iterating over a sequence. *)
Definition iter {T E : Type} (r : nat) : Py (World T E) (list string) :=
  reads (fun w => Ok (Sequence_items (deref w r))).

(** [r.insert(i, x)]: the list is written in place; a tuple has no such
    method. *)
Definition insert {T E : Type} (r i : nat) (x : string) : Py (World T E) unit :=
  mkPy (fun w =>
          match deref w r with
          | PyList items =>
              (Ok tt,
               mkWorld (receiver w)
                       (assign r (PyList (list_insert i x items)) (objects w))
                       (sibling w))
          | PyTuple _ => (Err (AttributeError "insert"), w)
          end).

(** A method or property of the receiver, and a procedure of the sibling
    module, run from inside a call. *)
Definition on_receiver {T E A : Type} (m : Py T A) : Py (World T E) A :=
  mkPy (fun w => (eval m (receiver w),
                  mkWorld (exec m (receiver w)) (objects w) (sibling w))).

Definition in_sibling {T E A : Type} (m : Py E A) : Py (World T E) A :=
  mkPy (fun w => (eval m (sibling w),
                  mkWorld (receiver w) (objects w) (exec m (sibling w)))).

Definition yaw_radians `{Procedures}
  : Py (World Annotations.t module_state) Tensor :=
  q <- on_receiver Annotations.quaternion ;;
  in_sibling (quat_to_yaw_proc q).

Definition Annotations_getattr {N : Numerics} {C : @Collaborators N}
           {P : @Procedures N} (name : string)
  : Py (World Annotations.t module_state) Value :=
  found <- on_receiver (attr (fun self => dict_get (Annotations.vars self) name)) ;;
  match found with
  | Some v => ret v
  | None =>
      if name =? "quaternion"
      then q <- on_receiver Annotations.quaternion ;; ret (VTensor q)
      else if name =? "yaw_radians" then y <- yaw_radians ;; ret (VTensor y)
      else if str_in name ["from_dataframe"; "as_tensor"] || object_attr name
           then ret VObject
      else call (Err (AttributeError name))
  end.

(** [Annotations.as_tensor], called with a reference to the ordering.  In
    YAW mode [list(filter(...))] is a new list, [insert] writes that list,
    and [tuple(...)] is a new tuple, to which the local name
    [field_ordering] is rebound. *)
Definition Annotations_as_tensor {N : Numerics} {C : @Collaborators N}
           {P : @Procedures N} (field_ordering : nat)
           (orientation_mode : OrientationMode) (dtype : ScalarType)
  : Py (World Annotations.t module_state) Tensor :=
  field_ordering <-
    match orientation_mode with
    | YAW =>
        names <- iter field_ordering ;;
        augmented_ordering <-
          new (PyList (filter (fun field_name =>
                                 negb (str_in field_name ["qw"; "qx"; "qy"; "qz"]))
                              names)) ;;
        done <- insert augmented_ordering 6 "yaw" ;;
        names <- iter augmented_ordering ;;
        new (PyTuple names)
    | QUATERNION_WXYZ => ret field_ordering
    end ;;
  names <- iter field_ordering ;;
  fields <- mapM (fun field_name =>
                    if negb (field_name =? "yaw")
                    then Annotations_getattr field_name
                    else y <- yaw_radians ;; ret (VTensor y))
                 names ;;
  stacked <- call (torch_stack fields) ;;
  ret (Tensor_type stacked dtype).

(** [Lidar.as_tensor], called with a reference to the ordering. *)
Definition Lidar_as_tensor {N : Numerics} {C : @Collaborators N} {E : Type}
           (field_ordering : nat) (dtype : ScalarType)
  : Py (World Lidar.t E) Tensor :=
  names <- iter field_ordering ;;
  fields <- mapM (fun field_name => on_receiver (Lidar.getattr field_name))
                 names ;;
  stacked <- call (torch_stack fields) ;;
  ret (Tensor_type stacked dtype).

End Store.

(* ================================================================== *)
(** ** Reference instances: integers for numbers, row-wise collaborators *)

Definition scalar_rank (d : ScalarType) : nat :=
  match d with
  | UInt8 => 0 | Int8 => 1 | Int16 => 2 | UInt16 => 3 | Int32 => 4
  | UInt32 => 5 | Int64 => 6 | UInt64 => 7 | Float32 => 8 | Float64 => 9
  end.

(** Integers as numbers; conversion keeps the value. *)
Definition ZNumerics : Numerics := {|
  num := Z;
  cast := fun _ z => z;
  result_type := fun a b => if Nat.leb (scalar_rank a) (scalar_rank b) then b else a
|}.

Fixpoint quads {A : Type} (l : list A) : list (A * A * A * A) :=
  match l with
  | a :: b :: c :: d :: l' => (a, b, c, d) :: quads l'
  | _ => []
  end.

(** A row-wise stand-in for [quat_to_yaw]: [(..., 4)] to [(...)]. *)
Definition rowwise_yaw (q : @Tensor ZNumerics) : Res (@Tensor ZNumerics) :=
  match rev (shape q) with
  | 4 :: leading =>
      Ok (@mkTensor ZNumerics (dtype q) (rev leading)
            (map (fun r => match r with
                           | (w, x, y, z) => (2 * (w * z + x * y))%Z
                           end)
                 (quads (data q))))
  | _ => Err (RaisedByCollaborator "RuntimeError")
  end.

(** A row-wise stand-in for [quat_to_mat]: [(..., 4)] to [(..., 3, 3)],
    by the rotation matrix of a unit quaternion, which integers compute
    exactly (the sample poses hold unit quaternions only). *)
Definition rowwise_mat (q : @NDArray ZNumerics) : Res (@NDArray ZNumerics) :=
  match rev (nd_shape q) with
  | 4 :: leading =>
      Ok (@mkNDArray ZNumerics (nd_dtype q) (rev leading ++ [3; 3])
            (flat_map
               (fun r => match r with
                         | (w, x, y, z) =>
                             [1 - 2 * (y * y + z * z); 2 * (x * y - z * w);
                              2 * (x * z + y * w);
                              2 * (x * y + z * w); 1 - 2 * (x * x + z * z);
                              2 * (y * z - x * w);
                              2 * (x * z - y * w); 2 * (y * z + x * w);
                              1 - 2 * (x * x + y * y)]%Z
                         end)
               (quads (nd_data q))))
  | _ => Err (RaisedByCollaborator "ValueError")
  end.

(** The constructor of [SE3] as the package defines it: the pair of its
    two arrays, once [__post_init__] has checked that the rotation is
    [(3, 3)] and the translation [(3,)]; it raises [ValueError]
    otherwise. *)
Definition checked_SE3 (rotation translation : @NDArray ZNumerics)
  : Res (@NDArray ZNumerics * @NDArray ZNumerics) :=
  if shape_eqb (nd_shape rotation) [3; 3] then
    if shape_eqb (nd_shape translation) [3] then Ok (rotation, translation)
    else Err (RaisedByCollaborator "ValueError")
  else Err (RaisedByCollaborator "ValueError").

(** The reference collaborators; three of the inherited attribute names. *)
Definition ZCollaborators : @Collaborators ZNumerics := {|
  quat_to_yaw := rowwise_yaw;
  quat_to_mat := rowwise_mat;
  SE3 := (@NDArray ZNumerics * @NDArray ZNumerics)%type;
  SE3_init := checked_SE3;
  object_attr := fun name => str_in name ["__class__"; "__dict__"; "__doc__"]
|}.

(** The conversion as a procedure that counts its calls. *)
Definition counting_yaw : @Procedures ZNumerics := {|
  module_state := nat;
  quat_to_yaw_proc := fun q => mkPy (fun calls => (rowwise_yaw q, S calls))
|}.

(** ** Sample data over the reference instances *)

Definition float_column (values : list Z) : @Series ZNumerics :=
  @NumericSeries ZNumerics Float64 values.

Definition float_tensor (values : list Z) : @Value ZNumerics :=
  VTensor (@mkTensor ZNumerics Float64 [List.length values] values).

(** An annotations frame of two boxes, with the kinds of the AV2 logs:
    float64 geometry, int64 counters, text labels. *)
Definition sample_annotations_frame : @DataFrame ZNumerics :=
  [("timestamp_ns", @NumericSeries ZNumerics Int64 [315969904359876000; 315969904359876000]%Z);
   ("track_uuid", @TextSeries ZNumerics false ["a1"; "b2"]);
   ("category", @TextSeries ZNumerics false ["REGULAR_VEHICLE"; "PEDESTRIAN"]);
   ("length_m", float_column [7; 8]%Z);
   ("width_m", float_column [9; 10]%Z);
   ("height_m", float_column [11; 12]%Z);
   ("qw", float_column [1; 0]%Z);
   ("qx", float_column [0; 0]%Z);
   ("qy", float_column [0; 0]%Z);
   ("qz", float_column [1; 5]%Z);
   ("tx_m", float_column [1; 2]%Z);
   ("ty_m", float_column [3; 4]%Z);
   ("tz_m", float_column [5; 6]%Z);
   ("vx_m", float_column [13; 14]%Z);
   ("vy_m", float_column [15; 16]%Z);
   ("vz_m", float_column [17; 18]%Z);
   ("num_interior_pts", @NumericSeries ZNumerics Int64 [120; 44]%Z)].

Definition sample_annotations : @Annotations.t ZNumerics :=
  @Annotations.mk ZNumerics
    (float_tensor [1; 2]%Z) (float_tensor [3; 4]%Z) (float_tensor [5; 6]%Z)
    (float_tensor [7; 8]%Z) (float_tensor [9; 10]%Z) (float_tensor [11; 12]%Z)
    (float_tensor [1; 0]%Z) (float_tensor [0; 0]%Z) (float_tensor [0; 0]%Z)
    (float_tensor [1; 5]%Z)
    (float_tensor [13; 14]%Z) (float_tensor [15; 16]%Z) (float_tensor [17; 18]%Z)
    (VTuple (map (@PyNum ZNumerics) [315969904359876000; 315969904359876000]%Z))
    (VTuple (map (@PyNum ZNumerics) [120; 44]%Z))
    (VTuple (map (@PyStr ZNumerics) ["REGULAR_VEHICLE"; "PEDESTRIAN"]))
    (VTuple (map (@PyStr ZNumerics) ["a1"; "b2"])).

(** The default export of [sample_annotations]: ten columns, yaw seventh. *)
Definition sample_annotations_export : @Tensor ZNumerics :=
  @mkTensor ZNumerics Float32 [2; 10]
    [1; 3; 5; 7; 9; 11; 2; 13; 15; 17;
     2; 4; 6; 8; 10; 12; 0; 14; 16; 18]%Z.

(** The export of [sample_annotations] for the ordering
    [("tx_m", "qw", "ty_m")] in YAW mode: yaw last. *)
Definition short_annotations_export : @Tensor ZNumerics :=
  @mkTensor ZNumerics Float32 [2; 3] [1; 3; 2; 2; 4; 0]%Z.

(** The same frame with the [qw] column read as integers of 64 bits. *)
Definition int64_qw_annotations_frame : @DataFrame ZNumerics :=
  dict_set sample_annotations_frame "qw"
           (@NumericSeries ZNumerics Int64 [1; 0]%Z).

(** The same frame with a column the class does not declare. *)
Definition extra_column_annotations_frame : @DataFrame ZNumerics :=
  dict_set sample_annotations_frame "score" (float_column [1; 1]%Z).

(** A lidar frame of two returns. *)
Definition sample_lidar_frame : @DataFrame ZNumerics :=
  [("x", @NumericSeries ZNumerics Float32 [10; 20]%Z);
   ("y", @NumericSeries ZNumerics Float32 [11; 21]%Z);
   ("z", @NumericSeries ZNumerics Float32 [12; 22]%Z);
   ("intensity", @NumericSeries ZNumerics Float32 [3; 4]%Z);
   ("laser_number", @NumericSeries ZNumerics Int32 [30; 31]%Z);
   ("offset_ns", @NumericSeries ZNumerics Int32 [100; 200]%Z)].

Definition sample_lidar : @Lidar.t ZNumerics :=
  @Lidar.mk ZNumerics
    (VTensor (@mkTensor ZNumerics Float32 [2] [10; 20]%Z))
    (VTensor (@mkTensor ZNumerics Float32 [2] [11; 21]%Z))
    (VTensor (@mkTensor ZNumerics Float32 [2] [12; 22]%Z))
    (VTensor (@mkTensor ZNumerics Float32 [2] [3; 4]%Z))
    (VTensor (@mkTensor ZNumerics Int32 [2] [30; 31]%Z))
    (VTensor (@mkTensor ZNumerics Int32 [2] [100; 200]%Z)).

(** The same frame with [x] stored as float64. *)
Definition float64_x_lidar_frame : @DataFrame ZNumerics :=
  dict_set sample_lidar_frame "x" (float_column [10; 20]%Z).

(** The same frame without its last column. *)
Definition short_lidar_frame : @DataFrame ZNumerics :=
  removelast sample_lidar_frame.

(** Two poses, at timestamps 1 and 2. *)
Definition pose_1 : @Poses.row ZNumerics :=
  @Poses.mkRow ZNumerics 1%Z 1%Z 0%Z 0%Z 0%Z 10%Z 20%Z 30%Z.

Definition pose_2 : @Poses.row ZNumerics :=
  @Poses.mkRow ZNumerics 2%Z 0%Z 0%Z 0%Z 1%Z 40%Z 50%Z 60%Z.

Definition sample_poses : @Poses.t ZNumerics :=
  @Poses.mk ZNumerics Float64 [pose_1; pose_2].

(** The default export of [sample_lidar]. *)
Definition sample_lidar_export : @Tensor ZNumerics :=
  @mkTensor ZNumerics Float32 [2; 3] [10; 11; 12; 20; 21; 22]%Z.

(** What [from_dataframe] builds from the frame whose [qw] is int64: the
    [qw] field is a tuple. *)
Definition int64_qw_annotations : @Annotations.t ZNumerics :=
  Eval cbv in
    match @Annotations.from_dataframe ZNumerics int64_qw_annotations_frame with
    | Ok self => self
    | Err _ => sample_annotations
    end.

(** What [from_dataframe] builds from the frame whose [x] is float64. *)
Definition float64_x_lidar : @Lidar.t ZNumerics :=
  Eval cbv in
    match @Lidar.from_dataframe ZNumerics float64_x_lidar_frame with
    | Ok self => self
    | Err _ => sample_lidar
    end.

(** [sample_annotations] with other labels: the tensors are the same. *)
Definition unlabelled_annotations : @Annotations.t ZNumerics :=
  @Annotations.mk ZNumerics
    (Annotations.tx_m sample_annotations) (Annotations.ty_m sample_annotations)
    (Annotations.tz_m sample_annotations)
    (Annotations.length_m sample_annotations)
    (Annotations.width_m sample_annotations)
    (Annotations.height_m sample_annotations)
    (Annotations.qw sample_annotations) (Annotations.qx sample_annotations)
    (Annotations.qy sample_annotations) (Annotations.qz sample_annotations)
    (Annotations.vx_m sample_annotations) (Annotations.vy_m sample_annotations)
    (Annotations.vz_m sample_annotations)
    (VTuple []) (VTuple [])
    (VTuple (map (@PyStr ZNumerics) ["BUS"; "BUS"]))
    (VTuple (map (@PyStr ZNumerics) ["c3"; "d4"])).

(** A lidar container built by hand whose [y] is longer than its [x]. *)
Definition ragged_lidar : @Lidar.t ZNumerics :=
  @Lidar.mk ZNumerics
    (VTensor (@mkTensor ZNumerics Float32 [2] [10; 20]%Z))
    (VTensor (@mkTensor ZNumerics Float32 [3] [11; 21; 31]%Z))
    (Lidar.z sample_lidar) (Lidar.intensity sample_lidar)
    (Lidar.laser_number sample_lidar) (Lidar.offset_ns sample_lidar).

(** Three poses, two of them at timestamp 2. *)
Definition pose_2_again : @Poses.row ZNumerics :=
  @Poses.mkRow ZNumerics 2%Z 1%Z 0%Z 0%Z 0%Z 41%Z 51%Z 61%Z.

Definition duplicate_poses : @Poses.t ZNumerics :=
  @Poses.mk ZNumerics Float64 [pose_1; pose_2; pose_2_again].

(** A caller's store: the module constant, and a list of the caller's;
    the conversion has not been called yet. *)
Definition sample_world : Store.World (@Annotations.t ZNumerics) nat :=
  Store.mkWorld sample_annotations
                [Store.PyTuple DEFAULT_ANNOTATIONS_TENSOR_FIELDS;
                 Store.PyList ["tx_m"; "qw"; "ty_m"]]
                0.

(** The same store after one export of the caller's list in YAW mode. *)
Definition sample_world_after : Store.World (@Annotations.t ZNumerics) nat :=
  Store.mkWorld sample_annotations
                [Store.PyTuple DEFAULT_ANNOTATIONS_TENSOR_FIELDS;
                 Store.PyList ["tx_m"; "qw"; "ty_m"];
                 Store.PyList ["tx_m"; "ty_m"; "yaw"];
                 Store.PyTuple ["tx_m"; "ty_m"; "yaw"]]
                1.

(** ** Vocabulary of the properties *)

(** A method that only reads its receiver hands it back unchanged. *)
Definition read_only {S A : Type} (m : Py S A) : Prop :=
  forall s, exec m s = s.

(** How [as_tensor] resolves one entry of the ordering. *)
Definition resolve `{Collaborators} (field_name : string) : Py Annotations.t Value :=
  if negb (field_name =? "yaw") then Annotations.getattr field_name
  else y <- Annotations.yaw_radians ;; ret (VTensor y).

(** The ordering [as_tensor] ends up exporting, in the words of the
    description: verbatim for [QUATERNION_WXYZ]; for [YAW] the entries
    other than [qw], [qx], [qy], [qz], with ["yaw"] put at index 6 of what
    is kept. *)
Definition effective_ordering (orientation_mode : OrientationMode)
           (field_ordering : list string) : list string :=
  match orientation_mode with
  | QUATERNION_WXYZ => field_ordering
  | YAW =>
      let kept :=
        filter (fun name => negb (str_in name ["qw"; "qx"; "qy"; "qz"]))
               field_ordering in
      firstn 6 kept ++ "yaw" :: skipn 6 kept
  end.

(** The conversion is a function of its argument: whatever state the
    procedure keeps, it returns [quat_to_yaw] of the tensor it is given. *)
Definition quat_to_yaw_is_a_function {N : Numerics} {C : @Collaborators N}
           {P : @Procedures N} : Prop :=
  forall q e, eval (quat_to_yaw_proc q) e = quat_to_yaw q.

(** A step of a call that returns what [f] computes from the receiver and
    leaves the receiver and the objects as they are. *)
Definition computes {T E A : Type} (m : Py (Store.World T E) A)
           (f : T -> Res A) : Prop :=
  forall w, exists e,
    run m w = (f (Store.receiver w),
               Store.mkWorld (Store.receiver w) (Store.objects w) e).

(** A tensor holds as many elements as its shape says. *)
Definition Tensor_ok `{Numerics} (t : Tensor) : Prop :=
  List.length (data t) = numel (shape t).

(** Every tensor stored in the container is well formed. *)
Definition Annotations_ok `{Numerics} (self : Annotations.t) : Prop :=
  forall name t,
    dict_get (Annotations.vars self) name = Some (VTensor t) -> Tensor_ok t.

(** Row count [n]: every tensor stored in the container has shape [(n,)]. *)
Definition Annotations_rows `{Numerics} (self : Annotations.t) (n : nat) : Prop :=
  forall name t,
    dict_get (Annotations.vars self) name = Some (VTensor t) -> shape t = [n].

Definition Lidar_rows `{Numerics} (self : Lidar.t) (n : nat) : Prop :=
  forall name t,
    dict_get (Lidar.vars self) name = Some (VTensor t) -> shape t = [n].

Definition Lidar_ok `{Numerics} (self : Lidar.t) : Prop :=
  forall name t,
    dict_get (Lidar.vars self) name = Some (VTensor t) -> Tensor_ok t.

(** What [Lidar.from_dataframe] stores for a column: a tensor for the two
    listed kinds, the series itself otherwise. *)
Definition Lidar_stored `{Numerics} (field : Series) (v : Value) : Prop :=
  if dtype_in (Series_dtype field) [Numeric Float32; Numeric Int32]
  then exists kind values,
      field = NumericSeries kind values /\
      v = VTensor (mkTensor kind [List.length values] values)
  else v = VSeries field.

(** Modelled from the spec: the absent [quat_to_yaw] is described as
    [quaternion_to_yaw(quat[...,4]) -> angle[...]]: a result drops the
    last axis of its argument, and is a well formed tensor when the
    argument is. *)
Definition quat_to_yaw_drops_last_axis `{Collaborators} : Prop :=
  forall q y s,
    shape q = s ++ [4] -> quat_to_yaw q = Ok y ->
    shape y = s /\ (Tensor_ok q -> Tensor_ok y).

(** Modelled from the spec: the absent [SE3] is "constructible from a
    rotation matrix and a translation vector"; its constructor takes a
    [(3, 3)] rotation and a [(3,)] translation and raises [ValueError] on
    arrays of any other shape. *)
Definition SE3_validates_shapes `{Collaborators} : Prop :=
  forall rotation translation,
    nd_shape rotation <> [3; 3] \/ nd_shape translation <> [3] ->
    SE3_init rotation translation = Err (RaisedByCollaborator "ValueError").

(** The names [getattr] answers on each class. *)
Definition Annotations_has_attr `{Collaborators} (name : string) : bool :=
  str_in name Annotations.fields
  || str_in name ["quaternion"; "yaw_radians"; "from_dataframe"; "as_tensor"]
  || object_attr name.

Definition Lidar_has_attr `{Collaborators} (name : string) : bool :=
  str_in name Lidar.fields
  || str_in name ["from_dataframe"; "as_tensor"]
  || object_attr name.

(** The body shared by both modes, once the ordering is fixed. *)
Definition stack_fields `{Collaborators} (ordering : list string) (dtype : ScalarType)
           (self : Annotations.t) : Res Tensor :=
  fields <- mapM (fun name => eval (resolve name) self) ordering ;;
  stacked <- torch_stack fields ;;
  ret (Tensor_type stacked dtype).

(** The wording of a construction error: it names a column that is no
    field, or the fields that no column provides. *)
Definition names_mismatch (fields columns : list string) (e : PyError) : Prop :=
  (exists name,
      e = TypeError_unexpected_keyword name /\
      In name columns /\ ~ In name fields) \/
  (exists names,
      e = TypeError_missing_arguments names /\ names <> [] /\
      forall name, In name names -> In name fields /\ ~ In name columns).

(* ================================================================== *)
(** * Properties *)

(** ** Methods that only read their receiver *)

Lemma run_read_only {S A : Type} (m : Py S A) (s : S) :
  read_only m -> run m s = (eval m s, s).
Proof.
  intros Hm. specialize (Hm s). unfold exec, eval in *.
  destruct (run m s) as [r s']. simpl in *. now subst.
Qed.

Lemma read_only_reads {S A : Type} (f : S -> Res A) : read_only (reads f).
Proof. intros s. reflexivity. Qed.

Lemma read_only_ret {S A : Type} (a : A) : read_only (ret a : Py S A).
Proof. intros s. reflexivity. Qed.

Lemma read_only_bind {S A B : Type} (m : Py S A) (k : A -> Py S B) :
  read_only m -> (forall a, read_only (k a)) -> read_only (bind m k).
Proof.
  intros Hm Hk s. unfold exec. simpl.
  rewrite (run_read_only s Hm).
  destruct (eval m s) as [a | e]; [apply Hk | reflexivity].
Qed.

Lemma mapM_cons {M : Type -> Type} `{Monad M} {A B : Type}
      (f : A -> M B) (x : A) (xs : list A) :
  mapM f (x :: xs) = (y <- f x ;; ys <- mapM f xs ;; ret (y :: ys)).
Proof. reflexivity. Qed.

Lemma read_only_mapM {S A B : Type} (f : A -> Py S B) (xs : list A) :
  (forall x, read_only (f x)) -> read_only (mapM f xs).
Proof.
  intros Hf. induction xs as [| x xs IH].
  - apply read_only_ret.
  - rewrite mapM_cons.
    apply read_only_bind; [apply Hf | intros y].
    apply read_only_bind; [exact IH | intros ys; apply read_only_ret].
Qed.

Lemma eval_bind {S A B : Type} (m : Py S A) (k : A -> Py S B) (s : S) :
  read_only m ->
  eval (bind m k) s = bind (eval m s) (fun a => eval (k a) s).
Proof.
  intros Hm. unfold eval at 1. simpl.
  rewrite (run_read_only s Hm).
  destruct (eval m s) as [a | e]; reflexivity.
Qed.

Lemma eval_ret {S A : Type} (a : A) (s : S) : eval (ret a : Py S A) s = Ok a.
Proof. reflexivity. Qed.

Lemma eval_reads {S A : Type} (f : S -> Res A) (s : S) : eval (reads f) s = f s.
Proof. reflexivity. Qed.

Lemma eval_mapM {S A B : Type} (f : A -> Py S B) (xs : list A) (s : S) :
  (forall x, read_only (f x)) ->
  eval (mapM f xs) s = mapM (fun x => eval (f x) s) xs.
Proof.
  intros Hf. induction xs as [| x xs IH]; [reflexivity |].
  rewrite !mapM_cons.
  rewrite eval_bind by apply Hf.
  destruct (eval (f x) s) as [y | e]; [| reflexivity].
  cbn [bind Monad_Res].
  rewrite eval_bind by (apply read_only_mapM; exact Hf).
  rewrite IH. destruct (mapM (fun x0 => eval (f x0) s) xs); reflexivity.
Qed.

Ltac read_only_tac :=
  repeat first
    [ apply read_only_reads
    | apply read_only_ret
    | apply read_only_mapM; intros
    | apply read_only_bind; [| intros]
    | match goal with
      | |- read_only (match ?x with _ => _ end) => destruct x
      | |- read_only (if ?b then _ else _) => destruct b
      end ].

Section Properties.

Context {N : Numerics} {C : Collaborators}.

Lemma quaternion_read_only : read_only Annotations.quaternion.
Proof. unfold Annotations.quaternion, attr, call. read_only_tac. Qed.

Lemma yaw_radians_read_only : read_only Annotations.yaw_radians.
Proof.
  unfold Annotations.yaw_radians, call.
  apply read_only_bind; [apply quaternion_read_only | intros; read_only_tac].
Qed.

Lemma Annotations_getattr_read_only (name : string) :
  read_only (Annotations.getattr name).
Proof.
  unfold Annotations.getattr, attr, call.
  apply read_only_bind; [apply read_only_reads | intros [v |]].
  - apply read_only_ret.
  - destruct (name =? "quaternion").
    { apply read_only_bind; [apply quaternion_read_only | intros; read_only_tac]. }
    destruct (name =? "yaw_radians").
    { apply read_only_bind; [apply yaw_radians_read_only | intros; read_only_tac]. }
    read_only_tac.
Qed.

Lemma Lidar_getattr_read_only (name : string) :
  read_only (Lidar.getattr name).
Proof. unfold Lidar.getattr, attr, call. read_only_tac. Qed.


Lemma resolve_read_only (field_name : string) : read_only (resolve field_name).
Proof.
  unfold resolve. destruct (negb (field_name =? "yaw")).
  - apply Annotations_getattr_read_only.
  - apply read_only_bind; [apply yaw_radians_read_only | intros; read_only_tac].
Qed.

Lemma Annotations_as_tensor_read_only fo om dt :
  read_only (Annotations.as_tensor fo om dt).
Proof.
  unfold Annotations.as_tensor, call.
  apply read_only_bind.
  - apply read_only_mapM. intros x. apply (resolve_read_only x).
  - intros; read_only_tac.
Qed.

Lemma Lidar_as_tensor_read_only fo dt : read_only (Lidar.as_tensor fo dt).
Proof.
  unfold Lidar.as_tensor, call.
  apply read_only_bind.
  - apply read_only_mapM. intros x. apply Lidar_getattr_read_only.
  - intros; read_only_tac.
Qed.

End Properties.

(* ================================================================== *)
(** ** Lists: insertion, and the rows of a stack *)

Lemma list_insert_firstn_skipn {A : Type} (i : nat) (x : A) (l : list A) :
  list_insert i x l = firstn i l ++ x :: skipn i l.
Proof.
  revert l. induction i as [| i IH]; intros [| y l]; simpl; try reflexivity.
  now rewrite IH.
Qed.

Lemma list_insert_past_end {A : Type} (i : nat) (x : A) (l : list A) :
  List.length l <= i -> list_insert i x l = l ++ [x].
Proof.
  intros Hlen. rewrite list_insert_firstn_skipn.
  rewrite firstn_all2 by exact Hlen.
  now rewrite skipn_all2 by exact Hlen.
Qed.

Lemma nth_error_zip_with_cons {A : Type} (c : list A) (R : list (list A)) i :
  nth_error (zip_with cons c R) i =
  match nth_error c i, nth_error R i with
  | Some a, Some r => Some (a :: r)
  | _, _ => None
  end.
Proof.
  revert R i. induction c as [| a c IH]; intros R i.
  - destruct i; reflexivity.
  - destruct R as [| r R].
    + destruct i; simpl; [reflexivity |]. now destruct (nth_error c i).
    + destruct i; simpl; [reflexivity | apply IH].
Qed.

Lemma length_zip_with {A B D : Type} (f : A -> B -> D) l l' :
  List.length (zip_with f l l') = Nat.min (List.length l) (List.length l').
Proof.
  revert l'. induction l as [| a l IH]; intros [| b l']; simpl; auto.
Qed.

Lemma length_rows_of_columns {A : Type} (n : nat) (cols : list (list A)) :
  Forall (fun c => List.length c = n) cols ->
  List.length (rows_of_columns n cols) = n.
Proof.
  induction 1 as [| c cols Hc _ IH]; simpl.
  - apply repeat_length.
  - rewrite length_zip_with, IH, Hc. apply Nat.min_id.
Qed.

Lemma rows_of_columns_width {A : Type} (n : nat) (cols : list (list A)) :
  Forall (fun r => List.length r = List.length cols) (rows_of_columns n cols).
Proof.
  induction cols as [| c cols IH]; simpl.
  - apply Forall_forall. intros r Hr. now apply repeat_spec in Hr; subst.
  - revert IH. generalize (rows_of_columns n cols) as R.
    induction c as [| a c IHc]; intros [| r R] HR; simpl; constructor.
    + inversion HR; subst. simpl. congruence.
    + inversion HR; subst. now apply IHc.
Qed.

(** Entry [j] of row [i] is entry [i] of column [j]. *)
Lemma nth_error_rows_of_columns {A : Type} (n : nat) (cols : list (list A)) :
  Forall (fun c => List.length c = n) cols ->
  forall i j,
    match nth_error (rows_of_columns n cols) i with
    | Some r => nth_error r j
    | None => None
    end =
    match nth_error cols j with
    | Some c => nth_error c i
    | None => None
    end.
Proof.
  induction 1 as [| c cols Hc Hcols IH]; intros i j; simpl.
  - destruct (nth_error (repeat [] n) i) as [r |] eqn:E.
    + apply nth_error_In, repeat_spec in E. subst.
      destruct j; reflexivity.
    + destruct j; reflexivity.
  - rewrite nth_error_zip_with_cons.
    destruct (nth_error c i) as [a |] eqn:Ea.
    + assert (Hi : i < n).
      { rewrite <- Hc. apply nth_error_Some. congruence. }
      destruct (nth_error (rows_of_columns n cols) i) as [r |] eqn:Er.
      * destruct j as [| j]; simpl; [now rewrite Ea |].
        specialize (IH i j). now rewrite Er in IH.
      * apply nth_error_None in Er.
        rewrite length_rows_of_columns in Er by exact Hcols. lia.
    + apply nth_error_None in Ea.
      destruct j as [| j]; simpl.
      * symmetry. now apply nth_error_None.
      * destruct (nth_error cols j) as [c' |] eqn:Ec; [| reflexivity].
        symmetry. apply nth_error_None.
        apply nth_error_In in Ec.
        rewrite Forall_forall in Hcols. rewrite (Hcols _ Ec). lia.
Qed.

Lemma nth_error_concat_uniform {A : Type} (k : nat) (rows : list (list A)) :
  Forall (fun r => List.length r = k) rows ->
  forall i j, j < k ->
    nth_error (List.concat rows) (i * k + j) =
    match nth_error rows i with
    | Some r => nth_error r j
    | None => None
    end.
Proof.
  induction 1 as [| r rows Hr _ IH]; intros i j Hj.
  - simpl. now rewrite !nth_error_nil.
  - destruct i as [| i]; simpl.
    + rewrite nth_error_app1 by lia. reflexivity.
    + rewrite nth_error_app2 by lia.
      replace (k + i * k + j - List.length r) with (i * k + j) by lia.
      now apply IH.
Qed.

Lemma length_concat_uniform {A : Type} (k : nat) (rows : list (list A)) :
  Forall (fun r => List.length r = k) rows ->
  List.length (List.concat rows) = List.length rows * k.
Proof.
  induction 1 as [| r rows Hr _ IH]; simpl; [reflexivity |].
  rewrite length_app, IH, Hr. reflexivity.
Qed.

Lemma numel_app (s s' : list nat) : numel (s ++ s') = numel s * numel s'.
Proof.
  induction s as [| d s IH]; simpl; [lia |]. rewrite IH. lia.
Qed.

(** ** The error monad on lists *)

Lemma mapM_Ok {A B : Type} (f : A -> Res B) (xs : list A) (ys : list B) :
  mapM f xs = Ok ys -> Forall2 (fun x y => f x = Ok y) xs ys.
Proof.
  revert ys. induction xs as [| x xs IH]; intros ys H.
  - inversion H. constructor.
  - rewrite mapM_cons in H. cbn [bind Monad_Res] in H.
    destruct (f x) as [y |] eqn:Ef; [| discriminate].
    destruct (mapM f xs) as [ys' |]; [| discriminate].
    cbn [ret Monad_Res] in H. inversion H; subst.
    constructor; [exact Ef | now apply IH].
Qed.

(** An exception of the comprehension is the exception of its first
    failing element. *)
Lemma mapM_Err {A B : Type} (f : A -> Res B) (xs : list A) (e : PyError) :
  mapM f xs = Err e ->
  exists before x after,
    xs = before ++ x :: after /\
    Forall (fun x' => exists y, f x' = Ok y) before /\
    f x = Err e.
Proof.
  induction xs as [| x xs IH]; intros H.
  - discriminate.
  - rewrite mapM_cons in H. cbn [bind Monad_Res] in H.
    destruct (f x) as [y |] eqn:Ef.
    + destruct (mapM f xs) as [ys |] eqn:Em; [discriminate |].
      inversion H; subst.
      destruct (IH eq_refl) as (before & x' & after & -> & Hb & Hx).
      exists (x :: before), x', after. repeat split; auto.
      constructor; eauto.
    + inversion H; subst. exists [], x, xs. repeat split; auto.
Qed.

Lemma mapM_first_Err {A B : Type} (f : A -> Res B) before x after e :
  Forall (fun x' => exists y, f x' = Ok y) before ->
  f x = Err e ->
  mapM f (before ++ x :: after) = Err e.
Proof.
  intros Hb Hx. induction Hb as [| x' before [y Hy] _ IH]; simpl app.
  - rewrite mapM_cons, Hx. reflexivity.
  - rewrite mapM_cons, Hy, IH. reflexivity.
Qed.

(** Up to its first failing element a comprehension runs as on the
    elements before it. *)
Lemma mapM_until_Err {A B C : Type} (f : A -> Res B) before x after e :
  f x = Err e ->
  (ys <- mapM f (before ++ x :: after) ;; (Err e : Res C)) =
  (ys <- mapM f before ;; Err e) /\
  mapM f (before ++ x :: after) = (ys <- mapM f before ;; Err e).
Proof.
  intros Hx.
  assert (H : mapM f (before ++ x :: after) = (ys <- mapM f before ;; Err e)).
  { induction before as [| b before IH]; simpl app.
    - rewrite mapM_cons, Hx. reflexivity.
    - rewrite !mapM_cons. destruct (f b) as [y |]; [| reflexivity].
      cbn [bind Monad_Res]. rewrite IH.
      destruct (mapM f before); reflexivity. }
  split; [| exact H]. rewrite H.
  destruct (mapM f before); reflexivity.
Qed.

Lemma mapM_all_Ok {A B : Type} (f : A -> Res B) (xs : list A) :
  (forall x, In x xs -> exists y, f x = Ok y) ->
  exists ys, mapM f xs = Ok ys.
Proof.
  induction xs as [| x xs IH]; intros H.
  - exists []. reflexivity.
  - destruct (H x (or_introl eq_refl)) as [y Hy].
    destruct IH as [ys Hys]; [intros x' Hx'; apply H; now right |].
    exists (y :: ys). rewrite mapM_cons, Hy. cbn [bind Monad_Res].
    rewrite Hys. reflexivity.
Qed.

(** The first element of a list that satisfies a test. *)
Lemma split_at_first {A : Type} (p : A -> bool) (l : list A) :
  (exists x, In x l /\ p x = true) ->
  exists before x after,
    l = before ++ x :: after /\ p x = true /\
    forall b, In b before -> p b = false.
Proof.
  induction l as [| a l IH]; intros (x & Hin & Hp); [contradiction |].
  destruct (p a) eqn:Ea.
  - exists [], a, l. repeat split; auto. intros b [].
  - destruct IH as (before & y & after & -> & Hy & Hb).
    { destruct Hin as [-> | Hin]; [congruence | eauto]. }
    exists (a :: before), y, after. repeat split; auto.
    intros b [<- | Hin']; auto.
Qed.

(* ================================================================== *)
(** ** [torch.stack] *)


Section Stack.

Context {N : Numerics}.


Lemma expect_tensors_Ok (i : nat) (values : list Value) (ts : list Tensor) :
  expect_tensors i values = Ok ts -> values = map VTensor ts.
Proof.
  revert i ts. induction values as [| v values IH]; intros i ts H.
  - inversion H. reflexivity.
  - destruct v; try discriminate. cbn [expect_tensors bind Monad_Res] in H.
    destruct (expect_tensors (S i) values) as [ts' |] eqn:E; [| discriminate].
    inversion H; subst. simpl. f_equal. eapply IH; eauto.
Qed.

Lemma torch_stack_Ok (values : list Value) (t : Tensor) :
  torch_stack values = Ok t ->
  exists t0 rest,
    values = map VTensor (t0 :: rest) /\
    Forall (fun u => shape u = shape t0) (t0 :: rest) /\
    shape t = shape t0 ++ [List.length values] /\
    data t = List.concat
               (rows_of_columns (numel (shape t0))
                  (map (fun u => map (cast (dtype t)) (data u)) (t0 :: rest))).
Proof.
  unfold torch_stack. intros H.
  destruct (expect_tensors 0 values) as [ts |] eqn:E; [| discriminate].
  apply expect_tensors_Ok in E. cbn [bind Monad_Res] in H.
  destruct ts as [| t0 rest]; [discriminate |].
  destruct (forallb _ rest) eqn:Hall; [| discriminate].
  inversion H; subst; clear H. exists t0, rest. cbn [shape data dtype].
  repeat split.
  - constructor; [reflexivity |].
    rewrite forallb_forall in Hall. apply Forall_forall. intros u Hu.
    specialize (Hall u Hu). unfold shape_eqb in Hall.
    now destruct (list_eq_dec Nat.eq_dec (shape u) (shape t0)).
  - now rewrite length_map.
Qed.

(** Entry [(i, j)] of a stack is entry [i] of its [j]-th tensor,
    converted to the promoted dtype. *)
Lemma torch_stack_entry (values : list Value) (t : Tensor) :
  torch_stack values = Ok t ->
  Forall (fun v => forall u, v = VTensor u -> Tensor_ok u) values ->
  forall j u, nth_error values j = Some (VTensor u) ->
  forall i, nth_error (data t) (i * List.length values + j) =
            option_map (cast (dtype t)) (nth_error (data u) i).
Proof.
  intros H Hok j u Hj i.
  destruct (torch_stack_Ok _ H) as (t0 & rest & Hv & Hshape & _ & Hdata).
  rewrite Hdata. subst values.
  set (cols := map (fun u0 => map (cast (dtype t)) (data u0)) (t0 :: rest)).
  assert (Hcols : Forall (fun c => List.length c = numel (shape t0)) cols).
  { unfold cols. apply Forall_map. apply Forall_forall. intros w Hw.
    rewrite length_map.
    rewrite Forall_forall in Hok, Hshape.
    rewrite <- (Hshape w Hw).
    apply (Hok (VTensor w)); [now apply in_map | reflexivity]. }
  assert (Hlen : List.length (map VTensor (t0 :: rest)) = List.length cols).
  { unfold cols. now rewrite !length_map. }
  rewrite Hlen.
  rewrite nth_error_concat_uniform.
  - rewrite (nth_error_rows_of_columns Hcols i j).
    assert (Hu : nth_error (t0 :: rest) j = Some u).
    { rewrite nth_error_map in Hj.
      destruct (nth_error (t0 :: rest) j); simpl in Hj; congruence. }
    unfold cols. rewrite nth_error_map, Hu. simpl.
    now rewrite nth_error_map.
  - apply rows_of_columns_width.
  - rewrite <- Hlen. apply nth_error_Some. congruence.
Qed.

Lemma torch_stack_ok (values : list Value) (t : Tensor) :
  torch_stack values = Ok t ->
  Forall (fun v => forall u, v = VTensor u -> Tensor_ok u) values ->
  Tensor_ok t.
Proof.
  intros H Hok.
  destruct (torch_stack_Ok _ H) as (t0 & rest & Hv & Hshape & Hs & Hdata).
  unfold Tensor_ok. rewrite Hs, Hdata, numel_app. subst values.
  set (cols := map (fun u0 => map (cast (dtype t)) (data u0)) (t0 :: rest)).
  assert (Hcols : Forall (fun c => List.length c = numel (shape t0)) cols).
  { unfold cols. apply Forall_map. apply Forall_forall. intros w Hw.
    rewrite length_map.
    rewrite Forall_forall in Hok, Hshape.
    rewrite <- (Hshape w Hw).
    apply (Hok (VTensor w)); [now apply in_map | reflexivity]. }
  rewrite (length_concat_uniform (rows_of_columns_width _ cols)).
  rewrite (length_rows_of_columns Hcols).
  unfold cols. rewrite !length_map. simpl. lia.
Qed.

End Stack.

(* ================================================================== *)
(** ** The exporters, evaluated *)

Section Exporter.

Context {N : Numerics} {C : Collaborators}.


Lemma eval_quaternion (self : Annotations.t) :
  eval Annotations.quaternion self =
  torch_stack [Annotations.qw self; Annotations.qx self;
               Annotations.qy self; Annotations.qz self].
Proof. reflexivity. Qed.

Lemma eval_yaw_radians (self : Annotations.t) :
  eval Annotations.yaw_radians self =
  (q <- torch_stack [Annotations.qw self; Annotations.qx self;
                     Annotations.qy self; Annotations.qz self] ;;
   quat_to_yaw q).
Proof.
  unfold Annotations.yaw_radians.
  rewrite eval_bind by apply quaternion_read_only.
  rewrite eval_quaternion. reflexivity.
Qed.

Lemma eval_Annotations_getattr (name : string) (self : Annotations.t) :
  eval (Annotations.getattr name) self =
  match dict_get (Annotations.vars self) name with
  | Some v => Ok v
  | None =>
      if name =? "quaternion" then
        q <- eval Annotations.quaternion self ;; ret (VTensor q)
      else if name =? "yaw_radians" then
        y <- eval Annotations.yaw_radians self ;; ret (VTensor y)
      else if str_in name ["from_dataframe"; "as_tensor"] || object_attr name
           then Ok VObject
      else Err (AttributeError name)
  end.
Proof.
  unfold Annotations.getattr.
  rewrite eval_bind by apply read_only_reads.
  unfold attr at 1. rewrite eval_reads. cbn [bind Monad_Res].
  destruct (dict_get (Annotations.vars self) name); [reflexivity |].
  destruct (name =? "quaternion").
  { rewrite eval_bind by apply quaternion_read_only. reflexivity. }
  destruct (name =? "yaw_radians").
  { rewrite eval_bind by apply yaw_radians_read_only. reflexivity. }
  destruct (_ || _); reflexivity.
Qed.

Lemma eval_Lidar_getattr (name : string) (self : Lidar.t) :
  eval (Lidar.getattr name) self =
  match dict_get (Lidar.vars self) name with
  | Some v => Ok v
  | None =>
      if str_in name ["from_dataframe"; "as_tensor"] || object_attr name
      then Ok VObject
      else Err (AttributeError name)
  end.
Proof.
  unfold Lidar.getattr.
  rewrite eval_bind by apply read_only_reads.
  unfold attr at 1. rewrite eval_reads. cbn [bind Monad_Res].
  destruct (dict_get (Lidar.vars self) name); [reflexivity |].
  destruct (_ || _); reflexivity.
Qed.

Lemma eval_resolve (name : string) (self : Annotations.t) :
  eval (resolve name) self =
  if negb (name =? "yaw") then eval (Annotations.getattr name) self
  else y <- eval Annotations.yaw_radians self ;; ret (VTensor y).
Proof.
  unfold resolve. destruct (negb (name =? "yaw")); [reflexivity |].
  rewrite eval_bind by apply yaw_radians_read_only. reflexivity.
Qed.


Lemma list_insert_effective (fo : list string) :
  list_insert 6 "yaw"
    (filter (fun name => negb (str_in name ["qw"; "qx"; "qy"; "qz"])) fo) =
  effective_ordering YAW fo.
Proof. unfold effective_ordering. apply list_insert_firstn_skipn. Qed.

Lemma as_tensor_YAW (fo : list string) (dt : ScalarType) :
  Annotations.as_tensor fo YAW dt =
  Annotations.as_tensor (effective_ordering YAW fo) QUATERNION_WXYZ dt.
Proof.
  unfold Annotations.as_tensor. cbv zeta.
  now rewrite list_insert_effective.
Qed.

Lemma eval_Annotations_as_tensor fo om dt (self : Annotations.t) :
  eval (Annotations.as_tensor fo om dt) self =
  stack_fields (effective_ordering om fo) dt self.
Proof.
  assert (H : forall ordering,
             eval (Annotations.as_tensor ordering QUATERNION_WXYZ dt) self =
             stack_fields ordering dt self).
  { intros ordering.
    change (Annotations.as_tensor ordering QUATERNION_WXYZ dt)
      with (fields <- mapM resolve ordering ;;
            stacked <- call (torch_stack fields) ;;
            (ret (Tensor_type stacked dt) : Py Annotations.t Tensor)).
    unfold stack_fields.
    rewrite eval_bind
      by (apply read_only_mapM; intros x; apply (resolve_read_only x)).
    rewrite (eval_mapM resolve ordering self resolve_read_only).
    destruct (mapM _ ordering) as [fields |]; [| reflexivity].
    cbn [bind Monad_Res].
    rewrite eval_bind by apply read_only_reads.
    unfold call at 1. rewrite eval_reads.
    destruct (torch_stack fields); reflexivity. }
  destruct om; [apply H |]. rewrite as_tensor_YAW. apply H.
Qed.

Lemma eval_Lidar_as_tensor fo dt (self : Lidar.t) :
  eval (Lidar.as_tensor fo dt) self =
  (fields <- mapM (fun name => eval (Lidar.getattr name) self) fo ;;
   stacked <- torch_stack fields ;;
   ret (Tensor_type stacked dt)).
Proof.
  unfold Lidar.as_tensor.
  rewrite eval_bind
    by (apply read_only_mapM; intros x; apply Lidar_getattr_read_only).
  rewrite (eval_mapM Lidar.getattr fo self Lidar_getattr_read_only).
  destruct (mapM _ fo) as [fields |]; [| reflexivity].
  cbn [bind Monad_Res].
  rewrite eval_bind by apply read_only_reads.
  unfold call at 1. rewrite eval_reads.
  destruct (torch_stack fields); reflexivity.
Qed.

End Exporter.

Unset Implicit Arguments.

Section ExporterFacts.

Context {N : Numerics} {C : Collaborators}.

Lemma quaternion_facts (self : Annotations.t) (q : Tensor) :
  eval Annotations.quaternion self = Ok q ->
  exists w, Annotations.qw self = VTensor w /\
            shape q = shape w ++ [4] /\
            (Annotations_ok self -> Tensor_ok q).
Proof.
  rewrite eval_quaternion. intros H.
  destruct (torch_stack_Ok _ H) as (t0 & rest & Hv & _ & Hs & _).
  exists t0. simpl in Hv, Hs. inversion Hv as [[Hw Hx]].
  repeat split; [exact Hs |]. intros Hok.
  apply (torch_stack_ok H).
  repeat constructor; intros u Hu.
  - apply (Hok "qw"). now rewrite <- Hu.
  - apply (Hok "qx"). now rewrite <- Hu.
  - apply (Hok "qy"). now rewrite <- Hu.
  - apply (Hok "qz"). now rewrite <- Hu.
Qed.

Lemma yaw_radians_facts (self : Annotations.t) (y : Tensor) :
  quat_to_yaw_drops_last_axis ->
  eval Annotations.yaw_radians self = Ok y ->
  exists w, Annotations.qw self = VTensor w /\
            shape y = shape w /\
            (Annotations_ok self -> Tensor_ok y).
Proof.
  intros Hlaw H. rewrite eval_yaw_radians, <- eval_quaternion in H.
  destruct (eval Annotations.quaternion self) as [q |] eqn:Eq;
    [| discriminate].
  cbn [bind Monad_Res] in H.
  destruct (quaternion_facts _ _ Eq) as (w & Hw & Hs & Hok).
  destruct (Hlaw q y (shape w) Hs H) as [Hy Hyok].
  exists w. repeat split; auto.
Qed.

Lemma resolve_tensor_ok (self : Annotations.t) (name : string) (u : Tensor) :
  Annotations_ok self -> quat_to_yaw_drops_last_axis ->
  eval (resolve name) self = Ok (VTensor u) -> Tensor_ok u.
Proof.
  intros Hok Hlaw. rewrite eval_resolve.
  assert (Hyaw : forall r : Res Tensor,
             r = eval Annotations.yaw_radians self ->
             (y <- r ;; ret (VTensor y)) = Ok (VTensor u) -> Tensor_ok u).
  { intros r -> H.
    destruct (eval Annotations.yaw_radians self) as [y |] eqn:Ey;
      [| discriminate].
    inversion H; subst.
    destruct (yaw_radians_facts _ _ Hlaw Ey) as (w & _ & _ & Hy). auto. }
  destruct (negb (name =? "yaw")); [| now apply Hyaw].
  rewrite eval_Annotations_getattr.
  destruct (dict_get (Annotations.vars self) name) as [v |] eqn:Ev.
  { intros H. inversion H; subst. eapply Hok; eauto. }
  destruct (name =? "quaternion").
  { destruct (eval Annotations.quaternion self) as [q |] eqn:Eq;
      [| discriminate].
    intros H. inversion H; subst.
    destruct (quaternion_facts _ _ Eq) as (w & _ & _ & Hq). auto. }
  destruct (name =? "yaw_radians"); [now apply Hyaw |].
  destruct (_ || _); discriminate.
Qed.

Lemma resolve_shape (self : Annotations.t) (n : nat) (name : string)
      (u : Tensor) :
  Annotations_rows self n -> quat_to_yaw_drops_last_axis ->
  name <> "quaternion" ->
  eval (resolve name) self = Ok (VTensor u) -> shape u = [n].
Proof.
  intros Hrows Hlaw Hname. rewrite eval_resolve.
  assert (Hyaw : forall r : Res Tensor,
             r = eval Annotations.yaw_radians self ->
             (y <- r ;; ret (VTensor y)) = Ok (VTensor u) -> shape u = [n]).
  { intros r -> H.
    destruct (eval Annotations.yaw_radians self) as [y |] eqn:Ey;
      [| discriminate].
    inversion H; subst.
    destruct (yaw_radians_facts _ _ Hlaw Ey) as (w & Hw & Hs & _).
    rewrite Hs. apply (Hrows "qw"). now rewrite <- Hw. }
  destruct (negb (name =? "yaw")); [| now apply Hyaw].
  rewrite eval_Annotations_getattr.
  destruct (dict_get (Annotations.vars self) name) as [v |] eqn:Ev.
  { intros H. inversion H; subst. eapply Hrows; eauto. }
  destruct (String.eqb_spec name "quaternion"); [contradiction |].
  destruct (name =? "yaw_radians"); [now apply Hyaw |].
  destruct (_ || _); discriminate.
Qed.

Lemma Forall2_nth_error {A B : Type} (R : A -> B -> Prop) l l' :
  Forall2 R l l' ->
  forall j a, nth_error l j = Some a ->
              exists b, nth_error l' j = Some b /\ R a b.
Proof.
  induction 1 as [| a0 b0 l l' Hab _ IH]; intros j a Hj.
  - destruct j; discriminate.
  - destruct j as [| j]; simpl in *.
    + inversion Hj; subst. eauto.
    + eauto.
Qed.

Lemma Forall2_In_l {A B : Type} (R : A -> B -> Prop) l l' :
  Forall2 R l l' ->
  forall a, In a l -> exists b, In b l' /\ R a b.
Proof.
  induction 1 as [| a0 b0 l l' Hab _ IH]; intros a Ha; [contradiction |].
  destruct Ha as [-> | Ha]; [exists b0; simpl; auto |].
  destruct (IH a Ha) as (b & Hb & HR). exists b; simpl; auto.
Qed.

Lemma Forall2_In_r {A B : Type} (R : A -> B -> Prop) l l' :
  Forall2 R l l' ->
  forall b, In b l' -> exists a, In a l /\ R a b.
Proof.
  induction 1 as [| a0 b0 l l' Hab _ IH]; intros b Hb; [contradiction |].
  destruct Hb as [-> | Hb]; [exists a0; simpl; auto |].
  destruct (IH b Hb) as (a & Ha & HR). exists a; simpl; auto.
Qed.

(** What a successful export is made of. *)
Lemma stack_fields_Ok ordering dt (self : Annotations.t) (out : Tensor) :
  stack_fields ordering dt self = Ok out ->
  exists fields stacked,
    Forall2 (fun name v => eval (resolve name) self = Ok v) ordering fields /\
    torch_stack fields = Ok stacked /\
    out = Tensor_type stacked dt.
Proof.
  unfold stack_fields. intros H.
  destruct (mapM _ ordering) as [fields |] eqn:Em; [| discriminate].
  cbn [bind Monad_Res] in H.
  destruct (torch_stack fields) as [stacked |] eqn:Es; [| discriminate].
  inversion H; subst. exists fields, stacked.
  repeat split; auto. now apply mapM_Ok in Em.
Qed.

(** Every column of a successful export holds the tensor its entry
    resolves to, converted to the promoted dtype and then to the requested
    one. *)
Lemma export_columns ordering dt (self : Annotations.t) (out : Tensor) :
  Annotations_ok self -> quat_to_yaw_drops_last_axis ->
  stack_fields ordering dt self = Ok out ->
  exists promoted,
    forall j name, nth_error ordering j = Some name ->
    exists u,
      eval (resolve name) self = Ok (VTensor u) /\
      forall i, nth_error (data out) (i * List.length ordering + j) =
                option_map (fun v => cast dt (cast promoted v))
                           (nth_error (data u) i).
Proof.
  intros Hok Hlaw H.
  destruct (stack_fields_Ok _ _ _ _ H) as (fields & stacked & HF & Hs & ->).
  exists (dtype stacked). intros j name Hj.
  destruct (Forall2_nth_error _ _ _ HF _ _ Hj) as (v & Hv & Hr).
  destruct (torch_stack_Ok _ Hs) as (t0 & rest & Hfields & _).
  assert (Hu : exists u, v = VTensor u).
  { rewrite Hfields, nth_error_map in Hv.
    destruct (nth_error (t0 :: rest) j); simpl in Hv; inversion Hv; eauto. }
  destruct Hu as [u ->]. exists u. split; [exact Hr |]. intros i.
  cbn [Tensor_type data].
  rewrite nth_error_map, (Forall2_length HF).
  rewrite (torch_stack_entry Hs) with (u := u); auto.
  - destruct (nth_error (data u) i); reflexivity.
  - apply Forall_forall. intros v Hin w ->.
    destruct (Forall2_In_r _ _ _ HF _ Hin) as (name' & _ & Hname).
    eapply resolve_tensor_ok; eauto.
Qed.

(** The column of a ["yaw"] entry holds the derived [yaw_radians]. *)
Lemma yaw_column ordering dt (self : Annotations.t) (out : Tensor) :
  Annotations_ok self -> quat_to_yaw_drops_last_axis ->
  stack_fields ordering dt self = Ok out ->
  forall j, nth_error ordering j = Some "yaw" ->
  exists y promoted,
    eval Annotations.yaw_radians self = Ok y /\
    forall i, nth_error (data out) (i * List.length ordering + j) =
              option_map (fun v => cast dt (cast promoted v))
                         (nth_error (data y) i).
Proof.
  intros Hok Hlaw H j Hj.
  destruct (export_columns _ _ _ _ Hok Hlaw H) as [promoted Hcols].
  destruct (Hcols j "yaw" Hj) as (u & Hr & Hcol).
  rewrite eval_resolve in Hr. simpl in Hr.
  destruct (eval Annotations.yaw_radians self) as [y |] eqn:Ey;
    [| discriminate].
  inversion Hr; subst u. exists y, promoted. split; [reflexivity | exact Hcol].
Qed.

Lemma stack_fields_shape ordering dt (self : Annotations.t) (out : Tensor) :
  stack_fields ordering dt self = Ok out ->
  exists name u,
    In name ordering /\ eval (resolve name) self = Ok (VTensor u) /\
    shape out = shape u ++ [List.length ordering].
Proof.
  intros H.
  destruct (stack_fields_Ok _ _ _ _ H) as (fields & stacked & HF & Hs & ->).
  destruct (torch_stack_Ok _ Hs) as (t0 & rest & Hv & _ & Hshape & _).
  assert (Hin : In (VTensor t0) fields) by (rewrite Hv; simpl; auto).
  destruct (Forall2_In_r _ _ _ HF _ Hin) as (name & Hname & Hr).
  exists name, t0. repeat split; auto.
  cbn [Tensor_type shape]. now rewrite Hshape, (Forall2_length HF).
Qed.

End ExporterFacts.

Section AttributeLookup.

Context {N : Numerics} {C : Collaborators}.

Ltac split_on_name name :=
  repeat (destruct (String.eqb name _);
          [ solve [ simpl; split; intros; try discriminate; eauto ] | ]);
  simpl.

Lemma Annotations_vars_fields (self : Annotations.t) (name : string) :
  (str_in name Annotations.fields = true ->
   exists v, dict_get (Annotations.vars self) name = Some v) /\
  (str_in name Annotations.fields = false ->
   dict_get (Annotations.vars self) name = None).
Proof.
  unfold str_in, Annotations.fields, Annotations.vars.
  cbn [existsb dict_get orb].
  split_on_name name. split; intros; try discriminate; reflexivity.
Qed.

Lemma Lidar_vars_fields (self : Lidar.t) (name : string) :
  (str_in name Lidar.fields = true ->
   exists v, dict_get (Lidar.vars self) name = Some v) /\
  (str_in name Lidar.fields = false ->
   dict_get (Lidar.vars self) name = None).
Proof.
  unfold str_in, Lidar.fields, Lidar.vars.
  cbn [existsb dict_get orb].
  split_on_name name. split; intros; try discriminate; reflexivity.
Qed.

(** On a [Lidar] every lookup either finds an attribute or raises
    [AttributeError] for that very name. *)
Lemma Lidar_getattr_cases (self : Lidar.t) (name : string) :
  if Lidar_has_attr name
  then exists v, eval (Lidar.getattr name) self = Ok v
  else eval (Lidar.getattr name) self = Err (AttributeError name).
Proof.
  rewrite eval_Lidar_getattr. unfold Lidar_has_attr.
  destruct (Lidar_vars_fields self name) as [Hin Hout].
  destruct (str_in name Lidar.fields).
  - destruct (Hin eq_refl) as [v ->]. simpl. eauto.
  - rewrite (Hout eq_refl). cbn [orb].
    destruct (_ || _); eauto.
Qed.

Lemma String_eqb_false_neq (a b : string) : (a =? b) = false -> a <> b.
Proof. intros H. now apply String.eqb_neq. Qed.

(** A name that is no attribute and not ["yaw"] raises [AttributeError]. *)
Lemma resolve_unknown (self : Annotations.t) (name : string) :
  Annotations_has_attr name = false -> name <> "yaw" ->
  eval (resolve name) self = Err (AttributeError name).
Proof.
  intros Hattr Hyaw. rewrite eval_resolve.
  apply String.eqb_neq in Hyaw. rewrite Hyaw. cbn [negb].
  rewrite eval_Annotations_getattr.
  unfold Annotations_has_attr in Hattr.
  apply orb_false_elim in Hattr. destruct Hattr as [Hattr Hobj].
  apply orb_false_elim in Hattr. destruct Hattr as [Hfield Hcls].
  destruct (Annotations_vars_fields self name) as [_ Hout].
  rewrite (Hout Hfield).
  unfold str_in in Hcls. cbn [existsb] in Hcls.
  destruct (name =? "quaternion"); [discriminate |].
  destruct (name =? "yaw_radians"); [discriminate |].
  cbn [orb] in Hcls.
  unfold str_in. cbn [existsb]. rewrite Hcls, Hobj. reflexivity.
Qed.

(** When the yaw can be derived, the only way an entry can fail is by
    not being an attribute at all. *)
Lemma resolve_Err (self : Annotations.t) (name : string) (e : PyError) :
  (exists y, eval Annotations.yaw_radians self = Ok y) ->
  eval (resolve name) self = Err e ->
  name <> "yaw" /\ Annotations_has_attr name = false /\
  e = AttributeError name.
Proof.
  intros [y Hy] H. rewrite eval_resolve in H.
  destruct (name =? "yaw") eqn:Eyaw; cbn [negb] in H.
  { rewrite Hy in H. discriminate. }
  apply String_eqb_false_neq in Eyaw. split; [exact Eyaw |].
  rewrite eval_Annotations_getattr in H.
  unfold Annotations_has_attr.
  destruct (Annotations_vars_fields self name) as [Hin Hout].
  destruct (str_in name Annotations.fields).
  { destruct (Hin eq_refl) as [v Hv]. rewrite Hv in H. discriminate. }
  rewrite (Hout eq_refl) in H. unfold str_in in *. cbn [existsb orb] in *.
  destruct (name =? "quaternion").
  { rewrite eval_yaw_radians, <- eval_quaternion in Hy.
    destruct (eval Annotations.quaternion self); discriminate. }
  destruct (name =? "yaw_radians").
  { rewrite Hy in H. discriminate. }
  cbn [orb] in *.
  destruct (_ || object_attr name) eqn:E; [discriminate |].
  inversion H; subst. split; [| reflexivity].
  revert E. destruct (name =? "from_dataframe"), (name =? "as_tensor");
    cbn [orb]; auto.
Qed.

(** An attribute that is not derived from the quaternion fields is
    always answered. *)
Lemma resolve_known (self : Annotations.t) (name : string) :
  Annotations_has_attr name = true ->
  str_in name ["yaw"; "quaternion"; "yaw_radians"] = false ->
  exists v, eval (resolve name) self = Ok v.
Proof.
  intros Hattr Hd. unfold str_in in Hd. cbn [existsb] in Hd.
  apply orb_false_elim in Hd. destruct Hd as [Hyaw Hd].
  apply orb_false_elim in Hd. destruct Hd as [Hq Hd].
  apply orb_false_elim in Hd. destruct Hd as [Hyr _].
  rewrite eval_resolve, Hyaw. cbn [negb].
  rewrite eval_Annotations_getattr.
  destruct (Annotations_vars_fields self name) as [Hin Hout].
  unfold Annotations_has_attr in Hattr.
  destruct (str_in name Annotations.fields).
  { destruct (Hin eq_refl) as [v ->]. eauto. }
  rewrite (Hout eq_refl), Hq, Hyr. cbn [orb] in Hattr.
  unfold str_in in *. cbn [existsb] in *. rewrite Hq, Hyr in Hattr.
  cbn [orb] in Hattr. rewrite Hattr. eauto.
Qed.

(** When the yaw can be derived, so can every entry that is derived from
    the quaternion fields. *)
Lemma resolve_derived (self : Annotations.t) (name : string) :
  (exists y, eval Annotations.yaw_radians self = Ok y) ->
  Annotations_has_attr name = true \/ name = "yaw" ->
  exists v, eval (resolve name) self = Ok v.
Proof.
  intros Hy Hname.
  destruct (eval (resolve name) self) as [v | e] eqn:E; [eauto |].
  destruct (resolve_Err self name e Hy E) as (Hyaw & Hattr & _).
  destruct Hname as [Hname | Hname]; congruence.
Qed.

Lemma in_effective_ordering om (fo : list string) (name : string) :
  In name (effective_ordering om fo) -> name = "yaw" \/ In name fo.
Proof.
  destruct om; simpl; auto. intros H.
  apply in_app_or in H. destruct H as [H | [H | H]]; auto.
  - right.
    assert (Hk : In name (firstn 6 (filter (fun name0 => negb (str_in name0 ["qw"; "qx"; "qy"; "qz"])) fo)
                          ++ skipn 6 (filter (fun name0 => negb (str_in name0 ["qw"; "qx"; "qy"; "qz"])) fo)))
      by (apply in_or_app; auto).
    rewrite firstn_skipn in Hk. now apply filter_In in Hk.
  - right.
    assert (Hk : In name (firstn 6 (filter (fun name0 => negb (str_in name0 ["qw"; "qx"; "qy"; "qz"])) fo)
                          ++ skipn 6 (filter (fun name0 => negb (str_in name0 ["qw"; "qx"; "qy"; "qz"])) fo)))
      by (apply in_or_app; auto).
    rewrite firstn_skipn in Hk. now apply filter_In in Hk.
Qed.

Lemma effective_ordering_keeps om (fo : list string) (name : string) :
  In name fo -> str_in name ["qw"; "qx"; "qy"; "qz"] = false ->
  In name (effective_ordering om fo).
Proof.
  intros Hin Hq. destruct om; [exact Hin |]. unfold effective_ordering.
  set (kept := filter _ fo).
  assert (Hk : In name kept).
  { apply filter_In. split; [exact Hin | cbv beta; now rewrite Hq]. }
  rewrite <- (firstn_skipn 6 kept) in Hk.
  apply in_app_or in Hk. apply in_or_app. simpl. tauto.
Qed.

Lemma not_attr_not_quaternion_field (name : string) :
  Annotations_has_attr name = false ->
  str_in name ["qw"; "qx"; "qy"; "qz"] = false.
Proof.
  unfold Annotations_has_attr. intros H.
  apply orb_false_elim in H. destruct H as [H _].
  apply orb_false_elim in H. destruct H as [H _].
  unfold str_in, Annotations.fields in *. cbn [existsb] in *.
  repeat (apply orb_false_elim in H; let H1 := fresh in destruct H as [H1 H];
          try rewrite H1).
  reflexivity.
Qed.

End AttributeLookup.

(* ================================================================== *)
(** ** The exporters: ordering, yaw column, shape, unknown names *)

Section ExporterClaims.

Context {N : Numerics} {C : Collaborators}.

(** C2.  In YAW mode [Annotations.as_tensor] exports the ordering
    obtained from [field_ordering] by dropping every [qw], [qx], [qy],
    [qz] and putting ["yaw"] at index 6 of what is kept: it is the very
    computation that the verbatim mode runs on that ordering, and index 6
    holds ["yaw"] as soon as six entries are kept.  A ["yaw"] entry is
    never looked up on the container: its column holds [yaw_radians],
    that is [quat_to_yaw] of the stack of [qw], [qx], [qy], [qz],
    converted to the output dtype like every column. *)
Theorem yaw_mode_ordering_and_column
        (self : Annotations.t) (field_ordering : list string)
        (dt : ScalarType) :
  let kept :=
    filter (fun name => negb (str_in name ["qw"; "qx"; "qy"; "qz"]))
           field_ordering in
  let effective := firstn 6 kept ++ "yaw" :: skipn 6 kept in
  Annotations.as_tensor field_ordering YAW dt =
    Annotations.as_tensor effective QUATERNION_WXYZ dt /\
  (6 <= List.length kept -> nth_error effective 6 = Some "yaw") /\
  eval Annotations.yaw_radians self =
    (q <- torch_stack [Annotations.qw self; Annotations.qx self;
                       Annotations.qy self; Annotations.qz self] ;;
     quat_to_yaw q) /\
  forall out : Tensor,
    Annotations_ok self -> quat_to_yaw_drops_last_axis ->
    eval (Annotations.as_tensor field_ordering YAW dt) self = Ok out ->
    forall j, nth_error effective j = Some "yaw" ->
    exists y promoted,
      eval Annotations.yaw_radians self = Ok y /\
      forall i, nth_error (data out) (i * List.length effective + j) =
                option_map (fun v => cast dt (cast promoted v))
                           (nth_error (data y) i).
Proof.
  intros kept effective. repeat split.
  - apply as_tensor_YAW.
  - intros Hlen. unfold effective.
    rewrite nth_error_app2 by (rewrite length_firstn; lia).
    rewrite length_firstn.
    replace (6 - Nat.min 6 (List.length kept)) with 0 by lia. reflexivity.
  - apply eval_yaw_radians.
  - intros out Hok Hlaw Hout j Hj.
    rewrite eval_Annotations_as_tensor in Hout.
    exact (yaw_column _ _ _ _ Hok Hlaw Hout j Hj).
Qed.

(** C10.  In YAW mode, when fewer than six entries are left once [qw],
    [qx], [qy], [qz] are dropped, ["yaw"] is appended after them: the
    exported ordering is the kept entries followed by ["yaw"], it has no
    entry at index 6, and the last column of the output, at index
    [len(kept)], holds the derived yaw. *)
Theorem yaw_appended_to_short_ordering
        (self : Annotations.t) (field_ordering : list string)
        (dt : ScalarType) :
  let kept :=
    filter (fun name => negb (str_in name ["qw"; "qx"; "qy"; "qz"]))
           field_ordering in
  List.length kept < 6 ->
  Annotations.as_tensor field_ordering YAW dt =
    Annotations.as_tensor (kept ++ ["yaw"]) QUATERNION_WXYZ dt /\
  nth_error (kept ++ ["yaw"]) 6 = None /\
  nth_error (kept ++ ["yaw"]) (List.length kept) = Some "yaw" /\
  forall out : Tensor,
    Annotations_ok self -> quat_to_yaw_drops_last_axis ->
    eval (Annotations.as_tensor field_ordering YAW dt) self = Ok out ->
    exists y promoted leading,
      eval Annotations.yaw_radians self = Ok y /\
      shape out = leading ++ [List.length kept + 1] /\
      forall i, nth_error (data out)
                          (i * (List.length kept + 1) + List.length kept) =
                option_map (fun v => cast dt (cast promoted v))
                           (nth_error (data y) i).
Proof.
  intros kept Hshort.
  assert (Heff : effective_ordering YAW field_ordering = kept ++ ["yaw"]).
  { unfold effective_ordering. fold kept.
    rewrite firstn_all2 by lia. now rewrite skipn_all2 by lia. }
  assert (Hlast : nth_error (kept ++ ["yaw"]) (List.length kept) = Some "yaw").
  { rewrite nth_error_app2 by lia. now rewrite Nat.sub_diag. }
  repeat split.
  - rewrite as_tensor_YAW. now rewrite Heff.
  - apply nth_error_None. rewrite length_app. simpl. lia.
  - exact Hlast.
  - intros out Hok Hlaw Hout.
    rewrite eval_Annotations_as_tensor, Heff in Hout.
    destruct (yaw_column _ _ _ _ Hok Hlaw Hout _ Hlast)
      as (y & promoted & Hy & Hcol).
    destruct (stack_fields_shape _ _ _ _ Hout) as (name & u & _ & _ & Hs).
    exists y, promoted, (shape u). repeat split; auto.
    + rewrite Hs, length_app. reflexivity.
    + intros i. specialize (Hcol i).
      rewrite length_app in Hcol. exact Hcol.
Qed.

(** X16.  The shape law.  Let the container have row count [n] (every
    tensor it stores has shape [(n,)]).  Whenever [Lidar.as_tensor]
    succeeds, its result has shape [(n, len(field_ordering))].  Whenever
    [Annotations.as_tensor] succeeds on an ordering that does not name the
    derived two-dimensional property [quaternion], its result has shape
    [(n, len(effective_ordering))], the effective ordering being the
    given one in QUATERNION_WXYZ mode and the rewritten one in YAW
    mode. *)
Theorem as_tensor_shape :
  (forall (self : Lidar.t) (n : nat) (field_ordering : list string)
          (dt : ScalarType) (out : Tensor),
      Lidar_rows self n ->
      eval (Lidar.as_tensor field_ordering dt) self = Ok out ->
      shape out = [n; List.length field_ordering]) /\
  (forall (self : Annotations.t) (n : nat) (field_ordering : list string)
          (orientation_mode : OrientationMode) (dt : ScalarType)
          (out : Tensor),
      Annotations_rows self n ->
      quat_to_yaw_drops_last_axis ->
      ~ In "quaternion" field_ordering ->
      eval (Annotations.as_tensor field_ordering orientation_mode dt) self
      = Ok out ->
      shape out =
      [n; List.length (effective_ordering orientation_mode field_ordering)]).
Proof.
  split.
  - intros self n fo dt out Hrows Hout.
    rewrite eval_Lidar_as_tensor in Hout.
    destruct (mapM _ fo) as [fields |] eqn:Em; [| discriminate].
    cbn [bind Monad_Res] in Hout.
    destruct (torch_stack fields) as [stacked |] eqn:Es; [| discriminate].
    inversion Hout; subst out. cbn [Tensor_type shape].
    apply mapM_Ok in Em.
    destruct (torch_stack_Ok _ Es) as (t0 & rest & Hv & _ & Hshape & _).
    assert (Hin : In (VTensor t0) fields) by (rewrite Hv; simpl; auto).
    destruct (Forall2_In_r _ _ _ Em _ Hin) as (name & _ & Hname).
    rewrite eval_Lidar_getattr in Hname.
    rewrite Hshape, (Forall2_length Em).
    destruct (dict_get (Lidar.vars self) name) as [v |] eqn:Ev.
    + inversion Hname; subst v. now rewrite (Hrows name t0 Ev).
    + destruct (_ || _); discriminate.
  - intros self n fo om dt out Hrows Hlaw Hq Hout.
    rewrite eval_Annotations_as_tensor in Hout.
    destruct (stack_fields_shape _ _ _ _ Hout) as (name & u & Hin & Hu & Hs).
    rewrite Hs.
    rewrite (resolve_shape self n name u Hrows Hlaw); [reflexivity | | exact Hu].
    intros ->. apply in_effective_ordering in Hin.
    destruct Hin as [Hin | Hin]; [discriminate | contradiction].
Qed.

(** C6, amended.  When [field_ordering] holds a name that is neither an
    attribute of the container nor ["yaw"], [as_tensor] raises and gives
    no array.  On a [Lidar] the exception is the [AttributeError] of such
    a name.  On an [Annotations] the entries of the exported ordering are
    resolved from left to right up to the first such name: the exception
    is the [AttributeError] of that name, unless an entry before it fails,
    which only an entry derived from the quaternion fields (["yaw"],
    ["quaternion"], ["yaw_radians"]) can do; then the exception is the one
    of that entry.  In particular it is the [AttributeError] whenever no
    derived entry comes before the name, and whenever the yaw can be
    computed on the container. *)
Theorem as_tensor_unknown_field :
  (forall (self : Lidar.t) (field_ordering : list string) (dt : ScalarType),
      (exists name, In name field_ordering /\ Lidar_has_attr name = false) ->
      exists name,
        In name field_ordering /\ Lidar_has_attr name = false /\
        eval (Lidar.as_tensor field_ordering dt) self
        = Err (AttributeError name)) /\
  (forall (self : Annotations.t) (field_ordering : list string)
          (orientation_mode : OrientationMode) (dt : ScalarType),
      (exists name, In name field_ordering /\
                    Annotations_has_attr name = false /\ name <> "yaw") ->
      exists before name after,
        effective_ordering orientation_mode field_ordering
        = before ++ name :: after /\
        In name field_ordering /\
        Annotations_has_attr name = false /\ name <> "yaw" /\
        (forall x, In x before ->
                   Annotations_has_attr x = true \/ x = "yaw") /\
        (exists e,
            eval (Annotations.as_tensor field_ordering orientation_mode dt)
                 self = Err e) /\
        eval (Annotations.as_tensor field_ordering orientation_mode dt) self
        = (fields <- mapM (fun x => eval (resolve x) self) before ;;
           Err (AttributeError name)) /\
        ((forall x, In x before ->
                    str_in x ["yaw"; "quaternion"; "yaw_radians"] = true ->
                    exists v, eval (resolve x) self = Ok v) ->
         eval (Annotations.as_tensor field_ordering orientation_mode dt) self
         = Err (AttributeError name)) /\
        ((exists y, eval Annotations.yaw_radians self = Ok y) ->
         eval (Annotations.as_tensor field_ordering orientation_mode dt) self
         = Err (AttributeError name))).
Proof.
  split.
  - intros self fo dt (u & Hu & Hattr).
    rewrite eval_Lidar_as_tensor.
    destruct (mapM _ fo) as [fields | e] eqn:Em.
    + apply mapM_Ok in Em.
      destruct (Forall2_In_l _ _ _ Em _ Hu) as (v & _ & Hv).
      pose proof (Lidar_getattr_cases self u) as Hc.
      rewrite Hattr in Hc. congruence.
    + destruct (mapM_Err _ _ Em) as (before & x & after & -> & _ & Hx).
      pose proof (Lidar_getattr_cases self x) as Hc.
      destruct (Lidar_has_attr x) eqn:Ex.
      * destruct Hc as [v Hv]. congruence.
      * exists x. repeat split; auto.
        -- apply in_or_app. simpl. auto.
        -- cbn [bind Monad_Res]. congruence.
  - intros self fo om dt (u & Hu & Hattr & Hyaw).
    set (unknown := fun x => negb (Annotations_has_attr x)
                             && negb (x =? "yaw")).
    destruct (split_at_first unknown (effective_ordering om fo))
      as (before & name & after & Heq & Hname & Hbefore).
    { exists u. split.
      - apply effective_ordering_keeps; [exact Hu |].
        now apply not_attr_not_quaternion_field.
      - unfold unknown. rewrite Hattr.
        apply String.eqb_neq in Hyaw. now rewrite Hyaw. }
    unfold unknown in Hname. apply andb_prop in Hname.
    destruct Hname as [Hna Hny].
    apply negb_true_iff in Hna. apply negb_true_iff in Hny.
    apply String_eqb_false_neq in Hny.
    assert (Hknown : forall x, In x before ->
                               Annotations_has_attr x = true \/ x = "yaw").
    { intros x Hx. specialize (Hbefore x Hx). unfold unknown in Hbefore.
      destruct (Annotations_has_attr x); [now left |].
      destruct (String.eqb_spec x "yaw"); [now right | discriminate]. }
    assert (Hrun : eval (Annotations.as_tensor fo om dt) self =
                   (fields <- mapM (fun x => eval (resolve x) self) before ;;
                    Err (AttributeError name))).
    { rewrite eval_Annotations_as_tensor. unfold stack_fields. rewrite Heq.
      rewrite (proj2 (mapM_until_Err (C := Tensor)
                        (fun x => eval (resolve x) self) before name after
                        (resolve_unknown self name Hna Hny))).
      destruct (mapM (fun x => eval (resolve x) self) before); reflexivity. }
    assert (Hall : (forall x, In x before ->
                              exists v, eval (resolve x) self = Ok v) ->
                   eval (Annotations.as_tensor fo om dt) self
                   = Err (AttributeError name)).
    { intros H. rewrite Hrun.
      destruct (mapM_all_Ok (fun x => eval (resolve x) self) before H)
        as [ys ->].
      reflexivity. }
    exists before, name, after.
    split; [exact Heq |].
    split.
    { assert (Hin : In name (effective_ordering om fo))
        by (rewrite Heq; apply in_or_app; simpl; auto).
      apply in_effective_ordering in Hin. tauto. }
    split; [exact Hna |]. split; [exact Hny |]. split; [exact Hknown |].
    split.
    { rewrite Hrun.
      destruct (mapM (fun x => eval (resolve x) self) before);
        eexists; reflexivity. }
    split; [exact Hrun |]. split.
    + intros Hderived. apply Hall. intros x Hx.
      destruct (str_in x ["yaw"; "quaternion"; "yaw_radians"]) eqn:Ed.
      * now apply Hderived.
      * destruct (Hknown x Hx) as [Hk | ->]; [| discriminate].
        now apply resolve_known.
    + intros Hy. apply Hall. intros x Hx.
      apply (resolve_derived self x Hy). now apply Hknown.
Qed.

End ExporterClaims.

(* ================================================================== *)
(** ** The exporters on shared objects *)

Lemma run_bind {S A B : Type} (m : Py S A) (k : A -> Py S B) (s : S) :
  run (bind m k) s =
  match run m s with
  | (Ok a, s') => run (k a) s'
  | (Err e, s') => (Err e, s')
  end.
Proof. reflexivity. Qed.

Lemma World_eta {T E : Type} (w : Store.World T E) :
  Store.mkWorld (Store.receiver w) (Store.objects w) (Store.sibling w) = w.
Proof. now destruct w. Qed.

Lemma computes_ret {T E A : Type} (a : A) :
  computes (ret a : Py (Store.World T E) A) (fun _ => Ok a).
Proof. intros w. exists (Store.sibling w). simpl. now rewrite World_eta. Qed.

Lemma computes_call {T E A : Type} (r : Res A) :
  computes (call r : Py (Store.World T E) A) (fun _ => r).
Proof. intros w. exists (Store.sibling w). simpl. now rewrite World_eta. Qed.

Lemma computes_on_receiver {T E A : Type} (m : Py T A) :
  read_only m ->
  computes (Store.on_receiver m : Py (Store.World T E) A) (eval m).
Proof.
  intros Hm w. exists (Store.sibling w). unfold Store.on_receiver.
  cbn [run]. now rewrite (Hm (Store.receiver w)).
Qed.

Lemma computes_in_sibling {T E A : Type} (m : Py E A) (r : Res A) :
  (forall e, eval m e = r) ->
  computes (Store.in_sibling m : Py (Store.World T E) A) (fun _ => r).
Proof.
  intros H w. exists (exec m (Store.sibling w)). unfold Store.in_sibling.
  cbn [run]. now rewrite H.
Qed.

Lemma computes_ext {T E A : Type} (m : Py (Store.World T E) A)
      (f g : T -> Res A) :
  (forall self, f self = g self) -> computes m f -> computes m g.
Proof. intros Hfg Hm w. destruct (Hm w) as [e He]. exists e. now rewrite <- Hfg. Qed.

Lemma computes_bind {T E A B : Type} (m : Py (Store.World T E) A)
      (k : A -> Py (Store.World T E) B) (f : T -> Res A) (g : A -> T -> Res B) :
  computes m f -> (forall a, computes (k a) (g a)) ->
  computes (bind m k) (fun self => bind (f self) (fun a => g a self)).
Proof.
  intros Hm Hk w. rewrite run_bind. destruct (Hm w) as [e ->].
  destruct (f (Store.receiver w)) as [a | err]; cbn [bind Monad_Res].
  - destruct (Hk a (Store.mkWorld (Store.receiver w) (Store.objects w) e))
      as [e' He'].
    exists e'. exact He'.
  - exists e. reflexivity.
Qed.

Lemma computes_mapM {T E A B : Type} (f : A -> Py (Store.World T E) B)
      (g : A -> T -> Res B) (xs : list A) :
  (forall x, computes (f x) (g x)) ->
  computes (mapM f xs) (fun self => mapM (fun x => g x self) xs).
Proof.
  intros H. induction xs as [| x xs IH]; [apply computes_ret |].
  rewrite mapM_cons.
  apply (computes_bind _ _ _
           (fun y self => ys <- mapM (fun x => g x self) xs ;; ret (y :: ys))).
  - apply H.
  - intros y.
    apply (computes_bind _ _ _ (fun ys _ => Ok (y :: ys)));
      [exact IH | intros ys; apply computes_ret].
Qed.

Lemma assign_fresh {A : Type} (l : list A) (x y : A) :
  Store.assign (List.length l) y (l ++ [x]) = l ++ [y].
Proof. induction l as [| a l IH]; simpl; [reflexivity | now rewrite IH]. Qed.

Lemma deref_fresh {T E : Type} (self : T) (l : list Store.Sequence)
      (o : Store.Sequence) (e : E) :
  Store.deref (Store.mkWorld self (l ++ [o]) e) (List.length l) = o.
Proof. unfold Store.deref. cbn [Store.objects]. apply nth_middle. Qed.

(** The rewriting of the ordering in YAW mode: two new objects, and the
    reference to the second, a tuple of the exported names. *)
Lemma run_YAW_ordering {T E : Type} (w : Store.World T E) (field_ordering : nat) :
  let exported :=
    list_insert 6 "yaw"
      (filter (fun field_name =>
                 negb (str_in field_name ["qw"; "qx"; "qy"; "qz"]))
              (Store.Sequence_items (Store.deref w field_ordering))) in
  run (names <- Store.iter field_ordering ;;
       augmented_ordering <-
         Store.new (Store.PyList
                      (filter (fun field_name =>
                                 negb (str_in field_name ["qw"; "qx"; "qy"; "qz"]))
                              names)) ;;
       done <- Store.insert augmented_ordering 6 "yaw" ;;
       names <- Store.iter augmented_ordering ;;
       Store.new (Store.PyTuple names)) w =
  (Ok (List.length (Store.objects w ++ [Store.PyList exported])),
   Store.mkWorld (Store.receiver w)
                 ((Store.objects w ++ [Store.PyList exported])
                  ++ [Store.PyTuple exported])
                 (Store.sibling w)).
Proof.
  intros exported.
  rewrite run_bind. unfold Store.iter at 1. cbn [run reads].
  rewrite run_bind. unfold Store.new at 1. cbn [run].
  rewrite run_bind. unfold Store.insert. cbn [run].
  rewrite deref_fresh. cbn [Store.receiver Store.objects Store.sibling].
  rewrite assign_fresh.
  rewrite run_bind. unfold Store.iter. cbn [run reads].
  rewrite deref_fresh. reflexivity.
Qed.

Section SharedObjects.

Context {N : Numerics} {C : Collaborators} {P : Procedures}.

Lemma yaw_radians_computes :
  quat_to_yaw_is_a_function ->
  computes Store.yaw_radians (eval Annotations.yaw_radians).
Proof.
  intros Hf. unfold Store.yaw_radians.
  apply computes_ext
    with (f := fun self => q <- eval Annotations.quaternion self ;;
                           quat_to_yaw q).
  - intros self. now rewrite eval_yaw_radians, eval_quaternion.
  - apply (computes_bind _ _ _ (fun q _ => quat_to_yaw q)).
    + apply computes_on_receiver, quaternion_read_only.
    + intros q. apply computes_in_sibling. intros e. apply Hf.
Qed.

Lemma Annotations_getattr_computes (name : string) :
  quat_to_yaw_is_a_function ->
  computes (Store.Annotations_getattr name) (eval (Annotations.getattr name)).
Proof.
  intros Hf.
  set (answer := fun (found : option Value) (self : Annotations.t) =>
         match found with
         | Some v => Ok v
         | None =>
             if name =? "quaternion" then
               q <- eval Annotations.quaternion self ;; ret (VTensor q)
             else if name =? "yaw_radians" then
               y <- eval Annotations.yaw_radians self ;; ret (VTensor y)
             else if str_in name ["from_dataframe"; "as_tensor"]
                     || object_attr name
                  then Ok VObject
             else Err (AttributeError name)
         end).
  apply computes_ext
    with (f := fun self =>
                 found <- eval (attr (fun s => dict_get (Annotations.vars s) name))
                               self ;;
                 answer found self).
  - intros self. rewrite eval_Annotations_getattr. reflexivity.
  - unfold Store.Annotations_getattr.
    apply (computes_bind _ _ _ answer).
    + apply computes_on_receiver, read_only_reads.
    + intros [v |]; unfold answer; [apply computes_ret |].
      destruct (name =? "quaternion").
      { apply (computes_bind _ _ _ (fun q _ => Ok (VTensor q)));
          [apply computes_on_receiver, quaternion_read_only
          | intros q; apply computes_ret]. }
      destruct (name =? "yaw_radians").
      { apply (computes_bind _ _ _ (fun y _ => Ok (VTensor y)));
          [apply yaw_radians_computes, Hf | intros y; apply computes_ret]. }
      destruct (_ || _); [apply computes_ret | apply computes_call].
Qed.

(** Once the names are read, the rest of [Annotations.as_tensor] computes
    the stack of the fields from the receiver. *)
Lemma Annotations_fields_compute (names : list string) (dt : ScalarType) :
  quat_to_yaw_is_a_function ->
  computes
    (fields <- mapM (fun field_name =>
                       if negb (field_name =? "yaw")
                       then Store.Annotations_getattr field_name
                       else y <- Store.yaw_radians ;; ret (VTensor y))
                    names ;;
     stacked <- call (torch_stack fields) ;;
     ret (Tensor_type stacked dt))
    (stack_fields names dt).
Proof.
  intros Hf. unfold stack_fields.
  apply (computes_bind _ _ _
           (fun fields _ => stacked <- torch_stack fields ;;
                            ret (Tensor_type stacked dt))).
  - apply (computes_mapM _ (fun name => eval (resolve name))).
    intros name. apply computes_ext with
      (f := fun self =>
              if negb (name =? "yaw") then eval (Annotations.getattr name) self
              else y <- eval Annotations.yaw_radians self ;; ret (VTensor y)).
    + intros self. now rewrite eval_resolve.
    + destruct (negb (name =? "yaw")).
      * now apply Annotations_getattr_computes.
      * apply (computes_bind _ _ _ (fun y _ => Ok (VTensor y)));
          [now apply yaw_radians_computes | intros y; apply computes_ret].
  - intros fields.
    apply (computes_bind _ _ _ (fun stacked _ => Ok (Tensor_type stacked dt)));
      [apply computes_call | intros stacked; apply computes_ret].
Qed.

(** A call of [Annotations.as_tensor] returns what the exporter computes
    from the fields of the receiver and the names of the ordering, and
    only adds objects to the store. *)
Lemma Annotations_as_tensor_run
      (w : Store.World Annotations.t module_state) (field_ordering : nat)
      (om : OrientationMode) (dt : ScalarType) :
  quat_to_yaw_is_a_function ->
  exists extra e,
    run (Store.Annotations_as_tensor field_ordering om dt) w =
    (eval (Annotations.as_tensor
             (Store.Sequence_items (Store.deref w field_ordering)) om dt)
          (Store.receiver w),
     Store.mkWorld (Store.receiver w) (Store.objects w ++ extra) e).
Proof.
  intros Hf. rewrite eval_Annotations_as_tensor.
  unfold Store.Annotations_as_tensor. rewrite run_bind.
  destruct om.
  - cbn [run ret Monad_Py]. rewrite run_bind.
    unfold Store.iter. cbn [run reads].
    destruct (Annotations_fields_compute
                (Store.Sequence_items (Store.deref w field_ordering)) dt Hf w)
      as [e He].
    exists [], e. rewrite app_nil_r. exact He.
  - rewrite run_YAW_ordering. cbv zeta. rewrite run_bind.
    unfold Store.iter. cbn [run reads]. rewrite deref_fresh.
    cbn [Store.Sequence_items].
    match goal with
    | |- context [run _ ?w1] =>
        destruct (Annotations_fields_compute
                    (list_insert 6 "yaw"
                       (filter (fun field_name =>
                                  negb (str_in field_name ["qw"; "qx"; "qy"; "qz"]))
                               (Store.Sequence_items
                                  (Store.deref w field_ordering))))
                    dt Hf w1) as [e He]
    end.
    cbn [Store.receiver Store.objects] in He.
    eexists _, e. rewrite He, list_insert_effective, <- app_assoc.
    reflexivity.
Qed.

Lemma read_only_on_receiver {T E A : Type} (m : Py T A) :
  read_only m -> read_only (Store.on_receiver m : Py (Store.World T E) A).
Proof.
  intros Hm w. unfold exec, Store.on_receiver. cbn [run snd].
  rewrite (Hm (Store.receiver w)). apply World_eta.
Qed.

(** A call of [Lidar.as_tensor] returns what the exporter computes from
    the fields of the receiver and the names of the ordering, and writes
    nothing. *)
Lemma Lidar_as_tensor_run {E : Type}
      (w : Store.World Lidar.t E) (field_ordering : nat) (dt : ScalarType) :
  run (Store.Lidar_as_tensor field_ordering dt) w =
  (eval (Lidar.as_tensor
           (Store.Sequence_items (Store.deref w field_ordering)) dt)
        (Store.receiver w),
   w).
Proof.
  assert (Hro : read_only (Store.Lidar_as_tensor field_ordering dt
                           : Py (Store.World Lidar.t E) Tensor)).
  { unfold Store.Lidar_as_tensor, Store.iter, call.
    apply read_only_bind; [apply read_only_reads | intros names].
    apply read_only_bind.
    - apply read_only_mapM. intros x.
      apply read_only_on_receiver, Lidar_getattr_read_only.
    - intros fields. read_only_tac. }
  rewrite (run_read_only w Hro). f_equal.
  assert (H : computes
                (fields <- mapM (fun field_name =>
                                   Store.on_receiver (Lidar.getattr field_name))
                                (Store.Sequence_items
                                   (Store.deref w field_ordering)) ;;
                 stacked <- call (torch_stack fields) ;;
                 (ret (Tensor_type stacked dt) : Py (Store.World Lidar.t E) _))
                (fun self =>
                   fields <- mapM (fun name => eval (Lidar.getattr name) self)
                                  (Store.Sequence_items
                                     (Store.deref w field_ordering)) ;;
                   stacked <- torch_stack fields ;;
                   ret (Tensor_type stacked dt))).
  { apply (computes_bind _ _ _
             (fun fields _ => stacked <- torch_stack fields ;;
                              ret (Tensor_type stacked dt))).
    - apply (computes_mapM _ (fun name => eval (Lidar.getattr name))).
      intros name. apply computes_on_receiver, Lidar_getattr_read_only.
    - intros fields.
      apply (computes_bind _ _ _ (fun stacked _ => Ok (Tensor_type stacked dt)));
        [apply computes_call | intros stacked; apply computes_ret]. }
  rewrite eval_Lidar_as_tensor.
  unfold eval at 1. unfold Store.Lidar_as_tensor. rewrite run_bind.
  unfold Store.iter. cbn [run reads].
  destruct (H w) as [e He]. rewrite He. reflexivity.
Qed.

(** C9.  The exporter is deterministic.  A call receives its receiver
    and a reference to the ordering in a store of objects it shares with
    its caller, next to the sibling module, whose conversion is a function
    of its argument whatever state it keeps.  The outcome of
    [Annotations.as_tensor] (the array, or the exception) is what the
    exporter computes from the fields of the receiver, the names the
    ordering holds, the mode and the dtype: any call in any store in which
    these are the same has the same outcome.  The call hands back the
    receiver and every object of its caller as they were (in YAW mode the
    list it writes is one it made itself, whether the caller passed a
    tuple or a list), so a second call with the same arguments returns
    what the first returned.  The same holds for [Lidar.as_tensor], which
    writes nothing at all. *)
Theorem as_tensor_deterministic :
  (forall (w : Store.World Annotations.t module_state) (field_ordering : nat)
          (orientation_mode : OrientationMode) (dt : ScalarType),
      quat_to_yaw_is_a_function ->
      field_ordering < List.length (Store.objects w) ->
      let first :=
        run (Store.Annotations_as_tensor field_ordering orientation_mode dt) w in
      let second :=
        run (Store.Annotations_as_tensor field_ordering orientation_mode dt)
            (snd first) in
      fst first =
        eval (Annotations.as_tensor
                (Store.Sequence_items (Store.deref w field_ordering))
                orientation_mode dt)
             (Store.receiver w) /\
      (forall (w' : Store.World Annotations.t module_state)
              (field_ordering' : nat),
          Store.receiver w' = Store.receiver w ->
          Store.Sequence_items (Store.deref w' field_ordering')
          = Store.Sequence_items (Store.deref w field_ordering) ->
          fst (run (Store.Annotations_as_tensor field_ordering'
                      orientation_mode dt) w') = fst first) /\
      Store.receiver (snd first) = Store.receiver w /\
      (forall r, r < List.length (Store.objects w) ->
                 Store.deref (snd first) r = Store.deref w r) /\
      fst second = fst first) /\
  (forall (E : Type) (w : Store.World Lidar.t E) (field_ordering : nat)
          (dt : ScalarType),
      let first := run (Store.Lidar_as_tensor field_ordering dt) w in
      let second := run (Store.Lidar_as_tensor field_ordering dt) (snd first) in
      fst first =
        eval (Lidar.as_tensor
                (Store.Sequence_items (Store.deref w field_ordering)) dt)
             (Store.receiver w) /\
      (forall (w' : Store.World Lidar.t E) (field_ordering' : nat),
          Store.receiver w' = Store.receiver w ->
          Store.Sequence_items (Store.deref w' field_ordering')
          = Store.Sequence_items (Store.deref w field_ordering) ->
          fst (run (Store.Lidar_as_tensor field_ordering' dt) w') = fst first) /\
      snd first = w /\
      fst second = fst first).
Proof.
  split.
  - intros w fo om dt Hf Hfo. cbv zeta.
    destruct (Annotations_as_tensor_run w fo om dt Hf) as (extra & e & Hrun).
    rewrite Hrun. cbn [fst snd Store.receiver].
    split; [reflexivity |]. split; [| split; [reflexivity | split]].
    + intros w' fo' Hself Hnames.
      destruct (Annotations_as_tensor_run w' fo' om dt Hf)
        as (extra' & e' & Hrun').
      rewrite Hrun'. cbn [fst]. now rewrite Hself, Hnames.
    + intros r Hr. unfold Store.deref. cbn [Store.objects].
      now apply app_nth1.
    + destruct (Annotations_as_tensor_run
                  (Store.mkWorld (Store.receiver w) (Store.objects w ++ extra) e)
                  fo om dt Hf) as (extra' & e' & Hrun').
      rewrite Hrun'. cbn [fst Store.receiver].
      replace (Store.deref
                 (Store.mkWorld (Store.receiver w) (Store.objects w ++ extra) e)
                 fo)
        with (Store.deref w fo); [reflexivity |].
      unfold Store.deref. cbn [Store.objects]. symmetry. now apply app_nth1.
  - intros E w fo dt. cbv zeta. rewrite Lidar_as_tensor_run.
    cbn [fst snd]. rewrite Lidar_as_tensor_run. cbn [fst].
    split; [reflexivity |]. split; [| split; reflexivity].
    intros w' fo' Hself Hnames.
    rewrite Lidar_as_tensor_run. cbn [fst]. now rewrite Hself, Hnames.
Qed.

End SharedObjects.

(* ================================================================== *)
(** ** Dictionaries and keyword binding *)

Lemma str_in_In (name : string) (names : list string) :
  str_in name names = true <-> In name names.
Proof.
  unfold str_in. rewrite existsb_exists. split.
  - intros (x & Hx & E). apply String.eqb_eq in E. now subst.
  - intros H. exists name. split; [exact H | apply String.eqb_refl].
Qed.

Lemma str_in_not_In (name : string) (names : list string) :
  str_in name names = false <-> ~ In name names.
Proof.
  rewrite <- str_in_In. destruct (str_in name names); split; congruence.
Qed.

Lemma dict_get_set_eq {V : Type} (d : dict V) (key : string) (v : V) :
  dict_get (dict_set d key v) key = Some v.
Proof.
  induction d as [| [k w] d IH]; simpl.
  - now rewrite String.eqb_refl.
  - destruct (key =? k) eqn:E; simpl; rewrite ?E; auto.
Qed.

Lemma dict_get_set_neq {V : Type} (d : dict V) (key key' : string) (v : V) :
  key' <> key -> dict_get (dict_set d key v) key' = dict_get d key'.
Proof.
  intros Hne. apply String.eqb_neq in Hne.
  induction d as [| [k w] d IH]; simpl.
  - now rewrite Hne.
  - destruct (key =? k) eqn:E; simpl.
    + apply String.eqb_eq in E. subst k. now rewrite Hne.
    + now rewrite IH.
Qed.

Lemma dict_get_Some_keys {V : Type} (d : dict V) (key : string) (v : V) :
  dict_get d key = Some v -> In key (keys d).
Proof.
  induction d as [| [k w] d IH]; simpl; [discriminate |].
  destruct (key =? k) eqn:E; [| auto].
  apply String.eqb_eq in E. auto.
Qed.

Lemma dict_get_keys {V : Type} (d : dict V) (key : string) :
  In key (keys d) -> exists v, dict_get d key = Some v.
Proof.
  induction d as [| [k w] d IH]; simpl; [contradiction |].
  intros [-> | H].
  - rewrite String.eqb_refl. eauto.
  - destruct (key =? k); eauto.
Qed.

Lemma dict_get_NoDup {V : Type} (d : dict V) (key : string) (v : V) :
  NoDup (keys d) -> In (key, v) d -> dict_get d key = Some v.
Proof.
  induction d as [| [k w] d IH]; simpl; [contradiction |].
  intros Hnd Hin. inversion Hnd as [| ? ? Hk Hnd']; subst.
  destruct Hin as [Heq | Hin].
  - inversion Heq; subst. now rewrite String.eqb_refl.
  - destruct (String.eqb_spec key k) as [-> | _]; [| auto].
    exfalso. apply Hk. change k with (fst (k, v)). now apply in_map.
Qed.

Lemma keys_dict_set {V : Type} (d : dict V) (key : string) (v : V) (k : string) :
  In k (keys (dict_set d key v)) <-> In k (keys d) \/ k = key.
Proof.
  induction d as [| [k0 w] d IH]; simpl.
  - intuition.
  - destruct (String.eqb_spec key k0) as [-> | Hne]; simpl.
    + intuition.
    + rewrite IH. intuition.
Qed.

Lemma dict_get_map {V W : Type} (f : V -> W) (d : dict V) (key : string) :
  dict_get (map (fun c => (fst c, f (snd c))) d) key
  = option_map f (dict_get d key).
Proof.
  induction d as [| [k w] d IH]; simpl; [reflexivity |].
  destruct (key =? k); auto.
Qed.

Lemma unexpected_keyword_Some {V : Type} fields (kw : dict V) (k : string) :
  unexpected_keyword fields kw = Some k ->
  In k (keys kw) /\ ~ In k fields.
Proof.
  unfold unexpected_keyword. intros H. apply find_some in H.
  destruct H as [Hin Hk]. split; [exact Hin |].
  apply str_in_not_In. now destruct (str_in k fields).
Qed.

Lemma unexpected_keyword_None {V : Type} fields (kw : dict V) :
  unexpected_keyword fields kw = None ->
  forall k, In k (keys kw) -> In k fields.
Proof.
  unfold unexpected_keyword. intros H k Hk.
  pose proof (find_none _ _ H k Hk) as Hf.
  cbv beta in Hf. apply str_in_In.
  destruct (str_in k fields); [reflexivity | discriminate].
Qed.

Lemma missing_arguments_In {V : Type} fields (kw : dict V) (name : string) :
  In name (missing_arguments fields kw) <->
  In name fields /\ ~ In name (keys kw).
Proof.
  unfold missing_arguments. rewrite filter_In, <- str_in_not_In.
  destruct (str_in name (keys kw)); simpl; intuition congruence.
Qed.


Ltac take_argument H :=
  match type of H with
  | context [argument ?fields ?kw ?name] =>
      let E := fresh "Earg" in
      unfold argument in H at 1;
      destruct (dict_get kw name) eqn:E;
      cbn [bind Monad_Res] in H; [| try discriminate]
  end.

Ltac split_argument H :=
  match type of H with
  | context [argument ?fields ?kw ?name] =>
      let E := fresh "Earg" in
      unfold argument in H at 1;
      destruct (dict_get kw name) eqn:E;
      cbn [bind Monad_Res] in H;
      [| right; split;
         [ exact H
         | exists name; split; [apply str_in_In; reflexivity | exact E] ] ]
  end.

Ltac pick_field name :=
  repeat match goal with
         | |- context [String.eqb name ?s] =>
             destruct (String.eqb_spec name s) as [-> | _];
             cbn [orb]; [ intros _; simpl; congruence | ]
         end.

Section Construction.

Context {N : Numerics}.

Lemma Annotations_init_Ok (kw : dict Value) (self : Annotations.t) :
  Annotations.init kw = Ok self ->
  (forall k, In k (keys kw) -> In k Annotations.fields) /\
  (forall name, In name Annotations.fields ->
                dict_get (Annotations.vars self) name = dict_get kw name).
Proof.
  unfold Annotations.init. intros H.
  destruct (unexpected_keyword Annotations.fields kw) eqn:Eu; [discriminate |].
  split; [now apply unexpected_keyword_None |].
  do 17 take_argument H.
  inversion H; subst self; clear H.
  intros name Hin. apply str_in_In in Hin. revert Hin.
  unfold str_in, Annotations.fields, Annotations.vars.
  cbn [existsb dict_get Annotations.tx_m Annotations.ty_m Annotations.tz_m
       Annotations.length_m Annotations.width_m Annotations.height_m
       Annotations.qw Annotations.qx Annotations.qy Annotations.qz
       Annotations.vx_m Annotations.vy_m Annotations.vz_m
       Annotations.timestamp_ns Annotations.num_interior_pts
       Annotations.category Annotations.track_uuid].
  pick_field name. discriminate.
Qed.

Lemma Annotations_init_cases (kw : dict Value) :
  unexpected_keyword Annotations.fields kw = None ->
  (exists self, Annotations.init kw = Ok self) \/
  (Annotations.init kw
   = Err (TypeError_missing_arguments (missing_arguments Annotations.fields kw)) /\
   exists name, In name Annotations.fields /\ dict_get kw name = None).
Proof.
  intros Eu. remember (Annotations.init kw) as r eqn:H.
  unfold Annotations.init in H. rewrite Eu in H.
  repeat split_argument H.
  left. eexists. exact H.
Qed.

(** With exactly the declared keywords the constructor returns. *)
Lemma Annotations_init_total (kw : dict Value) :
  (forall k, In k (keys kw) -> In k Annotations.fields) ->
  (forall f, In f Annotations.fields -> In f (keys kw)) ->
  exists self, Annotations.init kw = Ok self.
Proof.
  intros Hsub Hsup.
  assert (Eu : unexpected_keyword Annotations.fields kw = None).
  { destruct (unexpected_keyword Annotations.fields kw) as [k |] eqn:E;
      [| reflexivity].
    apply unexpected_keyword_Some in E. destruct E as [Hk Hnf].
    exfalso. auto. }
  destruct (Annotations_init_cases kw Eu) as [H | [_ (name & Hf & Hnone)]];
    [exact H |].
  exfalso. destruct (dict_get_keys kw name (Hsup name Hf)) as [v Hv].
  congruence.
Qed.

Lemma Lidar_init_Ok (kw : dict Value) (self : Lidar.t) :
  Lidar.init kw = Ok self ->
  (forall k, In k (keys kw) -> In k Lidar.fields) /\
  (forall name, In name Lidar.fields ->
                dict_get (Lidar.vars self) name = dict_get kw name).
Proof.
  unfold Lidar.init. intros H.
  destruct (unexpected_keyword Lidar.fields kw) eqn:Eu; [discriminate |].
  split; [now apply unexpected_keyword_None |].
  do 6 take_argument H.
  inversion H; subst self; clear H.
  intros name Hin. apply str_in_In in Hin. revert Hin.
  unfold str_in, Lidar.fields, Lidar.vars.
  cbn [existsb dict_get Lidar.x Lidar.y Lidar.z Lidar.intensity
       Lidar.laser_number Lidar.offset_ns].
  pick_field name. discriminate.
Qed.

Lemma Lidar_init_cases (kw : dict Value) :
  unexpected_keyword Lidar.fields kw = None ->
  (exists self, Lidar.init kw = Ok self) \/
  (Lidar.init kw
   = Err (TypeError_missing_arguments (missing_arguments Lidar.fields kw)) /\
   exists name, In name Lidar.fields /\ dict_get kw name = None).
Proof.
  intros Eu. remember (Lidar.init kw) as r eqn:H.
  unfold Lidar.init in H. rewrite Eu in H.
  repeat split_argument H.
  left. eexists. exact H.
Qed.

(** With exactly the declared keywords the constructor returns. *)
Lemma Lidar_init_total (kw : dict Value) :
  (forall k, In k (keys kw) -> In k Lidar.fields) ->
  (forall f, In f Lidar.fields -> In f (keys kw)) ->
  exists self, Lidar.init kw = Ok self.
Proof.
  intros Hsub Hsup.
  assert (Eu : unexpected_keyword Lidar.fields kw = None).
  { destruct (unexpected_keyword Lidar.fields kw) as [k |] eqn:E;
      [| reflexivity].
    apply unexpected_keyword_Some in E. destruct E as [Hk Hnf].
    exfalso. auto. }
  destruct (Lidar_init_cases kw Eu) as [H | [_ (name & Hf & Hnone)]];
    [exact H |].
  exfalso. destruct (dict_get_keys kw name (Hsup name Hf)) as [v Hv].
  congruence.
Qed.

End Construction.

(* ================================================================== *)
(** ** [from_dataframe] *)

Section Adapter.

Context {N : Numerics}.

Lemma guard_numeric (field : Series) (kinds : list ScalarType) :
  dtype_in (Series_dtype field) (map Numeric kinds) = true ->
  exists kind values, field = NumericSeries kind values.
Proof.
  destruct field as [kind values | categorical values]; [eauto |].
  intros H. exfalso. unfold dtype_in in H.
  apply existsb_exists in H. destruct H as (d & Hd & E).
  apply in_map_iff in Hd. destruct Hd as (k & <- & _).
  destruct categorical; discriminate.
Qed.

(** What [Annotations.from_dataframe] makes of one column. *)
Lemma Annotations_convert_Ok (field : Series) :
  exists v,
    Annotations.convert field = Ok v /\
    Value_items v = to_list field /\
    if dtype_in (Series_dtype field)
                [Numeric Float32; Numeric Float64; Numeric Int32]
    then exists kind values,
        field = NumericSeries kind values /\
        v = VTensor (mkTensor kind [List.length values] values)
    else v = VTuple (to_list field).
Proof.
  unfold Annotations.convert.
  destruct (dtype_in _ _) eqn:G.
  - destruct (guard_numeric field [Float32; Float64; Int32] G)
      as (kind & values & ->).
    eexists. repeat split. exists kind, values. split; reflexivity.
  - eexists. repeat split.
Qed.

Lemma Annotations_for_items_total (items : list (string * Series))
      (acc : dict Value) :
  exists cols, Annotations.for_items items acc = Ok cols.
Proof.
  revert acc. induction items as [| [name field] items IH]; intros acc.
  - simpl. eauto.
  - cbn [Annotations.for_items].
    destruct (Annotations_convert_Ok field) as (v & -> & _).
    cbn [bind Monad_Res]. apply IH.
Qed.

Lemma Annotations_for_items_keys (items : list (string * Series))
      (acc cols : dict Value) :
  Annotations.for_items items acc = Ok cols ->
  forall k, In k (keys cols) <-> In k (keys acc) \/ In k (keys items).
Proof.
  revert acc. induction items as [| [name field] items IH]; intros acc H k.
  - inversion H; subst. simpl. tauto.
  - cbn [Annotations.for_items] in H.
    destruct (Annotations_convert_Ok field) as (v & Hv & _).
    rewrite Hv in H. cbn [bind Monad_Res] in H.
    rewrite (IH _ H k), keys_dict_set. simpl. intuition.
Qed.

Lemma Annotations_for_items_get (items : list (string * Series))
      (acc cols : dict Value) :
  Annotations.for_items items acc = Ok cols ->
  NoDup (keys items) ->
  (forall name field,
      In (name, field) items ->
      exists v, Annotations.convert field = Ok v /\
                dict_get cols name = Some v) /\
  (forall name, ~ In name (keys items) ->
                dict_get cols name = dict_get acc name).
Proof.
  revert acc. induction items as [| [n f] items IH]; intros acc H Hnd.
  - inversion H; subst. split; [intros ? ? [] | reflexivity].
  - cbn [Annotations.for_items] in H.
    destruct (Annotations_convert_Ok f) as (v & Hv & _).
    rewrite Hv in H. cbn [bind Monad_Res] in H.
    inversion Hnd as [| ? ? Hn Hnd']; subst.
    destruct (IH _ H Hnd') as [Hin Hout]. split.
    + intros name field [Heq | Hrest].
      * inversion Heq; subst. exists v. split; [exact Hv |].
        rewrite (Hout _ Hn). apply dict_get_set_eq.
      * now apply Hin.
    + intros name Hname. simpl in Hname.
      rewrite Hout by tauto.
      apply dict_get_set_neq. intros ->. tauto.
Qed.

Lemma Lidar_for_items_total (items : list (string * Series))
      (acc : dict Value) :
  exists cols, Lidar.for_items items acc = Ok cols.
Proof.
  revert acc. induction items as [| [name field] items IH]; intros acc.
  - simpl. eauto.
  - cbn [Lidar.for_items]. destruct (dtype_in _ _) eqn:G; [| apply IH].
    destruct (guard_numeric field [Float32; Int32] G) as (kind & values & ->).
    cbn [to_numpy bind Monad_Res]. apply IH.
Qed.

Lemma Lidar_for_items_keys (items : list (string * Series))
      (acc cols : dict Value) :
  Lidar.for_items items acc = Ok cols ->
  forall k, (In k (keys acc) -> In k (keys cols)) /\
            (In k (keys cols) -> In k (keys acc) \/ In k (keys items)).
Proof.
  revert acc. induction items as [| [name field] items IH]; intros acc H k.
  - inversion H; subst. simpl. tauto.
  - cbn [Lidar.for_items] in H. destruct (dtype_in _ _) eqn:G.
    + destruct (guard_numeric field [Float32; Int32] G)
        as (kind & values & ->).
      cbn [to_numpy bind Monad_Res] in H.
      destruct (IH _ H k) as [H1 H2]. split.
      * intros Hk. apply H1. apply keys_dict_set. auto.
      * intros Hk. destruct (H2 Hk) as [Hk' | Hk']; [| simpl; auto].
        apply keys_dict_set in Hk'. simpl. intuition.
    + destruct (IH _ H k) as [H1 H2]. split; [exact H1 |].
      intros Hk. destruct (H2 Hk); simpl; auto.
Qed.

Lemma Lidar_for_items_get (items : list (string * Series))
      (acc cols : dict Value) :
  Lidar.for_items items acc = Ok cols ->
  NoDup (keys items) ->
  (forall name field,
      In (name, field) items ->
      if dtype_in (Series_dtype field) [Numeric Float32; Numeric Int32]
      then exists kind values,
          field = NumericSeries kind values /\
          dict_get cols name
          = Some (VTensor (mkTensor kind [List.length values] values))
      else dict_get cols name = dict_get acc name) /\
  (forall name, ~ In name (keys items) ->
                dict_get cols name = dict_get acc name).
Proof.
  revert acc. induction items as [| [n f] items IH]; intros acc H Hnd.
  - inversion H; subst. split; [intros ? ? [] | reflexivity].
  - cbn [Lidar.for_items] in H.
    inversion Hnd as [| ? ? Hn Hnd']; subst.
    destruct (dtype_in (Series_dtype f) _) eqn:G.
    + destruct (guard_numeric f [Float32; Int32] G) as (kind & values & ->).
      cbn [to_numpy bind Monad_Res] in H.
      destruct (IH _ H Hnd') as [Hin Hout]. split.
      * intros name field [Heq | Hrest].
        -- inversion Heq; subst. rewrite G. exists kind, values.
           split; [reflexivity |].
           rewrite (Hout _ Hn). apply dict_get_set_eq.
        -- specialize (Hin name field Hrest).
           destruct (dtype_in (Series_dtype field) _); [exact Hin |].
           rewrite Hin. apply dict_get_set_neq. intros ->.
           apply Hn. change n with (fst (n, field)). now apply in_map.
      * intros name Hname. simpl in Hname.
        rewrite Hout by tauto.
        apply dict_get_set_neq. intros ->. tauto.
    + destruct (IH _ H Hnd') as [Hin Hout]. split.
      * intros name field [Heq | Hrest].
        -- inversion Heq; subst. rewrite G. now apply Hout.
        -- now apply Hin.
      * intros name Hname. simpl in Hname. apply Hout. tauto.
Qed.

(** Binding fails as soon as the columns are not exactly the fields. *)
Lemma mismatch_is_reported (fields columns : list string) (cols : dict Value) :
  (forall k, In k (keys cols) <-> In k columns) ->
  ~ (forall name, In name columns <-> In name fields) ->
  (forall k, In k (keys cols) -> In k fields) ->
  names_mismatch fields columns
    (TypeError_missing_arguments (missing_arguments fields cols)).
Proof.
  intros Hkeys Hdiff Hsub. right. eexists. split; [reflexivity |]. split.
  - intros Hempty. apply Hdiff. intros name. split.
    + intros Hc. apply Hsub. now apply Hkeys.
    + intros Hf. apply Hkeys.
      destruct (str_in name (keys cols)) eqn:E; [now apply str_in_In |].
      assert (Hm : In name (missing_arguments fields cols)).
      { apply missing_arguments_In. split; [exact Hf |].
        now apply str_in_not_In. }
      rewrite Hempty in Hm. contradiction.
  - intros name Hm. apply missing_arguments_In in Hm.
    destruct Hm as [Hf Hk]. split; [exact Hf |].
    intros Hc. apply Hk. now apply Hkeys.
Qed.

End Adapter.

Section AdapterClaims.

Context {N : Numerics} {C : Collaborators}.

Lemma keys_of_series_dict (dataframe : DataFrame) :
  keys (map (fun c => (fst c, VSeries (snd c))) dataframe) = keys dataframe.
Proof. unfold keys. rewrite map_map. reflexivity. Qed.

(** C1, amended.  A frame whose columns are exactly the declared fields
    is accepted by [from_dataframe].  Let the frame have distinct column
    names and let [from_dataframe] return a container.  For [Annotations],
    a column of kind float32, float64 or int32 is stored as a
    one-dimensional tensor of that kind holding the column's values in
    order, and any other column as the tuple of its values.  For [Lidar],
    a column of kind float32 or int32 is stored as such a tensor, and any
    other column (float64 included) is stored as the series itself,
    unconverted.  In both classes reading the field back by attribute
    access gives the column's values, in order. *)
Theorem from_dataframe_round_trip :
  (forall dataframe : DataFrame,
      (forall name, In name (keys dataframe) <-> In name Annotations.fields) ->
      exists self, Annotations.from_dataframe dataframe = Ok self) /\
  (forall dataframe : DataFrame,
      (forall name, In name (keys dataframe) <-> In name Lidar.fields) ->
      exists self, Lidar.from_dataframe dataframe = Ok self) /\
  (forall (dataframe : DataFrame) (self : Annotations.t)
          (name : string) (field : Series),
      NoDup (keys dataframe) ->
      Annotations.from_dataframe dataframe = Ok self ->
      In (name, field) dataframe ->
      exists v,
        eval (Annotations.getattr name) self = Ok v /\
        Value_items v = to_list field /\
        if dtype_in (Series_dtype field)
                    [Numeric Float32; Numeric Float64; Numeric Int32]
        then exists kind values,
            field = NumericSeries kind values /\
            v = VTensor (mkTensor kind [List.length values] values)
        else v = VTuple (to_list field)) /\
  (forall (dataframe : DataFrame) (self : Lidar.t)
          (name : string) (field : Series),
      NoDup (keys dataframe) ->
      Lidar.from_dataframe dataframe = Ok self ->
      In (name, field) dataframe ->
      exists v,
        eval (Lidar.getattr name) self = Ok v /\
        Value_items v = to_list field /\
        if dtype_in (Series_dtype field) [Numeric Float32; Numeric Int32]
        then exists kind values,
            field = NumericSeries kind values /\
            v = VTensor (mkTensor kind [List.length values] values)
        else v = VSeries field).
Proof.
  split; [| split].
  - intros dataframe Hsame.
    destruct (Annotations_for_items_total (to_dict dataframe) [])
      as [cols Hc].
    unfold Annotations.from_dataframe. rewrite Hc. cbn [bind Monad_Res].
    assert (Hkeys : forall k, In k (keys cols) <-> In k (keys dataframe)).
    { intros k. rewrite (Annotations_for_items_keys _ _ _ Hc k).
      unfold to_dict. simpl. tauto. }
    apply Annotations_init_total; intros k Hk.
    + apply Hsame. now apply Hkeys.
    + apply Hkeys. now apply Hsame.
  - intros dataframe Hsame.
    set (acc := map (fun c => (fst c, VSeries (snd c))) (to_dict dataframe)).
    destruct (Lidar_for_items_total (to_dict dataframe) acc) as [cols Hc].
    unfold Lidar.from_dataframe. fold acc. rewrite Hc. cbn [bind Monad_Res].
    assert (Hkeys : forall k, In k (keys cols) <-> In k (keys dataframe)).
    { intros k. destruct (Lidar_for_items_keys _ _ _ Hc k) as [H1 H2].
      unfold acc, to_dict in H1, H2. rewrite keys_of_series_dict in H1, H2.
      tauto. }
    apply Lidar_init_total; intros k Hk.
    + apply Hsame. now apply Hkeys.
    + apply Hkeys. now apply Hsame.
  - split; intros dataframe self name field Hnd Hfrom Hin.
    + unfold Annotations.from_dataframe, to_dict in Hfrom.
      destruct (Annotations.for_items dataframe []) as [cols |] eqn:Ec;
        [| discriminate].
      cbn [bind Monad_Res] in Hfrom.
      destruct (Annotations_for_items_get _ _ _ Ec Hnd) as [Hget _].
      destruct (Hget name field Hin) as (v & Hv & Hcol).
      destruct (Annotations_convert_Ok field) as (v' & Hv' & Hitems & Hkind).
      assert (v' = v) by congruence. subst v'.
      destruct (Annotations_init_Ok _ _ Hfrom) as [Hsub Hvars].
      exists v. split; [| split; assumption].
      rewrite eval_Annotations_getattr, Hvars, Hcol; [reflexivity |].
      apply Hsub. eapply dict_get_Some_keys; eauto.
    + unfold Lidar.from_dataframe, to_dict in Hfrom.
      destruct (Lidar.for_items dataframe _) as [cols |] eqn:Ec;
        [| discriminate].
      cbn [bind Monad_Res] in Hfrom.
      destruct (Lidar_for_items_get _ _ _ Ec Hnd) as [Hget _].
      specialize (Hget name field Hin).
      destruct (Lidar_init_Ok _ _ Hfrom) as [Hsub Hvars].
      assert (Hread : forall v, dict_get cols name = Some v ->
                                eval (Lidar.getattr name) self = Ok v).
      { intros v Hv. rewrite eval_Lidar_getattr, Hvars, Hv; [reflexivity |].
        apply Hsub. eapply dict_get_Some_keys; eauto. }
      destruct (dtype_in (Series_dtype field) _).
      * destruct Hget as (kind & values & -> & Hcol).
        eexists. split; [apply Hread; exact Hcol |].
        split; [reflexivity |]. exists kind, values. split; reflexivity.
      * rewrite dict_get_map, (dict_get_NoDup _ _ _ Hnd Hin) in Hget.
        exists (VSeries field). split; [now apply Hread |].
        split; reflexivity.
Qed.

(** C7.  A frame whose set of column names is not exactly the set of the
    container's fields is rejected by [from_dataframe], for [Annotations]
    and for [Lidar] alike: the call raises the constructor's [TypeError],
    which names a column that is no field or else the fields that have no
    column; no container is built. *)
Theorem from_dataframe_rejects_mismatch :
  (forall dataframe : DataFrame,
      ~ (forall name, In name (keys dataframe) <-> In name Annotations.fields) ->
      exists e,
        Annotations.from_dataframe dataframe = Err e /\
        names_mismatch Annotations.fields (keys dataframe) e) /\
  (forall dataframe : DataFrame,
      ~ (forall name, In name (keys dataframe) <-> In name Lidar.fields) ->
      exists e,
        Lidar.from_dataframe dataframe = Err e /\
        names_mismatch Lidar.fields (keys dataframe) e).
Proof.
  split; intros dataframe Hdiff.
  - destruct (Annotations_for_items_total (to_dict dataframe) [])
      as [cols Hc].
    unfold Annotations.from_dataframe. rewrite Hc. cbn [bind Monad_Res].
    assert (Hkeys : forall k, In k (keys cols) <-> In k (keys dataframe)).
    { intros k. rewrite (Annotations_for_items_keys _ _ _ Hc k).
      unfold to_dict. simpl. tauto. }
    destruct (unexpected_keyword Annotations.fields cols) as [k |] eqn:Eu.
    + exists (TypeError_unexpected_keyword k).
      unfold Annotations.init. rewrite Eu. split; [reflexivity |].
      apply unexpected_keyword_Some in Eu. destruct Eu as [Hk Hnf].
      left. exists k. repeat split; auto. now apply Hkeys.
    + pose proof (unexpected_keyword_None _ _ Eu) as Hsub.
      destruct (Annotations_init_cases cols Eu) as [[self Hs] | [He _]].
      * exfalso. apply Hdiff. intros name. split.
        -- intros Hn. apply Hsub. now apply Hkeys.
        -- intros Hf. apply Hkeys.
           destruct (Annotations_init_Ok _ _ Hs) as [_ Hvars].
           destruct (Annotations_vars_fields self name) as [Hsome _].
           destruct (Hsome (proj2 (str_in_In _ _) Hf)) as [v Hv].
           rewrite (Hvars name Hf) in Hv.
           eapply dict_get_Some_keys; eauto.
      * eexists. split; [exact He |].
        now apply mismatch_is_reported.
  - set (acc := map (fun c => (fst c, VSeries (snd c))) (to_dict dataframe)).
    destruct (Lidar_for_items_total (to_dict dataframe) acc) as [cols Hc].
    unfold Lidar.from_dataframe. fold acc. rewrite Hc. cbn [bind Monad_Res].
    assert (Hkeys : forall k, In k (keys cols) <-> In k (keys dataframe)).
    { intros k. destruct (Lidar_for_items_keys _ _ _ Hc k) as [H1 H2].
      unfold acc, to_dict in H1, H2. rewrite keys_of_series_dict in H1, H2.
      tauto. }
    destruct (unexpected_keyword Lidar.fields cols) as [k |] eqn:Eu.
    + exists (TypeError_unexpected_keyword k).
      unfold Lidar.init. rewrite Eu. split; [reflexivity |].
      apply unexpected_keyword_Some in Eu. destruct Eu as [Hk Hnf].
      left. exists k. repeat split; auto. now apply Hkeys.
    + pose proof (unexpected_keyword_None _ _ Eu) as Hsub.
      destruct (Lidar_init_cases cols Eu) as [[self Hs] | [He _]].
      * exfalso. apply Hdiff. intros name. split.
        -- intros Hn. apply Hsub. now apply Hkeys.
        -- intros Hf. apply Hkeys.
           destruct (Lidar_init_Ok _ _ Hs) as [_ Hvars].
           destruct (Lidar_vars_fields self name) as [Hsome _].
           destruct (Hsome (proj2 (str_in_In _ _) Hf)) as [v Hv].
           rewrite (Hvars name Hf) in Hv.
           eapply dict_get_Some_keys; eauto.
      * eexists. split; [exact He |].
        now apply mismatch_is_reported.
Qed.

End AdapterClaims.

(* ================================================================== *)
(** ** [query_SE3] *)

Section PoseQuery.

Context {N : Numerics} {C : Collaborators}.

Lemma filter_none {A : Type} (p : A -> bool) (l : list A) :
  Forall (fun a => p a = false) l -> List.filter p l = [].
Proof.
  induction 1 as [| a l Ha _ IH]; simpl; [reflexivity |].
  now rewrite Ha.
Qed.

(** C3.  When exactly one row of the poses frame carries the queried
    timestamp, [query_SE3] returns what the direct construction returns:
    [SE3] built from [quat_to_mat] of that row's [(qw, qx, qy, qz)], as a
    vector of four, and from that row's [(tx_m, ty_m, tz_m)], as a vector
    of three, element for element. *)
Theorem query_SE3_single_match
        (poses : Poses.t) (timestamp_ns : Z)
        (before after : list Poses.row) (r : Poses.row) :
  Poses.rows poses = before ++ r :: after ->
  Poses.timestamp_ns r = timestamp_ns ->
  Forall (fun r' => Poses.timestamp_ns r' <> timestamp_ns) before ->
  Forall (fun r' => Poses.timestamp_ns r' <> timestamp_ns) after ->
  query_SE3 poses timestamp_ns =
  (rotation <- quat_to_mat
                 (mkNDArray (Poses.float_dtype poses) [4]
                            [Poses.qw r; Poses.qx r; Poses.qy r; Poses.qz r]) ;;
   SE3_init rotation
            (mkNDArray (Poses.float_dtype poses) [3]
                       [Poses.tx_m r; Poses.ty_m r; Poses.tz_m r])).
Proof.
  intros Hrows Hr Hbefore Hafter.
  assert (Hf : List.filter
                 (fun r' => Z.eqb (Poses.timestamp_ns r') timestamp_ns)
                 (Poses.rows poses) = [r]).
  { rewrite Hrows, filter_app. simpl.
    rewrite (proj2 (Z.eqb_eq _ _) Hr).
    rewrite !filter_none; [reflexivity | |].
    - eapply Forall_impl; [| exact Hafter].
      intros a Ha. now apply Z.eqb_neq.
    - eapply Forall_impl; [| exact Hbefore].
      intros a Ha. now apply Z.eqb_neq. }
  unfold query_SE3, Poses.filter, Poses.select_to_numpy, squeeze.
  cbn [Poses.rows Poses.float_dtype nd_dtype nd_shape nd_data].
  rewrite Hf. reflexivity.
Qed.

(** C4, amended.  When no row of the poses frame carries the queried
    timestamp, [query_SE3] checks nothing and raises nothing of its own:
    it hands the empty [(0, 4)] array to [quat_to_mat] and, if that
    returns, the result and the empty [(0, 3)] array to the [SE3]
    constructor.  With a constructor that validates the shapes of its
    arguments the call therefore fails and returns no transform: the
    exception is the one [quat_to_mat] raises on the empty array or, when
    it returns, the [ValueError] of the constructor. *)
Theorem query_SE3_no_match (poses : Poses.t) (timestamp_ns : Z) :
  Forall (fun r => Poses.timestamp_ns r <> timestamp_ns) (Poses.rows poses) ->
  query_SE3 poses timestamp_ns =
  (rotation <- quat_to_mat (mkNDArray (Poses.float_dtype poses) [0; 4] []) ;;
   SE3_init rotation (mkNDArray (Poses.float_dtype poses) [0; 3] [])) /\
  (SE3_validates_shapes ->
   exists e,
     query_SE3 poses timestamp_ns = Err e /\
     (quat_to_mat (mkNDArray (Poses.float_dtype poses) [0; 4] []) = Err e \/
      (exists rotation,
          quat_to_mat (mkNDArray (Poses.float_dtype poses) [0; 4] [])
          = Ok rotation) /\
      e = RaisedByCollaborator "ValueError")).
Proof.
  intros Hnone.
  assert (Hf : List.filter
                 (fun r' => Z.eqb (Poses.timestamp_ns r') timestamp_ns)
                 (Poses.rows poses) = []).
  { apply filter_none. eapply Forall_impl; [| exact Hnone].
    intros a Ha. now apply Z.eqb_neq. }
  assert (Hq : query_SE3 poses timestamp_ns =
               (rotation <- quat_to_mat
                              (mkNDArray (Poses.float_dtype poses) [0; 4] []) ;;
                SE3_init rotation
                         (mkNDArray (Poses.float_dtype poses) [0; 3] []))).
  { unfold query_SE3, Poses.filter, Poses.select_to_numpy, squeeze.
    cbn [Poses.rows Poses.float_dtype nd_dtype nd_shape nd_data].
    rewrite Hf. reflexivity. }
  split; [exact Hq |]. intros Hcheck. rewrite Hq.
  destruct (quat_to_mat _) as [rotation | e].
  - exists (RaisedByCollaborator "ValueError"). cbn [bind Monad_Res].
    split; [| right; split; [eauto | reflexivity]].
    apply Hcheck. right. cbn [nd_shape]. discriminate.
  - exists e. cbn [bind Monad_Res]. split; [reflexivity | now left].
Qed.

End PoseQuery.

(* ================================================================== *)
(** * The properties on the sample data *)

Lemma length_quads {A : Type} (n : nat) (l : list A) :
  List.length l = n * 4 -> List.length (quads l) = n.
Proof.
  revert l. induction n as [| n IH]; intros l Hl.
  - destruct l; [reflexivity | discriminate].
  - destruct l as [| a [| b [| c [| d l]]]]; try discriminate.
    simpl in *. f_equal. apply IH. lia.
Qed.

Lemma rowwise_yaw_drops_last_axis :
  @quat_to_yaw_drops_last_axis ZNumerics ZCollaborators.
Proof.
  intros q y s Hs H. cbn [quat_to_yaw ZCollaborators] in H.
  unfold rowwise_yaw in H. rewrite Hs, rev_app_distr in H. simpl in H.
  inversion H; subst y; clear H. cbn [shape data].
  rewrite rev_involutive. split; [reflexivity |].
  intros Hok. unfold Tensor_ok in *. cbn [shape data].
  rewrite length_map. apply length_quads.
  etransitivity; [exact Hok |].
  rewrite Hs, numel_app. simpl. lia.
Qed.

Ltac each_field H :=
  cbn [dict_get Annotations.vars Lidar.vars] in H;
  repeat match type of H with
         | context [String.eqb ?name ?s] =>
             destruct (String.eqb name s);
             [ inversion H; subst; reflexivity | ]
         end;
  try discriminate.

Lemma sample_annotations_ok : Annotations_ok sample_annotations.
Proof. intros name t H. unfold sample_annotations in H. each_field H. Qed.

Lemma sample_annotations_rows : Annotations_rows sample_annotations 2.
Proof. intros name t H. unfold sample_annotations in H. each_field H. Qed.

Lemma sample_lidar_rows : Lidar_rows sample_lidar 2.
Proof. intros name t H. unfold sample_lidar in H. each_field H. Qed.

Ltac distinct_names :=
  repeat (constructor; [ simpl; intuition discriminate | ]); constructor.

Lemma sample_annotations_frame_names : NoDup (keys sample_annotations_frame).
Proof. unfold sample_annotations_frame, keys. simpl. distinct_names. Qed.

Lemma sample_lidar_frame_names : NoDup (keys sample_lidar_frame).
Proof. unfold sample_lidar_frame, keys. simpl. distinct_names. Qed.

Lemma float64_x_lidar_frame_names : NoDup (keys float64_x_lidar_frame).
Proof. unfold float64_x_lidar_frame, keys. simpl. distinct_names. Qed.


(** C1, as stated, fails on [Lidar]: a float64 column is not turned into a
    tensor, the field holds the series. *)
Lemma lidar_float64_column_counterexample :
  In ("x", float_column [10; 20]%Z) float64_x_lidar_frame /\
  Series_dtype (float_column [10; 20]%Z) = Numeric Float64 /\
  @Lidar.from_dataframe ZNumerics float64_x_lidar_frame = Ok float64_x_lidar /\
  eval (@Lidar.getattr ZNumerics ZCollaborators "x") float64_x_lidar
  = Ok (VSeries (float_column [10; 20]%Z)) /\
  forall t, VSeries (float_column [10; 20]%Z) <> VTensor t.
Proof.
  repeat split; try reflexivity.
  - left. reflexivity.
  - intros t Ht. discriminate Ht.
Qed.

Lemma from_dataframe_round_trip_witness :
  (exists self,
      @Annotations.from_dataframe ZNumerics sample_annotations_frame = Ok self) /\
  (exists v,
      eval (@Annotations.getattr ZNumerics ZCollaborators "category")
           sample_annotations = Ok v /\
      Value_items v
      = to_list (@TextSeries ZNumerics false ["REGULAR_VEHICLE"; "PEDESTRIAN"]) /\
      v = VTuple (to_list (@TextSeries ZNumerics false
                             ["REGULAR_VEHICLE"; "PEDESTRIAN"]))) /\
  (exists v,
      eval (@Lidar.getattr ZNumerics ZCollaborators "x") float64_x_lidar = Ok v /\
      Value_items v = to_list (float_column [10; 20]%Z) /\
      v = VSeries (float_column [10; 20]%Z)).
Proof.
  destruct (@from_dataframe_round_trip ZNumerics ZCollaborators)
    as (Haccept & _ & Hannotations & Hlidar).
  split; [| split].
  - apply (Haccept sample_annotations_frame).
    intros name. rewrite <- !str_in_In.
    unfold str_in, sample_annotations_frame, keys, Annotations.fields.
    cbn [map fst existsb].
    repeat match goal with
           | |- context [String.eqb name ?s] =>
               destruct (String.eqb_spec name s) as [-> | _];
               [split; intros _; reflexivity | cbn [orb]]
           end.
    split; intros H; exact H.
  - apply (Hannotations
             sample_annotations_frame sample_annotations "category"
             (@TextSeries ZNumerics false ["REGULAR_VEHICLE"; "PEDESTRIAN"])).
    + exact sample_annotations_frame_names.
    + reflexivity.
    + simpl. tauto.
  - apply (Hlidar float64_x_lidar_frame float64_x_lidar "x"
                  (float_column [10; 20]%Z)).
    + exact float64_x_lidar_frame_names.
    + reflexivity.
    + simpl. tauto.
Defined.

Lemma yaw_mode_ordering_and_column_witness :
  Annotations_ok sample_annotations /\
  @quat_to_yaw_drops_last_axis ZNumerics ZCollaborators /\
  eval (@Annotations.as_tensor ZNumerics ZCollaborators
          DEFAULT_ANNOTATIONS_TENSOR_FIELDS YAW Float32) sample_annotations
  = Ok sample_annotations_export /\
  exists y promoted,
    eval (@Annotations.yaw_radians ZNumerics ZCollaborators) sample_annotations
    = Ok y /\
    forall i, nth_error (data sample_annotations_export) (i * 10 + 6) =
              option_map (fun v => @cast ZNumerics Float32 (cast promoted v))
                         (nth_error (data y) i).
Proof.
  split; [exact sample_annotations_ok |].
  split; [exact rowwise_yaw_drops_last_axis |].
  split; [reflexivity |].
  destruct (@yaw_mode_ordering_and_column ZNumerics ZCollaborators
              sample_annotations DEFAULT_ANNOTATIONS_TENSOR_FIELDS Float32)
    as (_ & _ & _ & H).
  exact (H sample_annotations_export sample_annotations_ok
           rowwise_yaw_drops_last_axis eq_refl 6 eq_refl).
Defined.

Lemma query_SE3_single_match_witness :
  @query_SE3 ZNumerics ZCollaborators sample_poses 1%Z =
  Ok (@mkNDArray ZNumerics Float64 [3; 3] [1; 0; 0; 0; 1; 0; 0; 0; 1]%Z,
      @mkNDArray ZNumerics Float64 [3] [10; 20; 30]%Z).
Proof.
  apply (@query_SE3_single_match ZNumerics ZCollaborators
           sample_poses 1%Z [] [pose_2] pose_1).
  - reflexivity.
  - reflexivity.
  - constructor.
  - constructor; [simpl; lia | constructor].
Defined.

(** C4, as stated, fails: a query for a timestamp no row carries is not
    answered by an error of [query_SE3] saying that no pose was found.
    The empty arrays reach the collaborators, and what comes back is the
    [ValueError] they raise on the shapes they are handed. *)
Lemma query_SE3_absent_timestamp_counterexample :
  Forall (fun r => @Poses.timestamp_ns ZNumerics r <> 3%Z)
         (Poses.rows sample_poses) /\
  @query_SE3 ZNumerics ZCollaborators sample_poses 3%Z =
  Err (RaisedByCollaborator "ValueError").
Proof.
  split; [| reflexivity].
  repeat constructor; simpl; lia.
Qed.

Lemma checked_SE3_validates_shapes :
  @SE3_validates_shapes ZNumerics ZCollaborators.
Proof.
  intros rotation translation H. cbn [SE3_init ZCollaborators].
  unfold checked_SE3, shape_eqb.
  destruct (list_eq_dec Nat.eq_dec (nd_shape rotation) [3; 3]);
    [| reflexivity].
  destruct (list_eq_dec Nat.eq_dec (nd_shape translation) [3]);
    [tauto | reflexivity].
Qed.

Lemma query_SE3_no_match_witness :
  @query_SE3 ZNumerics ZCollaborators sample_poses 7%Z =
  (rotation <- @quat_to_mat ZNumerics ZCollaborators
                 (@mkNDArray ZNumerics Float64 [0; 4] []) ;;
   @SE3_init ZNumerics ZCollaborators rotation
             (@mkNDArray ZNumerics Float64 [0; 3] [])) /\
  exists e,
    @query_SE3 ZNumerics ZCollaborators sample_poses 7%Z = Err e /\
    (@quat_to_mat ZNumerics ZCollaborators
        (@mkNDArray ZNumerics Float64 [0; 4] []) = Err e \/
     (exists rotation,
         @quat_to_mat ZNumerics ZCollaborators
            (@mkNDArray ZNumerics Float64 [0; 4] []) = Ok rotation) /\
     e = RaisedByCollaborator "ValueError").
Proof.
  destruct (@query_SE3_no_match ZNumerics ZCollaborators sample_poses 7%Z)
    as [Hsame Hfails].
  - repeat constructor; simpl; lia.
  - split; [exact Hsame | exact (Hfails checked_SE3_validates_shapes)].
Defined.

(** C5.  The shape law fails on an ordering the exporter accepts.  On the
    container that [from_dataframe] builds from the sample frame, of two
    rows, the ordering [("quaternion",)] in QUATERNION_WXYZ mode is
    exported without an exception as an array of three axes, [(2, 4, 1)]:
    [getattr] answers the derived property, of shape [(2, 4)], and the
    stack adds an axis.  The shape law, and the docstring of [as_tensor]
    ("(N,K) tensor"), give [(2, 1)]. *)
Theorem quaternion_entry_exports_three_axes :
  @Annotations.from_dataframe ZNumerics sample_annotations_frame
  = Ok sample_annotations /\
  Annotations_rows sample_annotations 2 /\
  eval (@Annotations.as_tensor ZNumerics ZCollaborators
          ["quaternion"] QUATERNION_WXYZ Float32) sample_annotations
  = Ok (@mkTensor ZNumerics Float32 [2; 4; 1] [1; 0; 0; 1; 0; 0; 0; 5]%Z) /\
  [2; 4; 1] <> [2; List.length (effective_ordering QUATERNION_WXYZ ["quaternion"])].
Proof.
  split; [reflexivity |].
  split; [exact sample_annotations_rows |].
  split; [reflexivity | discriminate].
Qed.

Lemma as_tensor_shape_witness :
  shape sample_lidar_export = [2; 3] /\
  shape sample_annotations_export = [2; 10].
Proof.
  split.
  - apply (proj1 (@as_tensor_shape ZNumerics ZCollaborators)
                 sample_lidar 2 DEFAULT_LIDAR_TENSOR_FIELDS Float32
                 sample_lidar_export).
    + exact sample_lidar_rows.
    + reflexivity.
  - apply (proj2 (@as_tensor_shape ZNumerics ZCollaborators)
                 sample_annotations 2 DEFAULT_ANNOTATIONS_TENSOR_FIELDS YAW
                 Float32 sample_annotations_export).
    + exact sample_annotations_rows.
    + exact rowwise_yaw_drops_last_axis.
    + simpl. intuition discriminate.
    + reflexivity.
Defined.

(** C6, as stated, fails: on a container whose [qw] is a tuple, an unknown
    name placed after index 6 is never looked up, the derivation of the yaw
    raises first and the exception is the [TypeError] of [torch.stack]. *)
Lemma unknown_field_after_yaw_counterexample :
  @Annotations.from_dataframe ZNumerics int64_qw_annotations_frame
  = Ok int64_qw_annotations /\
  @Annotations_has_attr ZNumerics ZCollaborators "bogus" = false /\
  eval (@Annotations.as_tensor ZNumerics ZCollaborators
          ["tx_m"; "ty_m"; "tz_m"; "length_m"; "width_m"; "height_m"; "bogus"]
          YAW Float32) int64_qw_annotations
  = Err (TypeError_expected_Tensor 0).
Proof. repeat split. Qed.

(** On the same container, whose yaw cannot be derived, an unknown name
    that comes before every derived entry is reported as such, in both
    modes. *)
Lemma as_tensor_unknown_field_witness :
  (exists name,
      In name ["x"; "bogus"] /\
      @Lidar_has_attr ZNumerics ZCollaborators name = false /\
      eval (@Lidar.as_tensor ZNumerics ZCollaborators ["x"; "bogus"] Float32)
           sample_lidar
      = Err (AttributeError name)) /\
  (exists before name after,
      effective_ordering YAW ["tx_m"; "bogus"] = before ++ name :: after /\
      @Annotations_has_attr ZNumerics ZCollaborators name = false /\
      name <> "yaw" /\
      eval (@Annotations.as_tensor ZNumerics ZCollaborators
              ["tx_m"; "bogus"] YAW Float32) int64_qw_annotations
      = Err (AttributeError name)) /\
  eval (@Annotations.yaw_radians ZNumerics ZCollaborators) int64_qw_annotations
  = Err (TypeError_expected_Tensor 0) /\
  eval (@Annotations.as_tensor ZNumerics ZCollaborators
          ["tx_m"; "bogus"] YAW Float32) int64_qw_annotations
  = Err (AttributeError "bogus") /\
  eval (@Annotations.as_tensor ZNumerics ZCollaborators
          ["tx_m"; "bogus"] QUATERNION_WXYZ Float32) int64_qw_annotations
  = Err (AttributeError "bogus").
Proof.
  split; [| split; [| repeat split]].
  - apply (proj1 (@as_tensor_unknown_field ZNumerics ZCollaborators)
                 sample_lidar ["x"; "bogus"] Float32).
    exists "bogus". split; [simpl; tauto | reflexivity].
  - destruct (proj2 (@as_tensor_unknown_field ZNumerics ZCollaborators)
                    int64_qw_annotations ["tx_m"; "bogus"] YAW Float32)
      as (before & name & after & Heq & _ & Hna & Hny & Hknown & _ & _
          & Hderived & _).
    { exists "bogus". split; [simpl; tauto |].
      split; [reflexivity | discriminate]. }
    exists before, name, after.
    split; [exact Heq |]. split; [exact Hna |]. split; [exact Hny |].
    apply Hderived. intros x Hx Hd.
    change (effective_ordering YAW ["tx_m"; "bogus"])
      with ["tx_m"; "bogus"; "yaw"] in Heq.
    destruct before as [| b0 [| b1 [| b2 rest]]]; simpl in Heq.
    + contradiction.
    + injection Heq as <- _ _. destruct Hx as [<- | []]. discriminate Hd.
    + injection Heq as _ <- _.
      destruct (Hknown "bogus") as [Hb | Hb];
        [simpl; tauto | discriminate Hb | discriminate Hb].
    + injection Heq as _ _ _ Heq. destruct rest; discriminate Heq.
Defined.

Lemma from_dataframe_rejects_mismatch_witness :
  (exists e,
      @Annotations.from_dataframe ZNumerics extra_column_annotations_frame
      = Err e /\
      names_mismatch Annotations.fields (keys extra_column_annotations_frame) e) /\
  (exists e,
      @Lidar.from_dataframe ZNumerics short_lidar_frame = Err e /\
      names_mismatch Lidar.fields (keys short_lidar_frame) e).
Proof.
  split.
  - apply (proj1 (@from_dataframe_rejects_mismatch ZNumerics)
                 extra_column_annotations_frame).
    intros H. destruct (H "score") as [H1 _].
    assert (Hin : In "score" (keys extra_column_annotations_frame))
      by (simpl; tauto).
    specialize (H1 Hin). simpl in H1. intuition discriminate.
  - apply (proj2 (@from_dataframe_rejects_mismatch ZNumerics)
                 short_lidar_frame).
    intros H. destruct (H "offset_ns") as [_ H2].
    assert (Hin : In "offset_ns" Lidar.fields) by (simpl; tauto).
    specialize (H2 Hin). simpl in H2. intuition discriminate.
Defined.

Lemma yaw_appended_to_short_ordering_witness :
  @Annotations.as_tensor ZNumerics ZCollaborators
     ["tx_m"; "qw"; "ty_m"] YAW Float32
  = @Annotations.as_tensor ZNumerics ZCollaborators
      ["tx_m"; "ty_m"; "yaw"] QUATERNION_WXYZ Float32 /\
  nth_error ["tx_m"; "ty_m"; "yaw"] 6 = None /\
  nth_error ["tx_m"; "ty_m"; "yaw"] 2 = Some "yaw" /\
  eval (@Annotations.as_tensor ZNumerics ZCollaborators
          ["tx_m"; "qw"; "ty_m"] YAW Float32) sample_annotations
  = Ok short_annotations_export /\
  exists y promoted leading,
    eval (@Annotations.yaw_radians ZNumerics ZCollaborators)
         sample_annotations = Ok y /\
    shape short_annotations_export = leading ++ [2 + 1] /\
    forall i, nth_error (data short_annotations_export) (i * (2 + 1) + 2) =
              option_map (fun v => @cast ZNumerics Float32 (cast promoted v))
                         (nth_error (data y) i).
Proof.
  destruct (@yaw_appended_to_short_ordering ZNumerics ZCollaborators
              sample_annotations ["tx_m"; "qw"; "ty_m"] Float32)
    as (Hsame & Hnone & Hlast & Hcolumn).
  - simpl. lia.
  - split; [exact Hsame |]. split; [exact Hnone |]. split; [exact Hlast |].
    split; [reflexivity |].
    exact (Hcolumn short_annotations_export sample_annotations_ok
                   rowwise_yaw_drops_last_axis eq_refl).
Defined.

(** The conversion that counts its calls is a function of its argument. *)
Lemma counting_yaw_is_a_function :
  @quat_to_yaw_is_a_function ZNumerics ZCollaborators counting_yaw.
Proof. intros q e. reflexivity. Qed.

(** Exporting the caller's list [["tx_m"; "qw"; "ty_m"]] in YAW mode, twice:
    the store gains a list and a tuple each time and the conversion counts
    its calls, the caller's list is as it was, and both calls return the
    same array. *)
Lemma as_tensor_deterministic_witness :
  1 < List.length (Store.objects sample_world) /\
  run (@Store.Annotations_as_tensor ZNumerics ZCollaborators counting_yaw
         1 YAW Float32) sample_world
  = (Ok short_annotations_export, sample_world_after) /\
  Store.deref sample_world_after 1 = Store.PyList ["tx_m"; "qw"; "ty_m"] /\
  Store.sibling
    (snd (run (@Store.Annotations_as_tensor ZNumerics ZCollaborators
                 counting_yaw 1 YAW Float32) sample_world_after)) = 2 /\
  fst (run (@Store.Annotations_as_tensor ZNumerics ZCollaborators counting_yaw
              1 YAW Float32)
           (snd (run (@Store.Annotations_as_tensor ZNumerics ZCollaborators
                        counting_yaw 1 YAW Float32) sample_world)))
  = fst (run (@Store.Annotations_as_tensor ZNumerics ZCollaborators
                counting_yaw 1 YAW Float32) sample_world) /\
  fst (run (@Store.Lidar_as_tensor ZNumerics ZCollaborators nat 0 Float32)
           (Store.mkWorld sample_lidar
                          [Store.PyTuple DEFAULT_LIDAR_TENSOR_FIELDS] 0))
  = Ok sample_lidar_export.
Proof.
  assert (Hfo : 1 < List.length (Store.objects sample_world))
    by (simpl; lia).
  destruct (proj1 (@as_tensor_deterministic ZNumerics ZCollaborators
                     counting_yaw)
                  sample_world 1 YAW Float32
                  counting_yaw_is_a_function Hfo)
    as (_ & _ & _ & _ & Hsecond).
  destruct (proj2 (@as_tensor_deterministic ZNumerics ZCollaborators
                     counting_yaw)
                  nat
                  (Store.mkWorld sample_lidar
                                 [Store.PyTuple DEFAULT_LIDAR_TENSOR_FIELDS] 0)
                  0 Float32)
    as (Hlidar & _).
  split; [exact Hfo |].
  split; [reflexivity |].
  split; [reflexivity |].
  split; [reflexivity |].
  split; [exact Hsecond |].
  rewrite Hlidar. reflexivity.
Defined.

(* ================================================================== *)
(** * Further properties of the exporters *)

Lemma mapM_Forall2 {A B : Type} (f : A -> Res B) (xs : list A) (ys : list B) :
  Forall2 (fun x y => f x = Ok y) xs ys -> mapM f xs = Ok ys.
Proof.
  induction 1 as [| x y xs ys Hxy _ IH]; [reflexivity |].
  rewrite mapM_cons, Hxy. cbn [bind Monad_Res]. now rewrite IH.
Qed.

Lemma mapM_ext_in {A B : Type} (f g : A -> Res B) (xs : list A) :
  (forall x, In x xs -> f x = g x) -> mapM f xs = mapM g xs.
Proof.
  induction xs as [| x xs IH]; intros H; [reflexivity |].
  rewrite !mapM_cons, (H x (or_introl eq_refl)), IH; [reflexivity |].
  intros y Hy. apply H. now right.
Qed.

Lemma Forall2_map_r {A B D : Type} (R : A -> D -> Prop) (g : B -> D)
      (l : list A) (l' : list B) :
  Forall2 R l (map g l') <-> Forall2 (fun a b => R a (g b)) l l'.
Proof.
  revert l. induction l' as [| b l' IH]; intros l; simpl; split; intros H.
  - inversion H; subst. constructor.
  - inversion H; subst. constructor.
  - inversion H; subst. constructor; [assumption | now apply IH].
  - inversion H; subst. constructor; [assumption | now apply IH].
Qed.

Section StackMore.

Context {N : Numerics}.

Lemma expect_tensors_map (i : nat) (ts : list Tensor) :
  expect_tensors i (map VTensor ts) = Ok ts.
Proof.
  revert i. induction ts as [| t ts IH]; intros i; [reflexivity |].
  cbn [map expect_tensors]. rewrite IH. reflexivity.
Qed.

(** The first element that is no tensor is the one reported. *)
Lemma expect_tensors_first (i : nat) (ts : list Tensor) (v : Value)
      (rest : list Value) :
  (forall t, v <> VTensor t) ->
  expect_tensors i (map VTensor ts ++ v :: rest)
  = Err (TypeError_expected_Tensor (i + List.length ts)).
Proof.
  intros Hv. revert i. induction ts as [| t ts IH]; intros i.
  - simpl. rewrite Nat.add_0_r.
    destruct v; try reflexivity. exfalso. now apply (Hv t).
  - cbn [map app expect_tensors]. rewrite IH. cbn [bind Monad_Res].
    simpl. do 2 f_equal. lia.
Qed.

(** Equally shaped tensors, at least one, always stack. *)
Lemma torch_stack_uniform (t0 : Tensor) (rest : list Tensor) :
  Forall (fun t => shape t = shape t0) rest ->
  exists out, torch_stack (map VTensor (t0 :: rest)) = Ok out.
Proof.
  intros Hshape. unfold torch_stack.
  rewrite expect_tensors_map. cbn [bind Monad_Res].
  assert (Hall : forallb (fun t => shape_eqb (shape t) (shape t0)) rest = true).
  { apply forallb_forall. intros t Ht.
    rewrite Forall_forall in Hshape. unfold shape_eqb.
    destruct (list_eq_dec Nat.eq_dec (shape t) (shape t0)) as [_ | Hne];
      [reflexivity | exfalso; apply Hne; now apply Hshape]. }
  rewrite Hall. eauto.
Qed.

End StackMore.

Section ExporterMore.

Context {N : Numerics} {C : Collaborators}.

Lemma Lidar_getattr_tensor (self : Lidar.t) (name : string) (t : Tensor) :
  eval (Lidar.getattr name) self = Ok (VTensor t) <->
  dict_get (Lidar.vars self) name = Some (VTensor t).
Proof.
  rewrite eval_Lidar_getattr.
  destruct (dict_get (Lidar.vars self) name) as [v |].
  - split; intros H; inversion H; reflexivity.
  - destruct (_ || _); split; discriminate.
Qed.

Lemma Forall_exists_Forall2 {A B : Type} (R : A -> B -> Prop) (l : list A) :
  Forall (fun a => exists b, R a b) l -> exists l', Forall2 R l l'.
Proof.
  induction 1 as [| a l [b Hb] _ [l' IH]].
  - exists []. constructor.
  - exists (b :: l'). now constructor.
Qed.

(** X1.  [as_tensor] returns an array exactly when the ordering it
    exports is not empty, every entry resolves to a tensor, and these
    tensors have one shape.  For [Lidar] an entry resolves to a tensor only
    by naming a stored field that holds one. *)
Theorem as_tensor_succeeds_iff :
  (forall (self : Lidar.t) (field_ordering : list string) (dt : ScalarType),
      (exists out, eval (Lidar.as_tensor field_ordering dt) self = Ok out) <->
      (exists t0 rest,
          Forall2 (fun name t =>
                     dict_get (Lidar.vars self) name = Some (VTensor t))
                  field_ordering (t0 :: rest) /\
          Forall (fun t => shape t = shape t0) rest)) /\
  (forall (self : Annotations.t) (field_ordering : list string)
          (orientation_mode : OrientationMode) (dt : ScalarType),
      (exists out,
          eval (Annotations.as_tensor field_ordering orientation_mode dt) self
          = Ok out) <->
      (exists t0 rest,
          Forall2 (fun name t => eval (resolve name) self = Ok (VTensor t))
                  (effective_ordering orientation_mode field_ordering)
                  (t0 :: rest) /\
          Forall (fun t => shape t = shape t0) rest)).
Proof.
  split.
  - intros self fo dt. rewrite eval_Lidar_as_tensor. split.
    + intros [out H].
      destruct (mapM _ fo) as [fields |] eqn:Em; [| discriminate].
      cbn [bind Monad_Res] in H.
      destruct (torch_stack fields) as [stacked |] eqn:Es; [| discriminate].
      destruct (torch_stack_Ok _ Es) as (t0 & rest & Hf & Hshape & _).
      exists t0, rest. split; [| now inversion Hshape].
      apply mapM_Ok in Em. rewrite Hf in Em.
      apply Forall2_map_r in Em.
      eapply Forall2_impl; [| exact Em].
      intros name t Ht. now apply Lidar_getattr_tensor.
    + intros (t0 & rest & HF & Hshape).
      assert (Em : mapM (fun name => eval (Lidar.getattr name) self) fo
                   = Ok (map VTensor (t0 :: rest))).
      { apply mapM_Forall2. apply Forall2_map_r.
        eapply Forall2_impl; [| exact HF].
        intros name t Ht. now apply Lidar_getattr_tensor. }
      rewrite Em. cbn [bind Monad_Res].
      destruct (torch_stack_uniform t0 rest Hshape) as [stacked ->].
      cbn [bind Monad_Res]. eauto.
  - intros self fo om dt. rewrite eval_Annotations_as_tensor.
    unfold stack_fields. split.
    + intros [out H].
      destruct (mapM _ (effective_ordering om fo)) as [fields |] eqn:Em;
        [| discriminate].
      cbn [bind Monad_Res] in H.
      destruct (torch_stack fields) as [stacked |] eqn:Es; [| discriminate].
      destruct (torch_stack_Ok _ Es) as (t0 & rest & Hf & Hshape & _).
      exists t0, rest. split; [| now inversion Hshape].
      apply mapM_Ok in Em. rewrite Hf in Em.
      now apply Forall2_map_r in Em.
    + intros (t0 & rest & HF & Hshape).
      assert (Em : mapM (fun name => eval (resolve name) self)
                        (effective_ordering om fo)
                   = Ok (map VTensor (t0 :: rest))).
      { apply mapM_Forall2. now apply Forall2_map_r. }
      rewrite Em. cbn [bind Monad_Res].
      destruct (torch_stack_uniform t0 rest Hshape) as [stacked ->].
      cbn [bind Monad_Res]. eauto.
Qed.

(** X2.  When every entry of the ordering can be looked up, the first one
    whose value is no tensor (a tuple, a series, a bound method) makes
    [torch.stack] raise its [TypeError], which carries the position of that
    entry.  The position counts the exported ordering. *)
Theorem as_tensor_reports_first_non_tensor :
  (forall (self : Lidar.t) (before after : list string) (ts : list Tensor)
          (name : string) (v : Value) (dt : ScalarType),
      Forall2 (fun n t => dict_get (Lidar.vars self) n = Some (VTensor t))
              before ts ->
      eval (Lidar.getattr name) self = Ok v ->
      (forall t, v <> VTensor t) ->
      Forall (fun n => Lidar_has_attr n = true) after ->
      eval (Lidar.as_tensor (before ++ name :: after) dt) self
      = Err (TypeError_expected_Tensor (List.length before))) /\
  (forall (self : Annotations.t) (before after : list string)
          (ts : list Tensor) (name : string) (v : Value) (dt : ScalarType),
      Forall2 (fun n t => eval (resolve n) self = Ok (VTensor t)) before ts ->
      eval (resolve name) self = Ok v ->
      (forall t, v <> VTensor t) ->
      Forall (fun n => exists v', eval (resolve n) self = Ok v') after ->
      eval (Annotations.as_tensor (before ++ name :: after)
                                  QUATERNION_WXYZ dt) self
      = Err (TypeError_expected_Tensor (List.length before))).
Proof.
  split.
  - intros self before after ts name v dt Hb Hv Hnt Ha.
    rewrite eval_Lidar_as_tensor.
    assert (Ha' : exists vs,
               Forall2 (fun n v' => eval (Lidar.getattr n) self = Ok v')
                       after vs).
    { apply Forall_exists_Forall2.
      eapply Forall_impl; [| exact Ha]. intros n Hn.
      pose proof (Lidar_getattr_cases self n) as Hc.
      now rewrite Hn in Hc. }
    destruct Ha' as [vs Hvs].
    assert (Em : mapM (fun n => eval (Lidar.getattr n) self)
                      (before ++ name :: after)
                 = Ok (map VTensor ts ++ v :: vs)).
    { apply mapM_Forall2. apply Forall2_app; [| now constructor].
      apply Forall2_map_r.
      eapply Forall2_impl; [| exact Hb].
      intros n t Ht. now apply Lidar_getattr_tensor. }
    rewrite Em. cbn [bind Monad_Res]. unfold torch_stack.
    rewrite (expect_tensors_first 0 ts v vs Hnt).
    cbn [bind Monad_Res]. now rewrite (Forall2_length Hb).
  - intros self before after ts name v dt Hb Hv Hnt Ha.
    rewrite eval_Annotations_as_tensor. unfold stack_fields.
    cbn [effective_ordering].
    destruct (Forall_exists_Forall2 _ _ Ha) as [vs Hvs].
    assert (Em : mapM (fun n => eval (resolve n) self)
                      (before ++ name :: after)
                 = Ok (map VTensor ts ++ v :: vs)).
    { apply mapM_Forall2. apply Forall2_app; [| now constructor].
      now apply Forall2_map_r. }
    rewrite Em. cbn [bind Monad_Res]. unfold torch_stack.
    rewrite (expect_tensors_first 0 ts v vs Hnt).
    cbn [bind Monad_Res]. now rewrite (Forall2_length Hb).
Qed.

(** X3.  With an empty ordering there is nothing to stack:
    [Lidar.as_tensor] and [Annotations.as_tensor] in QUATERNION_WXYZ mode
    raise the [RuntimeError] of [torch.stack].  In YAW mode an ordering made
    of quaternion components only (the empty one included) still exports
    one column, the derived yaw. *)
Theorem as_tensor_empty_ordering :
  (forall (self : Lidar.t) (dt : ScalarType),
      eval (Lidar.as_tensor [] dt) self = Err RuntimeError_empty_TensorList) /\
  (forall (self : Annotations.t) (dt : ScalarType),
      eval (Annotations.as_tensor [] QUATERNION_WXYZ dt) self
      = Err RuntimeError_empty_TensorList) /\
  (forall (self : Annotations.t) (field_ordering : list string)
          (dt : ScalarType),
      Forall (fun name => str_in name ["qw"; "qx"; "qy"; "qz"] = true)
             field_ordering ->
      eval (Annotations.as_tensor field_ordering YAW dt) self =
      (y <- eval Annotations.yaw_radians self ;;
       stacked <- torch_stack [VTensor y] ;;
       ret (Tensor_type stacked dt)) /\
      forall y, exists stacked,
          torch_stack [VTensor y] = Ok stacked /\
          shape stacked = shape y ++ [1]).
Proof.
  split; [| split].
  - intros self dt. now rewrite eval_Lidar_as_tensor.
  - intros self dt. now rewrite eval_Annotations_as_tensor.
  - intros self fo dt Hq. rewrite eval_Annotations_as_tensor.
    unfold effective_ordering.
    rewrite (@filter_none string); cycle 1.
    { eapply Forall_impl; [| exact Hq]. intros n Hn. cbv beta. now rewrite Hn. }
    unfold stack_fields. cbn [firstn skipn app].
    rewrite mapM_cons, eval_resolve. cbn [String.eqb Ascii.eqb Bool.eqb negb].
    split.
    + destruct (eval Annotations.yaw_radians self) as [y |]; reflexivity.
    + intros y. eexists. split; reflexivity.
Qed.

End ExporterMore.

Section ColumnsMore.

Context {N : Numerics} {C : Collaborators}.

Lemma Lidar_as_tensor_Ok
      (self : Lidar.t) (field_ordering : list string) (dt : ScalarType)
      (out : Tensor) :
  eval (Lidar.as_tensor field_ordering dt) self = Ok out ->
  exists fields stacked,
    Forall2 (fun name v => eval (Lidar.getattr name) self = Ok v)
            field_ordering fields /\
    torch_stack fields = Ok stacked /\
    out = Tensor_type stacked dt.
Proof.
  intros H. rewrite eval_Lidar_as_tensor in H.
  destruct (mapM _ field_ordering) as [fields |] eqn:Em; [| discriminate].
  cbn [bind Monad_Res] in H.
  destruct (torch_stack fields) as [stacked |] eqn:Es; [| discriminate].
  inversion H; subst out. exists fields, stacked.
  split; [now apply mapM_Ok in Em | split; [exact Es | reflexivity]].
Qed.

(** The columns of a stack that is then cast. *)
Lemma stacked_columns (fields : list Value) (stacked : Tensor) :
  torch_stack fields = Ok stacked ->
  Forall (fun v => forall u, v = VTensor u -> Tensor_ok u) fields ->
  forall j v, nth_error fields j = Some v ->
  exists u,
    v = VTensor u /\
    forall dt i,
      nth_error (data (Tensor_type stacked dt)) (i * List.length fields + j) =
      option_map (fun x => cast dt (cast (dtype stacked) x))
                 (nth_error (data u) i).
Proof.
  intros Hs Hok j v Hv.
  destruct (torch_stack_Ok _ Hs) as (t0 & rest & Hfields & _).
  assert (Hu : exists u, v = VTensor u).
  { rewrite Hfields, nth_error_map in Hv.
    destruct (nth_error (t0 :: rest) j); simpl in Hv; inversion Hv; eauto. }
  destruct Hu as [u ->]. exists u. split; [reflexivity |]. intros dt i.
  cbn [Tensor_type data]. rewrite nth_error_map.
  rewrite (torch_stack_entry Hs) with (u := u); auto.
  destruct (nth_error (data u) i); reflexivity.
Qed.

(** X4.  Every column of a [Lidar] export holds the field its entry
    names: the array has the requested dtype, and entry [(i, j)] is the
    [i]-th element of the tensor stored under the [j]-th name, converted to
    the dtype the stack promotes to and then to the requested one. *)
Theorem Lidar_export_columns
        (self : Lidar.t) (field_ordering : list string) (dt : ScalarType)
        (out : Tensor) :
  Lidar_ok self ->
  eval (Lidar.as_tensor field_ordering dt) self = Ok out ->
  dtype out = dt /\
  exists promoted,
    forall j name, nth_error field_ordering j = Some name ->
    exists u,
      dict_get (Lidar.vars self) name = Some (VTensor u) /\
      forall i, nth_error (data out) (i * List.length field_ordering + j) =
                option_map (fun v => cast dt (cast promoted v))
                           (nth_error (data u) i).
Proof.
  intros Hok H.
  destruct (Lidar_as_tensor_Ok _ _ _ _ H) as (fields & stacked & HF & Hs & ->).
  split; [reflexivity |].
  exists (dtype stacked). intros j name Hj.
  destruct (Forall2_nth_error _ _ _ HF _ _ Hj) as (v & Hv & Hr).
  assert (Hall : Forall (fun v => forall u, v = VTensor u -> Tensor_ok u)
                        fields).
  { apply Forall_forall. intros w Hin u ->.
    destruct (Forall2_In_r _ _ _ HF _ Hin) as (name' & _ & Hname).
    apply Lidar_getattr_tensor in Hname. eapply Hok; eauto. }
  destruct (stacked_columns fields stacked Hs Hall j v Hv) as (u & -> & Hcol).
  exists u. split; [now apply Lidar_getattr_tensor |].
  intros i. rewrite (Forall2_length HF). apply Hcol.
Qed.

(** X5.  In either orientation mode, the column of an [Annotations]
    export whose entry names a declared field holds that stored field:
    entry [(i, j)] is the [i]-th element of the tensor stored under the
    [j]-th name of the exported ordering, converted to the promoted dtype
    and then to the requested one; the array has the requested dtype. *)
Theorem Annotations_export_field_columns
        (self : Annotations.t) (field_ordering : list string)
        (orientation_mode : OrientationMode) (dt : ScalarType) (out : Tensor) :
  Annotations_ok self -> quat_to_yaw_drops_last_axis ->
  eval (Annotations.as_tensor field_ordering orientation_mode dt) self
  = Ok out ->
  dtype out = dt /\
  exists promoted,
    forall j name,
      nth_error (effective_ordering orientation_mode field_ordering) j
      = Some name ->
      In name Annotations.fields ->
      exists u,
        dict_get (Annotations.vars self) name = Some (VTensor u) /\
        forall i,
          nth_error (data out)
                    (i * List.length
                           (effective_ordering orientation_mode field_ordering)
                     + j) =
          option_map (fun v => cast dt (cast promoted v))
                     (nth_error (data u) i).
Proof.
  intros Hok Hlaw H. rewrite eval_Annotations_as_tensor in H. split.
  - destruct (stack_fields_Ok _ _ _ _ H) as (fields & stacked & _ & _ & ->).
    reflexivity.
  - destruct (export_columns _ _ _ _ Hok Hlaw H) as [promoted Hcols].
    exists promoted. intros j name Hj Hfield.
    destruct (Hcols j name Hj) as (u & Hr & Hcol).
    exists u. split; [| exact Hcol].
    rewrite eval_resolve in Hr.
    assert (Hyaw : (name =? "yaw") = false).
    { apply String.eqb_neq. intros ->. simpl in Hfield.
      intuition discriminate. }
    rewrite Hyaw in Hr. cbn [negb] in Hr.
    rewrite eval_Annotations_getattr in Hr.
    destruct (Annotations_vars_fields self name) as [Hsome _].
    destruct (Hsome (proj2 (str_in_In _ _) Hfield)) as [v Hv].
    rewrite Hv in Hr. inversion Hr; subst v. exact Hv.
Qed.

(** X6.  [quaternion] is scalar first: on a container whose stored tensors
    are well formed, a result has one more axis, of length 4, than [qw],
    and its entries [(i, 0)], [(i, 1)], [(i, 2)], [(i, 3)] are the [i]-th
    elements of [qw], [qx], [qy], [qz], converted to the dtype of the
    result. *)
Theorem quaternion_scalar_first (self : Annotations.t) (q : Tensor) :
  Annotations_ok self ->
  eval Annotations.quaternion self = Ok q ->
  exists w x y z,
    Annotations.qw self = VTensor w /\ Annotations.qx self = VTensor x /\
    Annotations.qy self = VTensor y /\ Annotations.qz self = VTensor z /\
    shape q = shape w ++ [4] /\
    forall i,
      nth_error (data q) (i * 4 + 0)
      = option_map (cast (dtype q)) (nth_error (data w) i) /\
      nth_error (data q) (i * 4 + 1)
      = option_map (cast (dtype q)) (nth_error (data x) i) /\
      nth_error (data q) (i * 4 + 2)
      = option_map (cast (dtype q)) (nth_error (data y) i) /\
      nth_error (data q) (i * 4 + 3)
      = option_map (cast (dtype q)) (nth_error (data z) i).
Proof.
  intros Hok H. rewrite eval_quaternion in H.
  destruct (torch_stack_Ok _ H) as (t0 & rest & Hv & _ & Hs & _).
  destruct rest as [| x [| y [| z [| extra rest]]]]; try discriminate.
  inversion Hv as [[Hw Hx Hy Hz]].
  exists t0, x, y, z.
  split; [exact Hw |]. split; [exact Hx |].
  split; [exact Hy |]. split; [exact Hz |].
  split; [exact Hs |].
  assert (Hall : Forall (fun v => forall u, v = VTensor u -> Tensor_ok u)
                        [Annotations.qw self; Annotations.qx self;
                         Annotations.qy self; Annotations.qz self]).
  { repeat constructor; intros u Hu.
    - apply (Hok "qw"). now rewrite <- Hu.
    - apply (Hok "qx"). now rewrite <- Hu.
    - apply (Hok "qy"). now rewrite <- Hu.
    - apply (Hok "qz"). now rewrite <- Hu. }
  intros i.
  pose proof (fun j u Hj => @torch_stack_entry _ _ _ H Hall j u Hj i)
    as Hentry.
  cbn [List.length] in Hentry.
  repeat split.
  - apply (Hentry 0). simpl. now rewrite Hw.
  - apply (Hentry 1). simpl. now rewrite Hx.
  - apply (Hentry 2). simpl. now rewrite Hy.
  - apply (Hentry 3). simpl. now rewrite Hz.
Qed.

End ColumnsMore.

Section ReadSet.

Context {N : Numerics} {C : Collaborators}.

Lemma quaternion_ext (s1 s2 : Annotations.t) :
  (forall name, In name ["qw"; "qx"; "qy"; "qz"] ->
                dict_get (Annotations.vars s1) name
                = dict_get (Annotations.vars s2) name) ->
  eval Annotations.quaternion s1 = eval Annotations.quaternion s2.
Proof.
  intros H. rewrite !eval_quaternion.
  assert (Hw : Some (Annotations.qw s1) = Some (Annotations.qw s2))
    by (apply (H "qw"); simpl; tauto).
  assert (Hx : Some (Annotations.qx s1) = Some (Annotations.qx s2))
    by (apply (H "qx"); simpl; tauto).
  assert (Hy : Some (Annotations.qy s1) = Some (Annotations.qy s2))
    by (apply (H "qy"); simpl; tauto).
  assert (Hz : Some (Annotations.qz s1) = Some (Annotations.qz s2))
    by (apply (H "qz"); simpl; tauto).
  inversion Hw. inversion Hx. inversion Hy. inversion Hz. congruence.
Qed.

(** X7.  An export reads nothing but what its ordering names: two [Lidar]
    containers that agree on the fields named give the same outcome, and so
    do two [Annotations] containers that agree on the fields named and on
    [qw], [qx], [qy], [qz]; every other field may differ. *)
Theorem as_tensor_reads_only_named_fields :
  (forall (s1 s2 : Lidar.t) (field_ordering : list string) (dt : ScalarType),
      (forall name, In name field_ordering ->
                    dict_get (Lidar.vars s1) name
                    = dict_get (Lidar.vars s2) name) ->
      eval (Lidar.as_tensor field_ordering dt) s1
      = eval (Lidar.as_tensor field_ordering dt) s2) /\
  (forall (s1 s2 : Annotations.t) (field_ordering : list string)
          (orientation_mode : OrientationMode) (dt : ScalarType),
      (forall name,
          In name field_ordering \/ In name ["qw"; "qx"; "qy"; "qz"] ->
          dict_get (Annotations.vars s1) name
          = dict_get (Annotations.vars s2) name) ->
      eval (Annotations.as_tensor field_ordering orientation_mode dt) s1
      = eval (Annotations.as_tensor field_ordering orientation_mode dt) s2).
Proof.
  split.
  - intros s1 s2 fo dt H. rewrite !eval_Lidar_as_tensor.
    rewrite (mapM_ext_in (fun name => eval (Lidar.getattr name) s1)
                         (fun name => eval (Lidar.getattr name) s2));
      [reflexivity |].
    intros name Hname. rewrite !eval_Lidar_getattr. now rewrite (H name Hname).
  - intros s1 s2 fo om dt H. rewrite !eval_Annotations_as_tensor.
    unfold stack_fields.
    assert (Hq : eval Annotations.quaternion s1
                 = eval Annotations.quaternion s2).
    { apply quaternion_ext. intros name Hname. apply H. now right. }
    assert (Hy : eval Annotations.yaw_radians s1
                 = eval Annotations.yaw_radians s2).
    { rewrite !eval_yaw_radians, <- !eval_quaternion. now rewrite Hq. }
    rewrite (mapM_ext_in (fun name => eval (resolve name) s1)
                         (fun name => eval (resolve name) s2));
      [reflexivity |].
    intros name Hname. rewrite !eval_resolve.
    destruct (name =? "yaw") eqn:Eyaw; cbn [negb]; [now rewrite Hy |].
    apply in_effective_ordering in Hname.
    destruct Hname as [-> | Hname]; [discriminate |].
    rewrite !eval_Annotations_getattr.
    rewrite (H name (or_introl Hname)), Hq, Hy. reflexivity.
Qed.

End ReadSet.

(* ================================================================== *)
(** * Further properties of [from_dataframe] *)

Lemma in_keys_exists {V : Type} (d : dict V) (k : string) :
  In k (keys d) -> exists v, In (k, v) d.
Proof.
  unfold keys. intros H. apply in_map_iff in H.
  destruct H as ([k' v] & Hk & Hin). simpl in Hk. subst. eauto.
Qed.

Lemma in_dict_keys {V : Type} (d : dict V) (k : string) (v : V) :
  In (k, v) d -> In k (keys d).
Proof. intros H. unfold keys. change k with (fst (k, v)). now apply in_map. Qed.

Lemma dict_get_In {V : Type} (d : dict V) (k : string) (v : V) :
  dict_get d k = Some v -> In (k, v) d.
Proof.
  induction d as [| [k0 w] d IH]; simpl; [discriminate |].
  destruct (String.eqb_spec k k0) as [-> | _].
  - intros H. inversion H. now left.
  - intros H. right. now apply IH.
Qed.

Lemma dict_get_None_keys {V : Type} (d : dict V) (k : string) :
  dict_get d k = None -> ~ In k (keys d).
Proof.
  intros H Hin. destruct (dict_get_keys d k Hin) as [v Hv]. congruence.
Qed.

Section AdapterFacts.

Context {N : Numerics}.

Lemma length_to_list (s : Series) : List.length (to_list s) = Series_len s.
Proof. destruct s; simpl; apply length_map. Qed.

Lemma Annotations_stored_of_column (dataframe : DataFrame)
      (self : Annotations.t) (name : string) (field : Series) :
  NoDup (keys dataframe) ->
  Annotations.from_dataframe dataframe = Ok self ->
  In (name, field) dataframe ->
  exists v, Annotations.convert field = Ok v /\
            dict_get (Annotations.vars self) name = Some v.
Proof.
  intros Hnd Hfrom Hin.
  unfold Annotations.from_dataframe, to_dict in Hfrom.
  destruct (Annotations.for_items dataframe []) as [cols |] eqn:Ec;
    [| discriminate].
  cbn [bind Monad_Res] in Hfrom.
  destruct (Annotations_for_items_get _ _ _ Ec Hnd) as [Hget _].
  destruct (Hget name field Hin) as (v & Hv & Hcol).
  destruct (Annotations_init_Ok _ _ Hfrom) as [Hsub Hvars].
  exists v. split; [exact Hv |].
  rewrite Hvars; [exact Hcol |].
  apply Hsub. eapply dict_get_Some_keys; eauto.
Qed.

Lemma Annotations_column_of_stored (dataframe : DataFrame)
      (self : Annotations.t) (name : string) (v : Value) :
  NoDup (keys dataframe) ->
  Annotations.from_dataframe dataframe = Ok self ->
  dict_get (Annotations.vars self) name = Some v ->
  exists field, In (name, field) dataframe /\
                Annotations.convert field = Ok v.
Proof.
  intros Hnd Hfrom Hv.
  assert (Hfield : In name Annotations.fields)
    by exact (dict_get_Some_keys _ _ _ Hv).
  pose proof Hfrom as Hfrom'.
  unfold Annotations.from_dataframe, to_dict in Hfrom.
  destruct (Annotations.for_items dataframe []) as [cols |] eqn:Ec;
    [| discriminate].
  cbn [bind Monad_Res] in Hfrom.
  destruct (Annotations_init_Ok _ _ Hfrom) as [_ Hvars].
  rewrite (Hvars name Hfield) in Hv.
  assert (Hk : In name (keys dataframe)).
  { apply dict_get_Some_keys in Hv.
    apply (Annotations_for_items_keys _ _ _ Ec) in Hv.
    destruct Hv as [[] | Hv]. exact Hv. }
  destruct (in_keys_exists _ _ Hk) as [field Hin].
  exists field. split; [exact Hin |].
  destruct (Annotations_for_items_get _ _ _ Ec Hnd) as [Hget _].
  destruct (Hget name field Hin) as (v' & Hv' & Hcol). congruence.
Qed.

Lemma Lidar_stored_of_column (dataframe : DataFrame)
      (self : Lidar.t) (name : string) (field : Series) :
  NoDup (keys dataframe) ->
  Lidar.from_dataframe dataframe = Ok self ->
  In (name, field) dataframe ->
  exists v, Lidar_stored field v /\
            dict_get (Lidar.vars self) name = Some v.
Proof.
  intros Hnd Hfrom Hin.
  unfold Lidar.from_dataframe, to_dict in Hfrom.
  destruct (Lidar.for_items dataframe _) as [cols |] eqn:Ec;
    [| discriminate].
  cbn [bind Monad_Res] in Hfrom.
  destruct (Lidar_for_items_get _ _ _ Ec Hnd) as [Hget _].
  specialize (Hget name field Hin).
  destruct (Lidar_init_Ok _ _ Hfrom) as [Hsub Hvars].
  assert (Hread : forall v, dict_get cols name = Some v ->
                            dict_get (Lidar.vars self) name = Some v).
  { intros v Hv. rewrite Hvars; [exact Hv |].
    apply Hsub. eapply dict_get_Some_keys; eauto. }
  unfold Lidar_stored.
  destruct (dtype_in (Series_dtype field) _).
  - destruct Hget as (kind & values & -> & Hcol).
    eexists. split; [exists kind, values; split; reflexivity |].
    now apply Hread.
  - rewrite dict_get_map, (dict_get_NoDup _ _ _ Hnd Hin) in Hget.
    exists (VSeries field). split; [reflexivity | now apply Hread].
Qed.

Lemma Lidar_column_of_stored (dataframe : DataFrame)
      (self : Lidar.t) (name : string) (v : Value) :
  NoDup (keys dataframe) ->
  Lidar.from_dataframe dataframe = Ok self ->
  dict_get (Lidar.vars self) name = Some v ->
  exists field, In (name, field) dataframe /\ Lidar_stored field v.
Proof.
  intros Hnd Hfrom Hv.
  assert (Hfield : In name Lidar.fields)
    by exact (dict_get_Some_keys _ _ _ Hv).
  pose proof Hfrom as Hfrom'.
  unfold Lidar.from_dataframe, to_dict in Hfrom.
  destruct (Lidar.for_items dataframe _) as [cols |] eqn:Ec;
    [| discriminate].
  cbn [bind Monad_Res] in Hfrom.
  destruct (Lidar_init_Ok _ _ Hfrom) as [_ Hvars].
  assert (Hc : dict_get cols name = Some v)
    by (now rewrite <- (Hvars name Hfield)).
  assert (Hk : In name (keys dataframe)).
  { apply dict_get_Some_keys in Hc.
    destruct (Lidar_for_items_keys _ _ _ Ec name) as [_ H2].
    destruct (H2 Hc) as [Hk | Hk]; [| exact Hk].
    now rewrite keys_of_series_dict in Hk. }
  destruct (in_keys_exists _ _ Hk) as [field Hin].
  exists field. split; [exact Hin |].
  destruct (Lidar_stored_of_column _ _ _ _ Hnd Hfrom' Hin) as (v' & Hs & Hv').
  congruence.
Qed.

End AdapterFacts.

Section AdapterMore.

Context {N : Numerics} {C : Collaborators}.

Lemma Annotations_convert_items (field : Series) (v : Value) (n : nat) :
  Series_len field = n ->
  Annotations.convert field = Ok v ->
  List.length (Value_items v) = n /\
  forall t, v = VTensor t -> shape t = [n] /\ Tensor_ok t.
Proof.
  intros Hlen Hv.
  destruct (Annotations_convert_Ok field) as (v' & Hv' & Hitems & Hkind).
  assert (v' = v) by congruence. subst v'.
  split; [now rewrite Hitems, length_to_list |].
  intros t ->.
  destruct (dtype_in (Series_dtype field) _); [| discriminate].
  destruct Hkind as (kind & values & -> & Ht).
  inversion Ht; subst t. simpl in Hlen. subst n.
  split; [reflexivity |]. unfold Tensor_ok. simpl. lia.
Qed.

Lemma Lidar_stored_items (field : Series) (v : Value) (n : nat) :
  Series_len field = n ->
  Lidar_stored field v ->
  List.length (Value_items v) = n /\
  forall t, v = VTensor t -> shape t = [n] /\ Tensor_ok t.
Proof.
  unfold Lidar_stored. intros Hlen Hs.
  destruct (dtype_in (Series_dtype field) _).
  - destruct Hs as (kind & values & -> & ->). simpl in *. subst n.
    split; [now rewrite length_map |].
    intros t Ht. inversion Ht; subst t.
    split; [reflexivity |]. unfold Tensor_ok. simpl. lia.
  - subst v. split; [now rewrite <- Hlen, <- length_to_list |].
    intros t Ht. discriminate Ht.
Qed.

(** X8.  The container built from a frame of height [n] has row count
    [n]: every stored value, tensor, tuple or series, has [n] items, and
    every stored tensor is one-dimensional of shape [(n,)]. *)
Theorem from_dataframe_row_count :
  (forall (dataframe : DataFrame) (n : nat) (self : Annotations.t),
      frame_ok dataframe n ->
      Annotations.from_dataframe dataframe = Ok self ->
      Annotations_rows self n /\ Annotations_ok self /\
      forall name v, dict_get (Annotations.vars self) name = Some v ->
                     List.length (Value_items v) = n) /\
  (forall (dataframe : DataFrame) (n : nat) (self : Lidar.t),
      frame_ok dataframe n ->
      Lidar.from_dataframe dataframe = Ok self ->
      Lidar_rows self n /\ Lidar_ok self /\
      forall name v, dict_get (Lidar.vars self) name = Some v ->
                     List.length (Value_items v) = n).
Proof.
  split; intros dataframe n self [Hnd Hheight] Hfrom.
  - assert (Hall : forall name v,
               dict_get (Annotations.vars self) name = Some v ->
               List.length (Value_items v) = n /\
               forall t, v = VTensor t -> shape t = [n] /\ Tensor_ok t).
    { intros name v Hv.
      destruct (Annotations_column_of_stored _ _ _ _ Hnd Hfrom Hv)
        as (field & Hin & Hconv).
      apply (Annotations_convert_items field); [| exact Hconv].
      rewrite Forall_forall in Hheight. exact (Hheight _ Hin). }
    repeat split.
    + intros name t Ht. now apply (Hall name (VTensor t) Ht).
    + intros name t Ht. now apply (Hall name (VTensor t) Ht).
    + intros name v Hv. now apply (Hall name v Hv).
  - assert (Hall : forall name v,
               dict_get (Lidar.vars self) name = Some v ->
               List.length (Value_items v) = n /\
               forall t, v = VTensor t -> shape t = [n] /\ Tensor_ok t).
    { intros name v Hv.
      destruct (Lidar_column_of_stored _ _ _ _ Hnd Hfrom Hv)
        as (field & Hin & Hs).
      apply (Lidar_stored_items field); [| exact Hs].
      rewrite Forall_forall in Hheight. exact (Hheight _ Hin). }
    repeat split.
    + intros name t Ht. now apply (Hall name (VTensor t) Ht).
    + intros name t Ht. now apply (Hall name (VTensor t) Ht).
    + intros name v Hv. now apply (Hall name v Hv).
Qed.

(** X9.  A column that [from_dataframe] does not turn into a tensor cannot
    be exported: once such a column is named in the exported ordering,
    [as_tensor] raises and returns no array.  For [Annotations] these are
    the columns of any kind other than float32, float64 and int32 (text,
    and int64 such as [timestamp_ns]); for [Lidar] those of any kind other
    than float32 and int32 (float64 included). *)
Theorem unconverted_column_is_not_exported :
  (forall (dataframe : DataFrame) (self : Annotations.t)
          (name : string) (field : Series) (field_ordering : list string)
          (orientation_mode : OrientationMode) (dt : ScalarType),
      NoDup (keys dataframe) ->
      Annotations.from_dataframe dataframe = Ok self ->
      In (name, field) dataframe ->
      dtype_in (Series_dtype field)
               [Numeric Float32; Numeric Float64; Numeric Int32] = false ->
      In name (effective_ordering orientation_mode field_ordering) ->
      exists e,
        eval (Annotations.as_tensor field_ordering orientation_mode dt) self
        = Err e) /\
  (forall (dataframe : DataFrame) (self : Lidar.t)
          (name : string) (field : Series) (field_ordering : list string)
          (dt : ScalarType),
      NoDup (keys dataframe) ->
      Lidar.from_dataframe dataframe = Ok self ->
      In (name, field) dataframe ->
      dtype_in (Series_dtype field) [Numeric Float32; Numeric Int32] = false ->
      In name field_ordering ->
      exists e, eval (Lidar.as_tensor field_ordering dt) self = Err e).
Proof.
  split.
  - intros dataframe self name field fo om dt Hnd Hfrom Hin Hkind Hname.
    destruct (eval (Annotations.as_tensor fo om dt) self) as [out | e] eqn:E;
      [exfalso | eauto].
    rewrite eval_Annotations_as_tensor in E.
    destruct (stack_fields_Ok _ _ _ _ E) as (fields & stacked & HF & Hs & _).
    destruct (Forall2_In_l _ _ _ HF _ Hname) as (v & Hv & Hr).
    destruct (torch_stack_Ok _ Hs) as (t0 & rest & Hfields & _).
    rewrite Hfields in Hv. apply in_map_iff in Hv.
    destruct Hv as (t & <- & _).
    destruct (Annotations_stored_of_column _ _ _ _ Hnd Hfrom Hin)
      as (v & Hconv & Hstored).
    unfold Annotations.convert in Hconv. rewrite Hkind in Hconv.
    inversion Hconv; subst v; clear Hconv.
    rewrite eval_resolve in Hr.
    assert (Hfield : In name Annotations.fields)
      by exact (dict_get_Some_keys _ _ _ Hstored).
    assert (Hyaw : (name =? "yaw") = false).
    { apply String.eqb_neq. intros ->. simpl in Hfield.
      intuition discriminate. }
    rewrite Hyaw in Hr. cbn [negb] in Hr.
    rewrite eval_Annotations_getattr, Hstored in Hr. discriminate.
  - intros dataframe self name field fo dt Hnd Hfrom Hin Hkind Hname.
    destruct (eval (Lidar.as_tensor fo dt) self) as [out | e] eqn:E;
      [exfalso | eauto].
    rewrite eval_Lidar_as_tensor in E.
    destruct (mapM _ fo) as [fields |] eqn:Em; [| discriminate].
    cbn [bind Monad_Res] in E.
    destruct (torch_stack fields) as [stacked |] eqn:Es; [| discriminate].
    apply mapM_Ok in Em.
    destruct (Forall2_In_l _ _ _ Em _ Hname) as (v & Hv & Hr).
    destruct (torch_stack_Ok _ Es) as (t0 & rest & Hfields & _).
    rewrite Hfields in Hv. apply in_map_iff in Hv.
    destruct Hv as (t & <- & _).
    destruct (Lidar_stored_of_column _ _ _ _ Hnd Hfrom Hin)
      as (v & Hs & Hstored).
    unfold Lidar_stored in Hs. rewrite Hkind in Hs. subst v.
    rewrite eval_Lidar_getattr, Hstored in Hr. discriminate.
Qed.

End AdapterMore.

Lemma dict_get_same_pairs {V : Type} (d d' : dict V) (key : string) :
  NoDup (keys d) -> NoDup (keys d') ->
  (forall c, In c d <-> In c d') ->
  dict_get d' key = dict_get d key.
Proof.
  intros Hnd Hnd' Hsame.
  destruct (dict_get d key) as [v |] eqn:E.
  - apply dict_get_In in E. apply Hsame in E.
    now apply dict_get_NoDup.
  - destruct (dict_get d' key) as [v' |] eqn:E'; [| reflexivity].
    apply dict_get_In in E'. apply Hsame in E'.
    apply (dict_get_NoDup _ _ _ Hnd) in E'. congruence.
Qed.

Section ColumnOrder.

Context {N : Numerics}.

Lemma Lidar_stored_functional (field : Series) (v v' : Value) :
  Lidar_stored field v -> Lidar_stored field v' -> v = v'.
Proof.
  unfold Lidar_stored. destruct (dtype_in (Series_dtype field) _).
  - intros (kind & values & -> & ->) (kind' & values' & Heq & ->).
    inversion Heq. reflexivity.
  - congruence.
Qed.

Lemma Annotations_columns_get (dataframe : DataFrame) (cols : dict Value) :
  NoDup (keys dataframe) ->
  Annotations.for_items dataframe [] = Ok cols ->
  forall name,
    match dict_get dataframe name with
    | Some field =>
        exists v, Annotations.convert field = Ok v /\
                  dict_get cols name = Some v
    | None => dict_get cols name = None
    end.
Proof.
  intros Hnd Hc name.
  destruct (Annotations_for_items_get _ _ _ Hc Hnd) as [Hin Hout].
  destruct (dict_get dataframe name) as [field |] eqn:E.
  - apply Hin. now apply dict_get_In.
  - rewrite Hout; [reflexivity | now apply dict_get_None_keys].
Qed.

Lemma Lidar_columns_get (dataframe : DataFrame) (cols : dict Value) :
  NoDup (keys dataframe) ->
  Lidar.for_items dataframe
                  (map (fun c => (fst c, VSeries (snd c))) dataframe)
  = Ok cols ->
  forall name,
    match dict_get dataframe name with
    | Some field =>
        exists v, Lidar_stored field v /\ dict_get cols name = Some v
    | None => dict_get cols name = None
    end.
Proof.
  intros Hnd Hc name.
  destruct (Lidar_for_items_get _ _ _ Hc Hnd) as [Hin Hout].
  destruct (dict_get dataframe name) as [field |] eqn:E.
  - pose proof (Hin name field (dict_get_In _ _ _ E)) as Hf.
    unfold Lidar_stored.
    destruct (dtype_in (Series_dtype field) _).
    + destruct Hf as (kind & values & -> & Hcol).
      eexists. split; [exists kind, values; split; reflexivity | exact Hcol].
    + exists (VSeries field). split; [reflexivity |].
      now rewrite Hf, dict_get_map, E.
  - rewrite Hout by (now apply dict_get_None_keys).
    now rewrite dict_get_map, E.
Qed.

Lemma Annotations_init_ext (kw kw' : dict Value) (self : Annotations.t) :
  (forall name, dict_get kw' name = dict_get kw name) ->
  Annotations.init kw = Ok self -> Annotations.init kw' = Ok self.
Proof.
  intros Hext H.
  assert (Eu' : unexpected_keyword Annotations.fields kw' = None).
  { destruct (unexpected_keyword Annotations.fields kw') as [k |] eqn:E;
      [| reflexivity].
    apply unexpected_keyword_Some in E. destruct E as [Hk Hnf].
    exfalso. apply Hnf.
    destruct (dict_get_keys kw' k Hk) as [v Hv]. rewrite Hext in Hv.
    apply dict_get_Some_keys in Hv.
    destruct (Annotations_init_Ok _ _ H) as [Hsub _]. auto. }
  unfold Annotations.init in *. rewrite Eu'.
  destruct (unexpected_keyword Annotations.fields kw); [discriminate |].
  unfold argument in *. rewrite !Hext. revert H.
  repeat match goal with
         | |- context [dict_get kw ?name] =>
             destruct (dict_get kw name); cbn [bind Monad_Res];
             [| intros; discriminate]
         end.
  intros H. exact H.
Qed.

Lemma Lidar_init_ext (kw kw' : dict Value) (self : Lidar.t) :
  (forall name, dict_get kw' name = dict_get kw name) ->
  Lidar.init kw = Ok self -> Lidar.init kw' = Ok self.
Proof.
  intros Hext H.
  assert (Eu' : unexpected_keyword Lidar.fields kw' = None).
  { destruct (unexpected_keyword Lidar.fields kw') as [k |] eqn:E;
      [| reflexivity].
    apply unexpected_keyword_Some in E. destruct E as [Hk Hnf].
    exfalso. apply Hnf.
    destruct (dict_get_keys kw' k Hk) as [v Hv]. rewrite Hext in Hv.
    apply dict_get_Some_keys in Hv.
    destruct (Lidar_init_Ok _ _ H) as [Hsub _]. auto. }
  unfold Lidar.init in *. rewrite Eu'.
  destruct (unexpected_keyword Lidar.fields kw); [discriminate |].
  unfold argument in *. rewrite !Hext. revert H.
  repeat match goal with
         | |- context [dict_get kw ?name] =>
             destruct (dict_get kw name); cbn [bind Monad_Res];
             [| intros; discriminate]
         end.
  intros H. exact H.
Qed.

(** X10.  [from_dataframe] does not depend on the order of the columns:
    two frames with distinct column names that hold the same columns give
    the same container. *)
Theorem from_dataframe_ignores_column_order :
  (forall (dataframe dataframe' : DataFrame) (self : Annotations.t),
      NoDup (keys dataframe) -> NoDup (keys dataframe') ->
      (forall column, In column dataframe <-> In column dataframe') ->
      Annotations.from_dataframe dataframe = Ok self ->
      Annotations.from_dataframe dataframe' = Ok self) /\
  (forall (dataframe dataframe' : DataFrame) (self : Lidar.t),
      NoDup (keys dataframe) -> NoDup (keys dataframe') ->
      (forall column, In column dataframe <-> In column dataframe') ->
      Lidar.from_dataframe dataframe = Ok self ->
      Lidar.from_dataframe dataframe' = Ok self).
Proof.
  split; intros df df' self Hnd Hnd' Hsame Hfrom.
  - unfold Annotations.from_dataframe, to_dict in *.
    destruct (Annotations.for_items df []) as [cols |] eqn:Ec;
      [| discriminate].
    destruct (Annotations_for_items_total df' []) as [cols' Ec'].
    rewrite Ec'. cbn [bind Monad_Res] in *.
    apply (Annotations_init_ext cols); [| exact Hfrom].
    intros name.
    pose proof (Annotations_columns_get _ _ Hnd Ec name) as H.
    pose proof (Annotations_columns_get _ _ Hnd' Ec' name) as H'.
    rewrite (dict_get_same_pairs df df' name Hnd Hnd' Hsame) in H'.
    destruct (dict_get df name) as [field |].
    + destruct H as (v & Hv & ->). destruct H' as (v' & Hv' & ->).
      congruence.
    + congruence.
  - unfold Lidar.from_dataframe, to_dict in *.
    destruct (Lidar.for_items df _) as [cols |] eqn:Ec; [| discriminate].
    destruct (Lidar_for_items_total
                df' (map (fun c => (fst c, VSeries (snd c))) df'))
      as [cols' Ec'].
    rewrite Ec'. cbn [bind Monad_Res] in *.
    apply (Lidar_init_ext cols); [| exact Hfrom].
    intros name.
    pose proof (Lidar_columns_get _ _ Hnd Ec name) as H.
    pose proof (Lidar_columns_get _ _ Hnd' Ec' name) as H'.
    rewrite (dict_get_same_pairs df df' name Hnd Hnd' Hsame) in H'.
    destruct (dict_get df name) as [field |].
    + destruct H as (v & Hv & ->). destruct H' as (v' & Hv' & ->).
      f_equal. eapply Lidar_stored_functional; eauto.
    + congruence.
Qed.

End ColumnOrder.

(* ================================================================== *)
(** * From a frame to an array *)

Section TableToArray.

Context {N : Numerics} {C : Collaborators}.

(** Stacking one-dimensional columns of [n] elements and casting. *)
Lemma stack_of_columns (t0 : Tensor) (rest : list Tensor) (n : nat)
      (dt : ScalarType) :
  Forall (fun t => shape t = [n] /\ Tensor_ok t) (t0 :: rest) ->
  exists stacked,
    torch_stack (map VTensor (t0 :: rest)) = Ok stacked /\
    shape stacked = [n; List.length (t0 :: rest)] /\
    forall j u, nth_error (t0 :: rest) j = Some u ->
    forall i,
      nth_error (data (Tensor_type stacked dt))
                (i * List.length (t0 :: rest) + j) =
      option_map (fun v => cast dt (cast (dtype stacked) v))
                 (nth_error (data u) i).
Proof.
  intros Hall.
  assert (Hshape : Forall (fun t => shape t = shape t0) rest).
  { inversion Hall as [| ? ? [H0 _] Hrest]; subst.
    eapply Forall_impl; [| exact Hrest]. intros t [Ht _]. congruence. }
  destruct (torch_stack_uniform t0 rest Hshape) as [stacked Hs].
  exists stacked. split; [exact Hs |].
  destruct (torch_stack_Ok _ Hs) as (t0' & rest' & _ & _ & Hsh & _).
  pose proof Hs as Hs'. unfold torch_stack in Hs'.
  rewrite expect_tensors_map in Hs'. cbn [bind Monad_Res] in Hs'.
  destruct (forallb _ rest); [| discriminate].
  inversion Hs' as [Hst]. split.
  - cbn [shape]. inversion Hall as [| ? ? [H0 _] _]; subst.
    now rewrite H0.
  - intros j u Hj i. rewrite Hst. cbn [Tensor_type data].
    rewrite nth_error_map.
    assert (Hlen : List.length (map VTensor (t0 :: rest))
                   = List.length (t0 :: rest)) by apply length_map.
    rewrite <- Hlen.
    rewrite (torch_stack_entry Hs) with (u := u).
    + destruct (nth_error (data u) i); reflexivity.
    + apply Forall_forall. intros v Hv w ->.
      apply in_map_iff in Hv. destruct Hv as (t & Ht & Hin).
      inversion Ht; subst t.
      rewrite Forall_forall in Hall. now apply (Hall w Hin).
    + rewrite nth_error_map, Hj. reflexivity.
Qed.

Lemma nonempty_Forall2 {A B : Type} (R : A -> B -> Prop) (l : list A)
      (l' : list B) :
  l <> [] -> Forall2 R l l' -> exists b l'', l' = b :: l''.
Proof. intros Hne H. destruct H; [congruence | eauto]. Qed.

(** X11.  From a frame to an array.  Take a lidar frame of height [n]
    with distinct column names, the container [Lidar.from_dataframe] builds
    from it, and a non-empty ordering that names only columns of kind
    float32 or int32.  Then [as_tensor] returns an array of the requested
    dtype and of shape [(n, len(field_ordering))] whose entry [(i, j)] is
    the [i]-th value of the column named by the [j]-th entry, converted to
    the promoted dtype and then to the requested one. *)
Theorem Lidar_frame_to_array
        (dataframe : DataFrame) (n : nat) (self : Lidar.t)
        (field_ordering : list string) (dt : ScalarType) :
  frame_ok dataframe n ->
  Lidar.from_dataframe dataframe = Ok self ->
  field_ordering <> [] ->
  (forall name, In name field_ordering ->
                exists kind values,
                  In (name, NumericSeries kind values) dataframe /\
                  dtype_in (Numeric kind) [Numeric Float32; Numeric Int32]
                  = true) ->
  exists out promoted,
    eval (Lidar.as_tensor field_ordering dt) self = Ok out /\
    dtype out = dt /\
    shape out = [n; List.length field_ordering] /\
    forall j name kind values,
      nth_error field_ordering j = Some name ->
      In (name, NumericSeries kind values) dataframe ->
      forall i,
        nth_error (data out) (i * List.length field_ordering + j) =
        option_map (fun v => cast dt (cast promoted v)) (nth_error values i).
Proof.
  intros [Hnd Hheight] Hfrom Hne Hcols.
  set (R := fun (name : string) (t : Tensor) =>
              exists kind values,
                In (name, NumericSeries kind values) dataframe /\
                t = mkTensor kind [List.length values] values /\
                dict_get (Lidar.vars self) name = Some (VTensor t)).
  assert (HR : exists ts, Forall2 R field_ordering ts).
  { apply Forall_exists_Forall2. apply Forall_forall. intros name Hname.
    destruct (Hcols name Hname) as (kind & values & Hin & Hkind).
    destruct (Lidar_stored_of_column _ _ _ _ Hnd Hfrom Hin) as (v & Hs & Hv).
    unfold Lidar_stored in Hs. cbn [Series_dtype] in Hs. rewrite Hkind in Hs.
    destruct Hs as (kind' & values' & Heq & ->). inversion Heq; subst.
    eexists. exists kind', values'. repeat split; [exact Hin | exact Hv]. }
  destruct HR as [ts HR].
  destruct (nonempty_Forall2 _ _ _ Hne HR) as (t0 & rest & ->).
  assert (Hall : Forall (fun t => shape t = [n] /\ Tensor_ok t) (t0 :: rest)).
  { apply Forall_forall. intros t Ht.
    destruct (Forall2_In_r _ _ _ HR _ Ht) as (name & _ & kind & values & Hin & -> & _).
    rewrite Forall_forall in Hheight. specialize (Hheight _ Hin).
    simpl in Hheight. subst n.
    split; [reflexivity |]. unfold Tensor_ok. simpl. lia. }
  destruct (stack_of_columns t0 rest n dt Hall) as (stacked & Hs & Hsh & Hent).
  exists (Tensor_type stacked dt), (dtype stacked).
  assert (Em : mapM (fun name => eval (Lidar.getattr name) self) field_ordering
               = Ok (map VTensor (t0 :: rest))).
  { apply mapM_Forall2. apply Forall2_map_r.
    eapply Forall2_impl; [| exact HR].
    intros name t (kind & values & _ & _ & Hv).
    now apply Lidar_getattr_tensor. }
  rewrite eval_Lidar_as_tensor, Em. cbn [bind Monad_Res]. rewrite Hs.
  cbn [bind Monad_Res ret]. split; [reflexivity |].
  split; [reflexivity |]. rewrite (Forall2_length HR).
  split; [exact Hsh |].
  intros j name kind values Hj Hin i.
  destruct (Forall2_nth_error _ _ _ HR _ _ Hj)
    as (t & Ht & kind' & values' & Hin' & -> & _).
  pose proof (dict_get_NoDup _ _ _ Hnd Hin) as E.
  rewrite (dict_get_NoDup _ _ _ Hnd Hin') in E. inversion E; subst.
  exact (Hent j _ Ht i).
Qed.

End TableToArray.

Section AnnotationsToArray.

Context {N : Numerics} {C : Collaborators}.

Lemma resolve_stored (self : Annotations.t) (name : string) (v : Value) :
  dict_get (Annotations.vars self) name = Some v ->
  eval (resolve name) self = Ok v.
Proof.
  intros Hv.
  assert (Hfield : In name Annotations.fields)
    by exact (dict_get_Some_keys _ _ _ Hv).
  assert (Hyaw : (name =? "yaw") = false).
  { apply String.eqb_neq. intros ->. simpl in Hfield. intuition discriminate. }
  rewrite eval_resolve, Hyaw. cbn [negb].
  now rewrite eval_Annotations_getattr, Hv.
Qed.

(** X12.  From a frame to an array, for annotations in QUATERNION_WXYZ
    mode.  Take an annotations frame of height [n] with distinct column
    names, the container [Annotations.from_dataframe] builds from it, and a
    non-empty ordering that names only columns of kind float32, float64 or
    int32.  Then [as_tensor] returns an array of the requested dtype and of
    shape [(n, len(field_ordering))] whose entry [(i, j)] is the [i]-th
    value of the column named by the [j]-th entry, converted to the
    promoted dtype and then to the requested one. *)
Theorem Annotations_frame_to_array
        (dataframe : DataFrame) (n : nat) (self : Annotations.t)
        (field_ordering : list string) (dt : ScalarType) :
  frame_ok dataframe n ->
  Annotations.from_dataframe dataframe = Ok self ->
  field_ordering <> [] ->
  (forall name, In name field_ordering ->
                exists kind values,
                  In (name, NumericSeries kind values) dataframe /\
                  dtype_in (Numeric kind)
                           [Numeric Float32; Numeric Float64; Numeric Int32]
                  = true) ->
  exists out promoted,
    eval (Annotations.as_tensor field_ordering QUATERNION_WXYZ dt) self
    = Ok out /\
    dtype out = dt /\
    shape out = [n; List.length field_ordering] /\
    forall j name kind values,
      nth_error field_ordering j = Some name ->
      In (name, NumericSeries kind values) dataframe ->
      forall i,
        nth_error (data out) (i * List.length field_ordering + j) =
        option_map (fun v => cast dt (cast promoted v)) (nth_error values i).
Proof.
  intros [Hnd Hheight] Hfrom Hne Hcols.
  set (R := fun (name : string) (t : Tensor) =>
              exists kind values,
                In (name, NumericSeries kind values) dataframe /\
                t = mkTensor kind [List.length values] values /\
                dict_get (Annotations.vars self) name = Some (VTensor t)).
  assert (HR : exists ts, Forall2 R field_ordering ts).
  { apply Forall_exists_Forall2. apply Forall_forall. intros name Hname.
    destruct (Hcols name Hname) as (kind & values & Hin & Hkind).
    destruct (Annotations_stored_of_column _ _ _ _ Hnd Hfrom Hin)
      as (v & Hconv & Hv).
    unfold Annotations.convert in Hconv. cbn [Series_dtype] in Hconv.
    rewrite Hkind in Hconv. cbn [to_numpy bind Monad_Res ret] in Hconv.
    inversion Hconv; subst v.
    eexists. exists kind, values. repeat split; [exact Hin | exact Hv]. }
  destruct HR as [ts HR].
  destruct (nonempty_Forall2 _ _ _ Hne HR) as (t0 & rest & ->).
  assert (Hall : Forall (fun t => shape t = [n] /\ Tensor_ok t) (t0 :: rest)).
  { apply Forall_forall. intros t Ht.
    destruct (Forall2_In_r _ _ _ HR _ Ht)
      as (name & _ & kind & values & Hin & -> & _).
    rewrite Forall_forall in Hheight. specialize (Hheight _ Hin).
    simpl in Hheight. subst n.
    split; [reflexivity |]. unfold Tensor_ok. simpl. lia. }
  destruct (stack_of_columns t0 rest n dt Hall) as (stacked & Hs & Hsh & Hent).
  exists (Tensor_type stacked dt), (dtype stacked).
  assert (Em : mapM (fun name => eval (resolve name) self) field_ordering
               = Ok (map VTensor (t0 :: rest))).
  { apply mapM_Forall2. apply Forall2_map_r.
    eapply Forall2_impl; [| exact HR].
    intros name t (kind & values & _ & _ & Hv).
    now apply resolve_stored. }
  rewrite eval_Annotations_as_tensor. unfold stack_fields.
  cbn [effective_ordering]. rewrite Em. cbn [bind Monad_Res]. rewrite Hs.
  cbn [bind Monad_Res ret]. split; [reflexivity |].
  split; [reflexivity |]. rewrite (Forall2_length HR).
  split; [exact Hsh |].
  intros j name kind values Hj Hin i.
  destruct (Forall2_nth_error _ _ _ HR _ _ Hj)
    as (t & Ht & kind' & values' & Hin' & -> & _).
  pose proof (dict_get_NoDup _ _ _ Hnd Hin) as E.
  rewrite (dict_get_NoDup _ _ _ Hnd Hin') in E. inversion E; subst.
  exact (Hent j _ Ht i).
Qed.

End AnnotationsToArray.

(* ================================================================== *)
(** * Further properties of [query_SE3] *)

Section PoseQueryMore.

Context {N : Numerics} {C : Collaborators}.

(** X13.  Duplicate timestamps.  When two or more rows carry the queried
    timestamp, [query_SE3] picks none of them: nothing is squeezed, and the
    collaborators receive all [k] matching rows, in frame order, as a
    [(k, 4)] quaternion array and a [(k, 3)] translation array. *)
Theorem query_SE3_duplicate_timestamps
        (poses : Poses.t) (timestamp_ns : Z) (matching : list Poses.row) :
  List.filter (fun r => Z.eqb (Poses.timestamp_ns r) timestamp_ns)
              (Poses.rows poses) = matching ->
  2 <= List.length matching ->
  query_SE3 poses timestamp_ns =
  (rotation <- quat_to_mat
                 (mkNDArray (Poses.float_dtype poses)
                            [List.length matching; 4]
                            (flat_map (fun r => [Poses.qw r; Poses.qx r;
                                                 Poses.qy r; Poses.qz r])
                                      matching)) ;;
   SE3_init rotation
            (mkNDArray (Poses.float_dtype poses)
                       [List.length matching; 3]
                       (flat_map (fun r => [Poses.tx_m r; Poses.ty_m r;
                                            Poses.tz_m r])
                                 matching))).
Proof.
  intros Hf Hk.
  unfold query_SE3, Poses.filter, Poses.select_to_numpy, squeeze.
  cbn [Poses.rows Poses.float_dtype nd_dtype nd_shape nd_data List.length
       List.filter map].
  rewrite Hf.
  assert (H1 : Nat.eqb (List.length matching) 1 = false)
    by (apply Nat.eqb_neq; lia).
  rewrite H1. reflexivity.
Qed.

End PoseQueryMore.

(* ================================================================== *)
(** * Repeated entries and ragged fields *)

Section RepeatedAndRagged.

Context {N : Numerics} {C : Collaborators}.

(** X14.  Entries are not deduplicated: an ordering that names the same
    field twice (or, for annotations, holds ["yaw"] more than once, as
    happens in YAW mode when the caller lists it) exports one column per
    occurrence, and the columns of one name are equal entry for entry. *)
Theorem repeated_entries_give_equal_columns :
  (forall (self : Lidar.t) (field_ordering : list string) (dt : ScalarType)
          (out : Tensor) (j j' : nat) (name : string),
      Lidar_ok self ->
      eval (Lidar.as_tensor field_ordering dt) self = Ok out ->
      nth_error field_ordering j = Some name ->
      nth_error field_ordering j' = Some name ->
      forall i,
        nth_error (data out) (i * List.length field_ordering + j)
        = nth_error (data out) (i * List.length field_ordering + j')) /\
  (forall (self : Annotations.t) (field_ordering : list string)
          (orientation_mode : OrientationMode) (dt : ScalarType)
          (out : Tensor) (j j' : nat) (name : string),
      Annotations_ok self -> quat_to_yaw_drops_last_axis ->
      eval (Annotations.as_tensor field_ordering orientation_mode dt) self
      = Ok out ->
      nth_error (effective_ordering orientation_mode field_ordering) j
      = Some name ->
      nth_error (effective_ordering orientation_mode field_ordering) j'
      = Some name ->
      forall i,
        nth_error (data out)
                  (i * List.length
                         (effective_ordering orientation_mode field_ordering)
                   + j)
        = nth_error (data out)
                    (i * List.length
                           (effective_ordering orientation_mode field_ordering)
                     + j')).
Proof.
  split.
  - intros self fo dt out j j' name Hok H Hj Hj' i.
    destruct (Lidar_as_tensor_Ok _ _ _ _ H)
      as (fields & stacked & HF & Hs & ->).
    assert (Hall : Forall (fun v => forall u, v = VTensor u -> Tensor_ok u)
                          fields).
    { apply Forall_forall. intros w Hin u ->.
      destruct (Forall2_In_r _ _ _ HF _ Hin) as (name' & _ & Hname).
      apply Lidar_getattr_tensor in Hname. eapply Hok; eauto. }
    destruct (Forall2_nth_error _ _ _ HF _ _ Hj) as (v & Hv & Hr).
    destruct (Forall2_nth_error _ _ _ HF _ _ Hj') as (v' & Hv' & Hr').
    assert (v' = v) by congruence. subst v'.
    destruct (stacked_columns fields stacked Hs Hall j v Hv)
      as (u & -> & Hc).
    destruct (stacked_columns fields stacked Hs Hall j' _ Hv')
      as (u' & Hu' & Hc').
    inversion Hu'; subst u'.
    rewrite (Forall2_length HF). now rewrite Hc, Hc'.
  - intros self fo om dt out j j' name Hok Hlaw H Hj Hj' i.
    rewrite eval_Annotations_as_tensor in H.
    destruct (export_columns _ _ _ _ Hok Hlaw H) as (promoted & Hcols).
    destruct (Hcols j name Hj) as (u & Hu & Hc).
    destruct (Hcols j' name Hj') as (u' & Hu' & Hc').
    rewrite Hc, Hc'. congruence.
Qed.

Lemma forallb_Exists_false {A : Type} (p : A -> bool) (l : list A) :
  Exists (fun a => p a = false) l -> forallb p l = false.
Proof.
  induction 1 as [a l Ha | a l _ IH]; simpl.
  - now rewrite Ha.
  - rewrite IH. apply andb_false_r.
Qed.

Lemma torch_stack_ragged (t0 : Tensor) (rest : list Tensor) :
  Exists (fun t => shape t <> shape t0) rest ->
  torch_stack (map VTensor (t0 :: rest)) = Err RuntimeError_sizes_differ.
Proof.
  intros Hex. unfold torch_stack.
  rewrite expect_tensors_map. cbn [bind Monad_Res].
  rewrite forallb_Exists_false; [reflexivity |].
  eapply Exists_impl; [| exact Hex]. intros t Ht. cbv beta.
  unfold shape_eqb.
  destruct (list_eq_dec Nat.eq_dec (shape t) (shape t0)); [contradiction |].
  reflexivity.
Qed.

(** X15.  Ragged fields.  When every entry resolves to a tensor but one
    of them has another shape than the first, [as_tensor] raises the
    [RuntimeError] of [torch.stack] and returns no array (so it is, for
    instance, with the derived two-dimensional [quaternion] beside a
    stored field). *)
Theorem as_tensor_ragged_fields :
  (forall (self : Lidar.t) (field_ordering : list string) (dt : ScalarType)
          (t0 : Tensor) (rest : list Tensor),
      Forall2 (fun name t =>
                 dict_get (Lidar.vars self) name = Some (VTensor t))
              field_ordering (t0 :: rest) ->
      Exists (fun t => shape t <> shape t0) rest ->
      eval (Lidar.as_tensor field_ordering dt) self
      = Err RuntimeError_sizes_differ) /\
  (forall (self : Annotations.t) (field_ordering : list string)
          (orientation_mode : OrientationMode) (dt : ScalarType)
          (t0 : Tensor) (rest : list Tensor),
      Forall2 (fun name t => eval (resolve name) self = Ok (VTensor t))
              (effective_ordering orientation_mode field_ordering)
              (t0 :: rest) ->
      Exists (fun t => shape t <> shape t0) rest ->
      eval (Annotations.as_tensor field_ordering orientation_mode dt) self
      = Err RuntimeError_sizes_differ).
Proof.
  split.
  - intros self fo dt t0 rest HF Hex. rewrite eval_Lidar_as_tensor.
    assert (Em : mapM (fun name => eval (Lidar.getattr name) self) fo
                 = Ok (map VTensor (t0 :: rest))).
    { apply mapM_Forall2. apply Forall2_map_r.
      eapply Forall2_impl; [| exact HF].
      intros name t Ht. now apply Lidar_getattr_tensor. }
    rewrite Em. cbn [bind Monad_Res].
    now rewrite (torch_stack_ragged t0 rest Hex).
  - intros self fo om dt t0 rest HF Hex.
    rewrite eval_Annotations_as_tensor. unfold stack_fields.
    assert (Em : mapM (fun name => eval (resolve name) self)
                      (effective_ordering om fo)
                 = Ok (map VTensor (t0 :: rest))).
    { apply mapM_Forall2. now apply Forall2_map_r. }
    rewrite Em. cbn [bind Monad_Res].
    now rewrite (torch_stack_ragged t0 rest Hex).
Qed.

End RepeatedAndRagged.

(* ================================================================== *)
(** * The further properties on the sample data *)

Lemma sample_lidar_ok : Lidar_ok sample_lidar.
Proof. intros name t H. unfold sample_lidar in H. each_field H. Qed.

Lemma sample_annotations_frame_ok : frame_ok sample_annotations_frame 2.
Proof.
  split; [exact sample_annotations_frame_names |]. repeat constructor.
Qed.

Lemma sample_lidar_frame_ok : frame_ok sample_lidar_frame 2.
Proof. split; [exact sample_lidar_frame_names |]. repeat constructor. Qed.

Lemma as_tensor_succeeds_iff_witness :
  (exists out,
      eval (@Lidar.as_tensor ZNumerics ZCollaborators ["x"; "y"] Float32)
           sample_lidar = Ok out) /\
  (exists out,
      eval (@Annotations.as_tensor ZNumerics ZCollaborators
              ["tx_m"] QUATERNION_WXYZ Float32) sample_annotations = Ok out).
Proof.
  split.
  - apply (proj1 (@as_tensor_succeeds_iff ZNumerics ZCollaborators)
                 sample_lidar ["x"; "y"] Float32).
    exists (@mkTensor ZNumerics Float32 [2] [10; 20]%Z),
           [@mkTensor ZNumerics Float32 [2] [11; 21]%Z].
    split; repeat constructor.
  - apply (proj2 (@as_tensor_succeeds_iff ZNumerics ZCollaborators)
                 sample_annotations ["tx_m"] QUATERNION_WXYZ Float32).
    exists (@mkTensor ZNumerics Float64 [2] [1; 2]%Z), [].
    split; repeat constructor.
Defined.

Lemma as_tensor_reports_first_non_tensor_witness :
  eval (@Lidar.as_tensor ZNumerics ZCollaborators ["y"; "x"; "z"] Float32)
       float64_x_lidar
  = Err (TypeError_expected_Tensor 1) /\
  eval (@Annotations.as_tensor ZNumerics ZCollaborators
          ["tx_m"; "category"; "ty_m"] QUATERNION_WXYZ Float32)
       sample_annotations
  = Err (TypeError_expected_Tensor 1).
Proof.
  split.
  - apply (proj1 (@as_tensor_reports_first_non_tensor ZNumerics ZCollaborators)
                 float64_x_lidar ["y"] ["z"]
                 [@mkTensor ZNumerics Float32 [2] [11; 21]%Z] "x"
                 (VSeries (float_column [10; 20]%Z)) Float32).
    + repeat constructor.
    + reflexivity.
    + intros t Ht. discriminate Ht.
    + repeat constructor.
  - apply (proj2 (@as_tensor_reports_first_non_tensor ZNumerics ZCollaborators)
                 sample_annotations ["tx_m"] ["ty_m"]
                 [@mkTensor ZNumerics Float64 [2] [1; 2]%Z] "category"
                 (VTuple (map (@PyStr ZNumerics)
                              ["REGULAR_VEHICLE"; "PEDESTRIAN"])) Float32).
    + repeat constructor.
    + reflexivity.
    + intros t Ht. discriminate Ht.
    + repeat constructor. eexists. reflexivity.
Defined.

Lemma as_tensor_empty_ordering_witness :
  eval (@Annotations.as_tensor ZNumerics ZCollaborators ["qw"; "qz"] YAW Float32)
       sample_annotations =
  (y <- eval (@Annotations.yaw_radians ZNumerics ZCollaborators)
             sample_annotations ;;
   stacked <- torch_stack [VTensor y] ;;
   ret (Tensor_type stacked Float32)) /\
  forall y : @Tensor ZNumerics, exists stacked,
      torch_stack [VTensor y] = Ok stacked /\ shape stacked = shape y ++ [1].
Proof.
  apply (proj2 (proj2 (@as_tensor_empty_ordering ZNumerics ZCollaborators))
               sample_annotations ["qw"; "qz"] Float32).
  repeat constructor.
Defined.

Lemma Lidar_export_columns_witness :
  dtype sample_lidar_export = Float32 /\
  exists promoted,
    forall j name, nth_error DEFAULT_LIDAR_TENSOR_FIELDS j = Some name ->
    exists u,
      dict_get (Lidar.vars sample_lidar) name = Some (VTensor u) /\
      forall i, nth_error (data sample_lidar_export) (i * 3 + j) =
                option_map (fun v => @cast ZNumerics Float32 (cast promoted v))
                           (nth_error (data u) i).
Proof.
  apply (@Lidar_export_columns ZNumerics ZCollaborators sample_lidar
           DEFAULT_LIDAR_TENSOR_FIELDS Float32 sample_lidar_export).
  - exact sample_lidar_ok.
  - reflexivity.
Defined.

Lemma Annotations_export_field_columns_witness :
  dtype sample_annotations_export = Float32 /\
  exists promoted,
    forall j name,
      nth_error (effective_ordering YAW DEFAULT_ANNOTATIONS_TENSOR_FIELDS) j
      = Some name ->
      In name Annotations.fields ->
      exists u,
        dict_get (Annotations.vars sample_annotations) name
        = Some (VTensor u) /\
        forall i,
          nth_error (data sample_annotations_export) (i * 10 + j) =
          option_map (fun v => @cast ZNumerics Float32 (cast promoted v))
                     (nth_error (data u) i).
Proof.
  apply (@Annotations_export_field_columns ZNumerics ZCollaborators
           sample_annotations DEFAULT_ANNOTATIONS_TENSOR_FIELDS YAW Float32
           sample_annotations_export).
  - exact sample_annotations_ok.
  - exact rowwise_yaw_drops_last_axis.
  - reflexivity.
Defined.

Lemma quaternion_scalar_first_witness :
  exists w x y z : @Tensor ZNumerics,
    Annotations.qw sample_annotations = VTensor w /\
    Annotations.qx sample_annotations = VTensor x /\
    Annotations.qy sample_annotations = VTensor y /\
    Annotations.qz sample_annotations = VTensor z /\
    [2; 4] = shape w ++ [4] /\
    forall i,
      nth_error [1; 0; 0; 1; 0; 0; 0; 5]%Z (i * 4 + 0)
      = option_map (@cast ZNumerics Float64) (nth_error (data w) i) /\
      nth_error [1; 0; 0; 1; 0; 0; 0; 5]%Z (i * 4 + 1)
      = option_map (@cast ZNumerics Float64) (nth_error (data x) i) /\
      nth_error [1; 0; 0; 1; 0; 0; 0; 5]%Z (i * 4 + 2)
      = option_map (@cast ZNumerics Float64) (nth_error (data y) i) /\
      nth_error [1; 0; 0; 1; 0; 0; 0; 5]%Z (i * 4 + 3)
      = option_map (@cast ZNumerics Float64) (nth_error (data z) i).
Proof.
  apply (@quaternion_scalar_first ZNumerics sample_annotations
           (@mkTensor ZNumerics Float64 [2; 4] [1; 0; 0; 1; 0; 0; 0; 5]%Z)).
  - exact sample_annotations_ok.
  - reflexivity.
Defined.

Lemma as_tensor_reads_only_named_fields_witness :
  eval (@Lidar.as_tensor ZNumerics ZCollaborators ["y"; "z"] Float32)
       sample_lidar
  = eval (@Lidar.as_tensor ZNumerics ZCollaborators ["y"; "z"] Float32)
         float64_x_lidar /\
  eval (@Annotations.as_tensor ZNumerics ZCollaborators
          DEFAULT_ANNOTATIONS_TENSOR_FIELDS YAW Float32) sample_annotations
  = eval (@Annotations.as_tensor ZNumerics ZCollaborators
            DEFAULT_ANNOTATIONS_TENSOR_FIELDS YAW Float32)
         unlabelled_annotations.
Proof.
  split.
  - apply (proj1 (@as_tensor_reads_only_named_fields ZNumerics ZCollaborators)
                 sample_lidar float64_x_lidar ["y"; "z"] Float32).
    intros name H. simpl in H.
    destruct H as [<- | [<- | []]]; reflexivity.
  - apply (proj2 (@as_tensor_reads_only_named_fields ZNumerics ZCollaborators)
                 sample_annotations unlabelled_annotations
                 DEFAULT_ANNOTATIONS_TENSOR_FIELDS YAW Float32).
    intros name H. simpl in H.
    repeat match type of H with
           | _ \/ _ => destruct H as [H | H]
           end;
      try contradiction; subst name; reflexivity.
Defined.

Lemma from_dataframe_row_count_witness :
  (Annotations_rows sample_annotations 2 /\
   Annotations_ok sample_annotations /\
   forall name v,
     dict_get (Annotations.vars sample_annotations) name = Some v ->
     List.length (Value_items v) = 2) /\
  (Lidar_rows float64_x_lidar 2 /\
   Lidar_ok float64_x_lidar /\
   forall name v,
     dict_get (Lidar.vars float64_x_lidar) name = Some v ->
     List.length (Value_items v) = 2).
Proof.
  split.
  - apply (proj1 (@from_dataframe_row_count ZNumerics)
                 sample_annotations_frame 2 sample_annotations).
    + exact sample_annotations_frame_ok.
    + reflexivity.
  - apply (proj2 (@from_dataframe_row_count ZNumerics)
                 float64_x_lidar_frame 2 float64_x_lidar).
    + split; [exact float64_x_lidar_frame_names | repeat constructor].
    + reflexivity.
Defined.

Lemma unconverted_column_is_not_exported_witness :
  (exists e,
      eval (@Annotations.as_tensor ZNumerics ZCollaborators
              ["tx_m"; "timestamp_ns"] YAW Float32) sample_annotations
      = Err e) /\
  (exists e,
      eval (@Lidar.as_tensor ZNumerics ZCollaborators
              DEFAULT_LIDAR_TENSOR_FIELDS Float32) float64_x_lidar
      = Err e).
Proof.
  split.
  - apply (proj1 (@unconverted_column_is_not_exported ZNumerics ZCollaborators)
                 sample_annotations_frame sample_annotations "timestamp_ns"
                 (@NumericSeries ZNumerics Int64
                    [315969904359876000; 315969904359876000]%Z)
                 ["tx_m"; "timestamp_ns"] YAW Float32).
    + exact sample_annotations_frame_names.
    + reflexivity.
    + left. reflexivity.
    + reflexivity.
    + simpl. tauto.
  - apply (proj2 (@unconverted_column_is_not_exported ZNumerics ZCollaborators)
                 float64_x_lidar_frame float64_x_lidar "x"
                 (float_column [10; 20]%Z)
                 DEFAULT_LIDAR_TENSOR_FIELDS Float32).
    + exact float64_x_lidar_frame_names.
    + reflexivity.
    + left. reflexivity.
    + reflexivity.
    + simpl. tauto.
Defined.

Lemma from_dataframe_ignores_column_order_witness :
  @Annotations.from_dataframe ZNumerics (rev sample_annotations_frame)
  = Ok sample_annotations /\
  @Lidar.from_dataframe ZNumerics (rev sample_lidar_frame) = Ok sample_lidar.
Proof.
  split.
  - apply (proj1 (@from_dataframe_ignores_column_order ZNumerics)
                 sample_annotations_frame (rev sample_annotations_frame)
                 sample_annotations).
    + exact sample_annotations_frame_names.
    + unfold sample_annotations_frame, keys. simpl. distinct_names.
    + intros column. apply in_rev.
    + reflexivity.
  - apply (proj2 (@from_dataframe_ignores_column_order ZNumerics)
                 sample_lidar_frame (rev sample_lidar_frame) sample_lidar).
    + exact sample_lidar_frame_names.
    + unfold sample_lidar_frame, keys. simpl. distinct_names.
    + intros column. apply in_rev.
    + reflexivity.
Defined.

Ltac named_column H :=
  simpl in H;
  repeat match type of H with
         | _ \/ _ => destruct H as [H | H]
         end;
  try contradiction; subst;
  eexists; eexists;
  (split; [simpl; repeat (first [left; reflexivity | right]) | reflexivity]).

Lemma Lidar_frame_to_array_witness :
  exists out promoted,
    eval (@Lidar.as_tensor ZNumerics ZCollaborators
            DEFAULT_LIDAR_TENSOR_FIELDS Float32) sample_lidar = Ok out /\
    dtype out = Float32 /\
    shape out = [2; 3] /\
    forall j name kind values,
      nth_error DEFAULT_LIDAR_TENSOR_FIELDS j = Some name ->
      In (name, @NumericSeries ZNumerics kind values) sample_lidar_frame ->
      forall i,
        nth_error (data out) (i * 3 + j) =
        option_map (fun v => @cast ZNumerics Float32 (cast promoted v))
                   (nth_error values i).
Proof.
  apply (@Lidar_frame_to_array ZNumerics ZCollaborators
           sample_lidar_frame 2 sample_lidar
           DEFAULT_LIDAR_TENSOR_FIELDS Float32).
  - exact sample_lidar_frame_ok.
  - reflexivity.
  - discriminate.
  - intros name H. named_column H.
Defined.

Lemma Annotations_frame_to_array_witness :
  exists out promoted,
    eval (@Annotations.as_tensor ZNumerics ZCollaborators
            ["tx_m"; "qw"; "vz_m"] QUATERNION_WXYZ Float32)
         sample_annotations = Ok out /\
    dtype out = Float32 /\
    shape out = [2; 3] /\
    forall j name kind values,
      nth_error ["tx_m"; "qw"; "vz_m"] j = Some name ->
      In (name, @NumericSeries ZNumerics kind values)
         sample_annotations_frame ->
      forall i,
        nth_error (data out) (i * 3 + j) =
        option_map (fun v => @cast ZNumerics Float32 (cast promoted v))
                   (nth_error values i).
Proof.
  apply (@Annotations_frame_to_array ZNumerics ZCollaborators
           sample_annotations_frame 2 sample_annotations
           ["tx_m"; "qw"; "vz_m"] Float32).
  - exact sample_annotations_frame_ok.
  - reflexivity.
  - discriminate.
  - intros name H. named_column H.
Defined.

Lemma query_SE3_duplicate_timestamps_witness :
  @query_SE3 ZNumerics ZCollaborators duplicate_poses 2%Z =
  (rotation <- @quat_to_mat ZNumerics ZCollaborators
                 (@mkNDArray ZNumerics Float64 [2; 4]
                             [0; 0; 0; 1; 1; 0; 0; 0]%Z) ;;
   @SE3_init ZNumerics ZCollaborators rotation
             (@mkNDArray ZNumerics Float64 [2; 3]
                         [40; 50; 60; 41; 51; 61]%Z)).
Proof.
  apply (@query_SE3_duplicate_timestamps ZNumerics ZCollaborators
           duplicate_poses 2%Z [pose_2; pose_2_again]).
  - reflexivity.
  - simpl. lia.
Defined.

Lemma repeated_entries_give_equal_columns_witness :
  (forall i,
      nth_error [10; 11; 10; 20; 21; 20]%Z (i * 3 + 0)
      = nth_error [10; 11; 10; 20; 21; 20]%Z (i * 3 + 2)) /\
  (forall i,
      nth_error [2; 2; 0; 0]%Z (i * 2 + 0)
      = nth_error [2; 2; 0; 0]%Z (i * 2 + 1)).
Proof.
  split.
  - apply (proj1 (@repeated_entries_give_equal_columns ZNumerics ZCollaborators)
                 sample_lidar ["x"; "y"; "x"] Float32
                 (@mkTensor ZNumerics Float32 [2; 3]
                    [10; 11; 10; 20; 21; 20]%Z)
                 0 2 "x").
    + exact sample_lidar_ok.
    + reflexivity.
    + reflexivity.
    + reflexivity.
  - apply (proj2 (@repeated_entries_give_equal_columns ZNumerics ZCollaborators)
                 sample_annotations ["yaw"] YAW Float32
                 (@mkTensor ZNumerics Float32 [2; 2] [2; 2; 0; 0]%Z)
                 0 1 "yaw").
    + exact sample_annotations_ok.
    + exact rowwise_yaw_drops_last_axis.
    + reflexivity.
    + reflexivity.
    + reflexivity.
Defined.

Lemma as_tensor_ragged_fields_witness :
  eval (@Lidar.as_tensor ZNumerics ZCollaborators ["x"; "y"] Float32)
       ragged_lidar
  = Err RuntimeError_sizes_differ /\
  eval (@Annotations.as_tensor ZNumerics ZCollaborators
          ["tx_m"; "quaternion"] QUATERNION_WXYZ Float32) sample_annotations
  = Err RuntimeError_sizes_differ.
Proof.
  split.
  - apply (proj1 (@as_tensor_ragged_fields ZNumerics ZCollaborators)
                 ragged_lidar ["x"; "y"] Float32
                 (@mkTensor ZNumerics Float32 [2] [10; 20]%Z)
                 [@mkTensor ZNumerics Float32 [3] [11; 21; 31]%Z]).
    + repeat constructor.
    + constructor. simpl. discriminate.
  - apply (proj2 (@as_tensor_ragged_fields ZNumerics ZCollaborators)
                 sample_annotations ["tx_m"; "quaternion"] QUATERNION_WXYZ
                 Float32
                 (@mkTensor ZNumerics Float64 [2] [1; 2]%Z)
                 [@mkTensor ZNumerics Float64 [2; 4]
                    [1; 0; 0; 1; 0; 0; 0; 5]%Z]).
    + repeat constructor.
    + constructor. simpl. discriminate.
Defined.
